(** * Timebook: the timesheet state engine of [timebook/commands.py]

    A shallow embedding of the commands that read and write the timebook
    store ([in], [out], [alter], [switch], [kill], [display]) together with
    the transaction wrapper [run_command], and the properties of the
    natural-language specification that concern them.

    Python integers are unbounded, so timestamps and ids are [Z]; a
    Python string is a [string] that holds the bytes of its UTF-8
    encoding.  [None] is [option]'s [None]. *)

From Stdlib Require Import ZArith List String Ascii Bool Lia.
From Stdlib Require Import DecimalString Sorted Permutation.
From Stdlib Require OrderedTypeEx.
Import ListNotations.

Local Open Scope string_scope.
Local Open Scope Z_scope.
Local Open Scope list_scope.

Infix "+++" := String.append (at level 60, right associativity).

(** ** Python built-ins used by the commands *)

Module Py.

(** The double-quote character, for messages that contain it. *)
Definition dquote : string := String (ascii_of_nat 34) EmptyString.

(** The newline that [print] appends by default. *)
Definition newline : string := String (ascii_of_nat 10) EmptyString.

(** [sep.join(parts)]. *)
Fixpoint join (sep : string) (parts : list string) : string :=
  match parts with
  | [] => EmptyString
  | [p] => p
  | p :: rest => p +++ sep +++ join sep rest
  end.

(** [x or None] for a string [x]: the empty string is falsy. *)
Definition or_None (s : string) : option string :=
  if String.eqb s EmptyString then None else Some s.

(** Truth value of an optional string argument ([if timesheet:]):
    [None] and the empty string are falsy. *)
Definition truthy (o : option string) : bool :=
  match o with
  | None => false
  | Some s => negb (String.eqb s EmptyString)
  end.

(** Truth value of an optional integer ([if not timestamp:]):
    [None] and [0] are falsy. *)
Definition truthy_int (o : option Z) : bool :=
  match o with
  | None => false
  | Some z => negb (z =? 0)
  end.

(** The characters [str.strip()] removes are those [str.isspace] accepts,
    the table of CPython 3 ([_PyUnicode_IsWhitespace]): U+0009..U+000D,
    U+001C..U+0020, U+0085, U+00A0, U+1680, U+2000..U+200A, U+2028,
    U+2029, U+202F, U+205F and U+3000.  A string holds the UTF-8 bytes of
    the text, so these are sequences of one, two or three bytes.
    [isspace]: those of one byte, 9..13 and 28..32. *)
Definition isspace (c : ascii) : bool :=
  let n := nat_of_ascii c in
  ((9 <=? n) && (n <=? 13) || (28 <=? n) && (n <=? 32))%nat.

(** Those of two bytes: U+0085 is [C2 85] and U+00A0 is [C2 A0]. *)
Definition isspace2 (c1 c2 : ascii) : bool :=
  let n1 := nat_of_ascii c1 in
  let n2 := nat_of_ascii c2 in
  ((n1 =? 194) && ((n2 =? 133) || (n2 =? 160)))%nat.

(** Those of three bytes: U+1680 is [E1 9A 80]; U+2000..U+200A are
    [E2 80 80] to [E2 80 8A]; U+2028, U+2029 and U+202F are [E2 80 A8],
    [E2 80 A9] and [E2 80 AF]; U+205F is [E2 81 9F]; U+3000 is
    [E3 80 80]. *)
Definition isspace3 (c1 c2 c3 : ascii) : bool :=
  let n1 := nat_of_ascii c1 in
  let n2 := nat_of_ascii c2 in
  let n3 := nat_of_ascii c3 in
  ((n1 =? 225) && (n2 =? 154) && (n3 =? 128)
   || (n1 =? 226) && (n2 =? 128)
      && ((128 <=? n3) && (n3 <=? 138)
          || (n3 =? 168) || (n3 =? 169) || (n3 =? 175))
   || (n1 =? 226) && (n2 =? 129) && (n3 =? 159)
   || (n1 =? 227) && (n2 =? 128) && (n3 =? 128))%nat.

(** [str.lstrip()]: the white-space characters at the front are dropped,
    whatever the number of their bytes. *)
Fixpoint lstrip (s : string) : string :=
  match s with
  | EmptyString => EmptyString
  | String c1 s1 =>
      if isspace c1 then lstrip s1
      else
        match s1 with
        | EmptyString => s
        | String c2 s2 =>
            if isspace2 c1 c2 then lstrip s2
            else
              match s2 with
              | EmptyString => s
              | String c3 s3 => if isspace3 c1 c2 c3 then lstrip s3 else s
              end
        end
  end.

(** The string is made of white-space characters only. *)
Definition all_space (s : string) : bool :=
  match lstrip s with
  | EmptyString => true
  | String _ _ => false
  end.

(** [str.rstrip()]: a byte is kept unless white space only runs from it
    to the end.  No white-space character starts with a continuation
    byte of UTF-8, so a character is kept or dropped as a whole. *)
Fixpoint rstrip (s : string) : string :=
  match s with
  | EmptyString => EmptyString
  | String c s' => if all_space s then EmptyString else String c (rstrip s')
  end.

Definition strip (s : string) : string := rstrip (lstrip s).

Definition lower_char (c : ascii) : ascii :=
  let n := nat_of_ascii c in
  if ((65 <=? n) && (n <=? 90))%nat then ascii_of_nat (n + 32) else c.

(** [str.lower()] on the bytes: the letters [A] to [Z] become [a] to [z]
    and the bytes of the other characters are left as they are.  Python
    also maps capital letters outside ASCII; it maps none of them to [y],
    [e] or [s], so the comparison with the answers [y] and [yes], the one
    use of [lower] in the commands, comes out the same. *)
Fixpoint lower (s : string) : string :=
  match s with
  | EmptyString => EmptyString
  | String c s' => String (lower_char c) (lower s')
  end.

(** ['%d' % n] and ['%s' % n] for an integer. *)
Definition str_of_int (z : Z) : string :=
  NilZero.string_of_int (Z.to_int z).

(** [x in xs] for strings. *)
Definition contains (xs : list string) (x : string) : bool :=
  existsb (String.eqb x) xs.

End Py.

(** ** The store: the [entry] table and the [meta] row *)

(** Modelled from the spec: the schema is created in [timebook/db.py],
    which is missing; one row of [entry], with the columns of the data
    model in the order the tests read them.  [end_time = None] is SQL
    NULL: the interval is still active. *)
Record entry : Type := mkEntry {
  id : Z;
  sheet : string;
  start_time : Z;
  end_time : option Z;
  description : option string;
  extra : option string
}.

(** Modelled from the spec: the persisted state behind the class
    [Database] of [timebook/db.py], which is missing.  [entry_table] lists
    the rows in rowid order, which is the order a table scan yields them
    in; [current_sheet] is the value of the single [meta] row keyed
    ['current_sheet']. *)
Record database : Type := mkDb {
  entry_table : list entry;
  current_sheet : string
}.

(** What a command leaves on standard output. *)
Inductive cell : Type :=
| CStr (s : string)
| CInt (z : Z)
| CNone.

Inductive output : Type :=
| Print (text : string) (end_ : string)
| PrintTable (table : list (list string)) (footer_row : bool)
| CsvRow (cells : list cell).

(** The exceptions the commands raise. *)
Inductive error : Type :=
| SystemExit (msg : string)
| NoMatch (msg : string)
| AmbiguousLookup (msg : string) (matches : list string)
| AssertionError
| StopIteration
| TypeError
| UnboundLocalError (name : string).

(** The state a command runs in: the store and what was printed so far. *)
Record state : Type := mkState {
  db : database;
  stdout : list output
}.

(** A command either returns or raises; both carry the state reached. *)
Inductive outcome (A : Type) : Type :=
| Done (a : A) (s : state)
| Raised (e : error) (s : state).
Arguments Done {A} a s.
Arguments Raised {A} e s.

Definition state_of {A : Type} (o : outcome A) : state :=
  match o with
  | Done _ s => s
  | Raised _ s => s
  end.

Definition cmd (A : Type) : Type := state -> outcome A.

Definition ret {A : Type} (a : A) : cmd A := fun s => Done a s.

Definition bind {A B : Type} (c : cmd A) (k : A -> cmd B) : cmd B :=
  fun s =>
    match c s with
    | Done a s' => k a s'
    | Raised e s' => Raised e s'
    end.

Definition raise {A : Type} (e : error) : cmd A := fun s => Raised e s.

(** A [select]: reads the store. *)
Definition query {A : Type} (f : database -> A) : cmd A :=
  fun s => Done (f (db s)) s.

(** An [insert], [update] or [delete]: rewrites the store. *)
Definition execute (f : database -> database) : cmd unit :=
  fun s => Done tt (mkState (f (db s)) (stdout s)).

Definition emit (o : output) : cmd unit :=
  fun s => Done tt (mkState (db s) (stdout s ++ [o])).

(** [print(text)] and [print(text, end=e)]. *)
Definition print (text : string) : cmd unit := emit (Print text Py.newline).
Definition print_end (text e : string) : cmd unit := emit (Print text e).

Declare Scope cmd_scope.
Delimit Scope cmd_scope with cmd.
Notation "x <- c ;; k" := (bind c (fun x => k))
  (at level 100, c at next level, right associativity) : cmd_scope.
Notation "c ;;; k" := (bind c (fun _ => k))
  (at level 100, right associativity) : cmd_scope.
Local Open Scope cmd_scope.

(** The host the program runs on: the clock, the local time zone and the
    formatting functions of the Python library and of [cmdutil]. *)
Class Host : Type := {
  (** [strftime('%s', 'now')] and [time.time()], in whole seconds. *)
  now : Z;
  (** [date(t, 'unixepoch', 'localtime')]: the local calendar day of [t],
      as a day number; the text ['YYYY-MM-DD'] that SQLite returns sorts
      the same way. *)
  local_day : Z -> Z;
  (** [time.strftime('%H:%M:%S', time.localtime(t))]. *)
  displ_time : Z -> string;
  (** [time.strftime('%b %d, %Y', time.localtime(t))]. *)
  displ_date : Z -> string;
  (** [cmdutil.timedelta_hms_display(timedelta(seconds=t))]. *)
  displ_total : Z -> string;
  (** [datetime.fromtimestamp(t).strftime('%m/%d/%Y %H:%M:%S')]. *)
  csv_time : Z -> string;
  (** [str(timedelta(seconds=t))]. *)
  str_timedelta : Z -> string
}.

(** ** Reading the store: [timebook/dbutil.py] and [timebook/cmdutil.py]

    Neither module is among the sources; the helpers the commands call are
    modelled from the specification's data model and contracts. *)

Definition is_active (e : entry) : bool :=
  match end_time e with
  | None => true
  | Some _ => false
  end.

Definition on_sheet (s : string) (e : entry) : bool := String.eqb (sheet e) s.

Definition active_on (s : string) (e : entry) : bool :=
  on_sheet s e && is_active e.

Module dbutil.

(** Modelled from the spec: [dbutil.get_current_sheet] is missing; the
    value of the singleton [meta] row keyed [current_sheet]. *)
Definition get_current_sheet : cmd string := query current_sheet.

(** Modelled from the spec: [dbutil.get_active_info] is missing; for the
    entry of the sheet with null [end_time], its elapsed time
    ([now - start_time]) and its description, [None] when the sheet has
    no such entry. *)
Definition get_active_info `{Host} (s : string)
  : cmd (option (Z * option string)) :=
  query (fun d =>
    match find (active_on s) (entry_table d) with
    | Some e => Some (now - start_time e, description e)
    | None => None
    end).

(** Modelled from the spec: [dbutil.get_current_start_time] is missing;
    the id and [start_time] of the active entry of the current sheet,
    [None] when no entry of that sheet has a null [end_time]. *)
Definition get_current_start_time : cmd (option (Z * Z)) :=
  query (fun d =>
    match find (active_on (current_sheet d)) (entry_table d) with
    | Some e => Some (id e, start_time e)
    | None => None
    end).

(** Modelled from the spec: [dbutil.get_current_active_info] is missing;
    the id and elapsed time of the active entry of the current sheet,
    [None] when none is active. *)
Definition get_current_active_info `{Host} : cmd (option (Z * Z)) :=
  query (fun d =>
    match find (active_on (current_sheet d)) (entry_table d) with
    | Some e => Some (id e, now - start_time e)
    | None => None
    end).

(** Modelled from the spec: the most recently closed entry is the closed
    entry with the greatest [end_time]; it is kept as the pair of its
    [end_time] and description, and of two entries closed at the same
    instant the later row wins. *)
Definition later_clockout (best : option (Z * option string)) (e : entry)
  : option (Z * option string) :=
  match end_time e with
  | None => best
  | Some t =>
      match best with
      | None => Some (t, description e)
      | Some (t', _) => if t' <=? t then Some (t, description e) else best
      end
  end.

Definition most_recent_closed (es : list entry)
  : option (Z * option string) :=
  fold_left later_clockout es None.

(** Modelled from the spec: [dbutil.get_most_recent_clockout] is missing;
    the [end_time] and description of the most recently closed entry of
    the sheet, [None] when the sheet has no closed entry. *)
Definition get_most_recent_clockout (s : string)
  : cmd (option (Z * option string)) :=
  query (fun d => most_recent_closed (filter (on_sheet s) (entry_table d))).

(** Modelled from the spec: [dbutil.get_entry_count] is missing; the
    number of entries of the sheet. *)
Definition get_entry_count (s : string) : cmd Z :=
  query (fun d => Z.of_nat (List.length (filter (on_sheet s) (entry_table d)))).

(** Modelled from the spec: [dbutil.get_sheet_names] is missing; the
    distinct [sheet] values present in [entry]. *)
Definition get_sheet_names : cmd (list string) :=
  query (fun d => nodup string_dec (map sheet (entry_table d))).

End dbutil.

Module cmdutil.

(** Modelled from the spec: [cmdutil.parse_date_time_or_now] is missing;
    the explicit timestamp when one is given, otherwise now.  The text
    of [--at] is taken as already parsed. *)
Definition parse_date_time_or_now `{Host} (at_ : option Z) : Z :=
  match at_ with
  | Some t => t
  | None => now
  end.

(** Modelled from the spec: [cmdutil.complete] is missing; an exact match
    wins, otherwise the names that have the candidate as a prefix are
    collected: none is [NoMatch], one resolves, several are
    [AmbiguousLookup] with the matching names. *)
Definition complete (names : list string) (candidate kind : string)
  : cmd string :=
  if Py.contains names candidate then ret candidate
  else
    match filter (String.prefix candidate) names with
    | [] => raise (NoMatch (kind +++ " " +++ candidate))
    | [n] => ret n
    | ms => raise (AmbiguousLookup (kind +++ " " +++ candidate) ms)
    end.

End cmdutil.

(** ** Writing the store: the statements of [commands.py] *)

Module sql.

(** Modelled from the spec: the schema is in [timebook/db.py], which is
    missing; [id] is unique and assigned by the store, here one more than
    the greatest id present (1 for an empty table). *)
Definition next_id (es : list entry) : Z :=
  fold_right (fun e m => Z.max (id e) m) 0 es + 1.

(** [insert into entry (sheet, start_time, description, extra)
     values (?,?,?,?)]. *)
Definition insert_entry (s : string) (t : Z) (descr ext : option string)
  : cmd unit :=
  execute (fun d =>
    mkDb (entry_table d ++ [mkEntry (next_id (entry_table d)) s t None descr ext])
         (current_sheet d)).

(** [update meta set value = ? where key = 'current_sheet']. *)
Definition update_current_sheet (s : string) : cmd unit :=
  execute (fun d => mkDb (entry_table d) s).

Definition set_end_time (t : Z) (e : entry) : entry :=
  mkEntry (id e) (sheet e) (start_time e) (Some t) (description e) (extra e).

Definition set_description (descr : string) (e : entry) : entry :=
  mkEntry (id e) (sheet e) (start_time e) (end_time e) (Some descr) (extra e).

(** [update entry set ... where entry.id = ?]. *)
Definition update_where_id (f : entry -> entry) (i : Z) (es : list entry)
  : list entry :=
  map (fun e => if id e =? i then f e else e) es.

(** [update entry set end_time = ? where entry.id = ?]. *)
Definition update_end_time (t i : Z) : cmd unit :=
  execute (fun d =>
    mkDb (update_where_id (set_end_time t) i (entry_table d)) (current_sheet d)).

(** [update entry set description = ? where entry.id = ?]. *)
Definition update_description (descr : string) (i : Z) : cmd unit :=
  execute (fun d =>
    mkDb (update_where_id (set_description descr) i (entry_table d))
         (current_sheet d)).

(** [delete from entry where sheet = ?]. *)
Definition delete_sheet (s : string) : cmd unit :=
  execute (fun d =>
    mkDb (filter (fun e => negb (on_sheet s e)) (entry_table d))
         (current_sheet d)).

End sql.

(** ** The commands of [commands.py]

    No hook is configured ([pre_hook] and [post_hook] return their identity
    defaults), so a decorated command is the function itself. *)

Section Commands.

Context `{Host}.

(** The messages of the [SystemExit] failures. *)
Definition resume_conflict : error :=
  SystemExit (Py.dquote +++ "--resume" +++ Py.dquote +++ " already sets a description").
Definition SheetAlreadyActive : error := SystemExit "error: timesheet already active".
Definition TimeOrderingViolation : error :=
  SystemExit "error: time periods could end up overlapping".
Definition SheetNotActive : error := SystemExit "error: timesheet not active".
Definition NegativeDuration : error := SystemExit "Error: Negative active time".

(** [ngettext(singular, plural, n)] with no translation catalogue. *)
Definition ngettext (singular plural : string) (n : Z) : string :=
  if n =? 1 then singular else plural.

(** [switch(db, timesheet, verbose=False)]. *)
Definition switch (timesheet : string) (verbose : bool) : cmd unit :=
  cur <- dbutil.get_current_sheet ;;
  (if negb (String.eqb cur timesheet)
   then sql.update_current_sheet timesheet
   else ret tt) ;;;
  if verbose then
    entry_count <- dbutil.get_entry_count timesheet ;;
    if entry_count =? 0 then
      print ("switched to empty timesheet " +++ Py.dquote +++ timesheet +++ Py.dquote)
    else
      print (ngettext
        ("switched to timesheet " +++ Py.dquote +++ timesheet +++ Py.dquote +++ " (1 entry)")
        ("switched to timesheet " +++ Py.dquote +++ timesheet +++ Py.dquote +++ " ("
           +++ Py.str_of_int entry_count +++ " entries)")
        entry_count)
  else ret tt.

(** The first two lines of [clock_out]: [if not timestamp: timestamp =
    cmdutil.parse_date_time_or_now(at)].  A [timestamp] of [0] is falsy
    and is replaced like [None]. *)
Definition chosen_timestamp (at_ timestamp : option Z) : Z :=
  match timestamp with
  | Some t => if Py.truthy_int timestamp then t
              else cmdutil.parse_date_time_or_now at_
  | None => cmdutil.parse_date_time_or_now at_
  end.

(** [clock_out(db, at=None, verbose=False, timestamp=None)]. *)
Definition clock_out (at_ : option Z) (verbose : bool) (timestamp : option Z)
  : cmd unit :=
  let timestamp := chosen_timestamp at_ timestamp in
  active <- dbutil.get_current_start_time ;;
  match active with
  | None => raise SheetNotActive
  | Some (active_id, start_time) =>
      let active_time := timestamp - start_time in
      (if verbose then print (str_timedelta active_time) else ret tt) ;;;
      if active_time <? 0 then raise NegativeDuration
      else sql.update_end_time timestamp active_id
  end.

(** [out(db, at=None, verbose=False)]. *)
Definition out (at_ : option Z) (verbose : bool) : cmd unit :=
  clock_out at_ verbose None.

(** [in_(db, description='', switch=None, out=False, at=None, resume=False,
    extra=None)].  [description] is the list of words given on the command
    line; the empty list also stands for the default ['']. *)
Definition in_ (description : list string) (switch_to : option string)
  (out : bool) (at_ : option Z) (resume : bool) (extra : option string)
  : cmd unit :=
  sheet <- match switch_to with
           | Some s => if Py.truthy switch_to
                       then switch s false ;;; ret s
                       else dbutil.get_current_sheet
           | None => dbutil.get_current_sheet
           end ;;
  if resume && negb (Nat.eqb (List.length description) 0)
  then raise resume_conflict
  else
    let timestamp := cmdutil.parse_date_time_or_now at_ in
    (if out then clock_out None false (Some timestamp) else ret tt) ;;;
    running <- dbutil.get_active_info sheet ;;
    match running with
    | Some _ => raise SheetAlreadyActive
    | None =>
        most_recent_clockout <- dbutil.get_most_recent_clockout sheet ;;
        let description := Py.or_None (Py.join " " description) in
        match most_recent_clockout with
        | Some (previous_timestamp, previous_description) =>
            if timestamp <? previous_timestamp
            then raise TimeOrderingViolation
            else
              sql.insert_entry sheet timestamp
                (if resume then previous_description else description) extra
        | None => sql.insert_entry sheet timestamp description extra
        end
    end.

Definition yes_answers : list string := ["y"; "yes"].

(** [kill(db, timesheet=None)].  [answer] is what [input('')] returns,
    [None] when it raises [KeyboardInterrupt] or [EOFError]. *)
Definition kill (timesheet : option string) (answer : option string)
  : cmd unit :=
  target <- match timesheet with
            | Some s => if Py.truthy timesheet
                        then ret (s, false)
                        else cur <- dbutil.get_current_sheet ;; ret (cur, true)
            | None => cur <- dbutil.get_current_sheet ;; ret (cur, true)
            end ;;
  let '(to_delete, switch_to_default) := target in
  print_end ("delete timesheet " +++ to_delete +++ "?") " " ;;;
  confirm <- match answer with
             | Some a => ret (Py.contains yes_answers (Py.lower (Py.strip a)))
             | None => print EmptyString ;;; ret false
             end ;;
  if negb confirm then print "canceled"
  else
    sql.delete_sheet to_delete ;;;
    if switch_to_default then switch "default" false else ret tt.

(** [alter(db, description)]. *)
Definition alter (description : list string) : cmd unit :=
  active <- dbutil.get_current_active_info ;;
  match active with
  | None => raise SheetNotActive
  | Some (entry_id, _) =>
      sql.update_description (Py.join " " description) entry_id
  end.

End Commands.

(** ** Reports: [display], [format_csv] and [format_timebook] *)

Section Reports.

Context `{Host}.

(** The text [display] appends to the [where] clause of every query:
    [and start_time >= start] and [and end_time <= end], each present when
    its bound is given.  The dates are taken as already parsed. *)
Record where_clause : Type := mkWhere {
  start_bound : option Z;
  end_bound : option Z
}.

(** The truth of the appended conditions on a row.  A comparison with a
    NULL [end_time] is NULL in SQL, and the row is not selected. *)
Definition where_holds (w : where_clause) (e : entry) : bool :=
  match start_bound w with
  | Some b => b <=? start_time e
  | None => true
  end
  &&
  match end_bound w with
  | Some b =>
      match end_time e with
      | Some t => t <=? b
      | None => false
      end
  | None => true
  end.

(** [where sheet = ? <where>]. *)
Definition selected (s : string) (w : where_clause) (e : entry) : bool :=
  on_sheet s e && where_holds w e.

(** [ifnull(end_time, strftime('%s', 'now')) - start_time]. *)
Definition duration (e : entry) : Z :=
  match end_time e with
  | Some t => t - start_time e
  | None => now - start_time e
  end.

(** [ifnull(sum(...), 0)] over the durations of the rows. *)
Definition sum_durations (es : list entry) : Z :=
  fold_right (fun e acc => duration e + acc) 0 es.

(** [ifnull(description, '')]. *)
Definition description_or_empty (e : entry) : string :=
  match description e with
  | Some d => d
  | None => EmptyString
  end.

(** *** CSV *)

(** The cell for a nullable text column. *)
Definition text_cell (o : option string) : cell :=
  match o with
  | Some s => CStr s
  | None => CNone
  end.

(** [(format(row[0]), format(row[1]), row[2], row[3])]; [format] of a NULL
    end time would raise, which [None] stands for. *)
Definition csv_row (e : entry) : option (list cell) :=
  match end_time e with
  | Some t =>
      Some [CStr (csv_time (start_time e)); CStr (csv_time t);
            CInt (duration e); text_cell (description e)]
  | None => None
  end.

Fixpoint csv_rows (es : list entry) : option (list (list cell)) :=
  match es with
  | [] => Some []
  | e :: es' =>
      match csv_row e, csv_rows es' with
      | Some r, Some rs => Some (r :: rs)
      | _, _ => None
      end
  end.

(** [writer.writerows(rows)]. *)
Fixpoint writerows (rows : list (list cell)) : cmd unit :=
  match rows with
  | [] => ret tt
  | r :: rs => emit (CsvRow r) ;;; writerows rs
  end.

(** The rows of [format_csv]'s query: [where sheet = ? and end_time is not
    null <where>]. *)
Definition csv_selected (s : string) (w : where_clause) (d : database)
  : list entry :=
  filter (fun e => on_sheet s e && negb (is_active e) && where_holds w e)
         (entry_table d).

Definition total_formula (n : nat) : string :=
  "=SUM(C2:C" +++ Py.str_of_int (Z.of_nat n + 1) +++ ")/3600".

Definition csv_header : list cell :=
  [CStr "Start"; CStr "End"; CStr "Length"; CStr "Description"].

Definition csv_total_row (n : nat) : list cell :=
  [CStr "Total"; CStr EmptyString; CStr (total_formula n); CStr EmptyString].

(** [format_csv(db, sheet, where)]. *)
Definition format_csv (s : string) (w : where_clause) : cmd unit :=
  emit (CsvRow csv_header) ;;;
  rows <- query (csv_selected s w) ;;
  match csv_rows rows with
  | None => raise TypeError
  | Some formatted =>
      writerows formatted ;;;
      emit (CsvRow (csv_total_row (List.length rows)))
  end.

(** *** The plain table *)

(** [order by e.start_time asc]: a stable insertion sort, rows that start
    at the same second stay in rowid order. *)
Fixpoint insert_by_start (e : entry) (sorted : list entry) : list entry :=
  match sorted with
  | [] => [e]
  | x :: rest =>
      if start_time e <=? start_time x then e :: sorted
      else x :: insert_by_start e rest
  end.

Definition order_by_start (es : list entry) : list entry :=
  fold_right insert_by_start [] es.

(** The distinct values of a column in ascending order. *)
Fixpoint insert_day (d : Z) (sorted : list Z) : list Z :=
  match sorted with
  | [] => [d]
  | x :: rest =>
      if d <? x then d :: sorted
      else if d =? x then sorted
      else x :: insert_day d rest
  end.

Definition distinct_days (es : list entry) : list Z :=
  fold_right (fun e acc => insert_day (local_day (start_time e)) acc) [] es.

Definition on_day (d : Z) (e : entry) : bool :=
  local_day (start_time e) =? d.

(** The first query of the table: [(day, day_total)] for each local day
    among the selected rows, [group by day order by day asc]. *)
Definition days_query (s : string) (w : where_clause) (d : database)
  : list (Z * Z) :=
  let rows := filter (selected s w) (entry_table d) in
  map (fun day => (day, sum_durations (filter (on_day day) rows)))
      (distinct_days rows).

(** The second query: the selected rows [order by e.start_time asc]. *)
Definition entries_query (s : string) (w : where_clause) (d : database)
  : list entry :=
  order_by_start (filter (selected s w) (entry_table d)).

(** The last query: the sum of the durations of the selected rows. *)
Definition total_query (s : string) (w : where_clause) (d : database) : Z :=
  sum_durations (filter (selected s w) (entry_table d)).

(** The variables of the loop of [format_timebook]; [day_total] is unbound
    until the first day is read. *)
Record loop_vars : Type := mkLoop {
  last_day : option Z;
  day_total : option Z;
  days_iter : list (Z * Z);
  table : list (list string)
}.

Definition table_header : list string :=
  ["Day"; "Start      End"; "Duration"; "Notes"].

Definition trange (e : entry) : string :=
  match end_time e with
  | None => displ_time (start_time e) +++ " -"
  | Some t => displ_time (start_time e) +++ " - " +++ displ_time t
  end.

Definition day_total_row (t : Z) : list string :=
  [EmptyString; EmptyString; displ_total t; EmptyString].

Definition same_day (last : option Z) (day : Z) : bool :=
  match last with
  | Some d => d =? day
  | None => false
  end.

(** One iteration of the loop over [entries]. *)
Definition loop_body (v : loop_vars) (e : entry) : error + loop_vars :=
  let day := local_day (start_time e) in
  let date := displ_date (start_time e) in
  let diff := displ_total (duration e) in
  if same_day (last_day v) day then
    inr (mkLoop (last_day v) (day_total v) (days_iter v)
           (table v ++ [[EmptyString; trange e; diff; description_or_empty e]]))
  else
    match
      match last_day v with
      | None => inr (table v)
      | Some _ =>
          match day_total v with
          | Some t => inr (table v ++ [day_total_row t])
          | None => inl (UnboundLocalError "day_total")
          end
      end
    with
    | inl err => inl err
    | inr table1 =>
        match days_iter v with
        | [] => inl StopIteration
        | (cur_day, total) :: rest =>
            if day =? cur_day then
              inr (mkLoop (Some day) (Some total) rest
                     (table1 ++ [[date; trange e; diff; description_or_empty e]]))
            else inl AssertionError
        end
    end.

Fixpoint loop (v : loop_vars) (entries : list entry) : error + loop_vars :=
  match entries with
  | [] => inr v
  | e :: rest =>
      match loop_body v e with
      | inl err => inl err
      | inr v' => loop v' rest
      end
  end.

Definition total_row (t : Z) : list string :=
  ["Total"; EmptyString; displ_total t; EmptyString].

(** [format_timebook(db, sheet, where)]. *)
Definition format_timebook (s : string) (w : where_clause) : cmd unit :=
  nonempty <- query (fun d =>
    negb (Nat.eqb (List.length (filter (selected s w) (entry_table d))) 0)) ;;
  if negb nonempty then print "(empty)"
  else
    days <- query (days_query s w) ;;
    entries <- query (entries_query s w) ;;
    match loop (mkLoop None None days [table_header]) entries with
    | inl err => raise err
    | inr v =>
        total <- query (total_query s w) ;;
        match day_total v with
        | None => raise (UnboundLocalError "day_total")
        | Some t =>
            emit (PrintTable (table v ++ [day_total_row t; total_row total]) true)
        end
    end.

(** The sheet [display] reports on: the named one, completed against the
    sheets of the store, or the current one. *)
Definition grab_sheet (timesheet : option string) : cmd string :=
  match timesheet with
  | Some t => if Py.truthy timesheet
              then names <- dbutil.get_sheet_names ;;
                   cmdutil.complete names t "timesheet"
              else dbutil.get_current_sheet
  | None => dbutil.get_current_sheet
  end.

(** [display(db, timesheet=None, format='plain', start=None, end=None)]. *)
Definition display (timesheet : option string) (format : string)
  (start end_ : option Z) : cmd unit :=
  sheet <- grab_sheet timesheet ;;
  let w := mkWhere start end_ in
  if String.eqb format "plain" then format_timebook sheet w
  else if String.eqb format "csv" then format_csv sheet w
  else raise (SystemExit ("Invalid format: " +++ format)).

End Reports.

(** ** The dispatcher: [run_command] *)

(** A parsed command line: the command and the arguments [docopt] hands to
    it. *)
Inductive invocation : Type :=
| In_ (description : list string) (switch_to : option string) (out : bool)
      (at_ : option Z) (resume : bool) (extra : option string)
| Out (at_ : option Z) (verbose : bool)
| Alter (description : list string)
| Switch (timesheet : string) (verbose : bool)
| Kill (timesheet : option string) (answer : option string)
| Display (timesheet : option string) (format : string) (start end_ : option Z).

Definition call `{Host} (c : invocation) : cmd unit :=
  match c with
  | In_ description switch_to o at_ resume ext =>
      in_ description switch_to o at_ resume ext
  | Out at_ verbose => out at_ verbose
  | Alter description => alter description
  | Switch timesheet verbose => switch timesheet verbose
  | Kill timesheet answer => kill timesheet answer
  | Display timesheet format start end_ => display timesheet format start end_
  end.

(** [run_command]: [begin], the command, then [commit] when it returns and
    [rollback] when it raises.  The statements go to the class [Database],
    which is missing: as in the specification, the rollback restores the
    store of [begin]; what was printed stays printed.  The completion of
    the command name and the parsing by [docopt] come before and are not
    modelled. *)
Definition run_command `{Host} (c : invocation) : cmd unit :=
  fun s =>
    match call c s with
    | Done a s' => Done a s'
    | Raised e s' => Raised e (mkState (db s) (stdout s'))
    end.

(** ** Invariants of the store and the vocabulary of the properties *)

(** At most one entry of each sheet has a null [end_time]. *)
Definition one_active_rows (l : list entry) : Prop :=
  forall s, (List.length (filter (active_on s) l) <= 1)%nat.

Definition one_active_per_sheet (d : database) : Prop :=
  one_active_rows (entry_table d).

(** [id] is the primary key of [entry]. *)
Definition unique_rows (l : list entry) : Prop := NoDup (map id l).

Definition unique_ids (d : database) : Prop := unique_rows (entry_table d).

(** The sheet a clock-in targets: the one named by [--switch], otherwise
    the current one. *)
Definition in_target (switch_to : option string) (d : database) : string :=
  match switch_to with
  | Some s => if Py.truthy switch_to then s else current_sheet d
  | None => current_sheet d
  end.

(** The sheet a kill deletes. *)
Definition kill_target (timesheet : option string) (d : database) : string :=
  match timesheet with
  | Some s => if Py.truthy timesheet then s else current_sheet d
  | None => current_sheet d
  end.

(** Whether the answer read from the terminal confirms the kill. *)
Definition confirms (answer : option string) : bool :=
  match answer with
  | Some a => Py.contains yes_answers (Py.lower (Py.strip a))
  | None => false
  end.

(** The table after a clock-in: one more row, active, with a fresh id. *)
Definition clocked_in (d : database) (s : string) (t : Z)
  (descr ext : option string) : list entry :=
  entry_table d ++ [mkEntry (sql.next_id (entry_table d)) s t None descr ext].

(** [e] is the most recently closed entry of sheet [s]: it is closed and no
    closed entry of the sheet ended later. *)
Definition most_recently_closed (s : string) (d : database) (e : entry) (t : Z)
  : Prop :=
  In e (entry_table d) /\ sheet e = s /\ end_time e = Some t
  /\ forall e' t', In e' (entry_table d) -> sheet e' = s ->
                   end_time e' = Some t' -> t' <= t.

(** The sheet has an active entry. *)
Definition has_active (s : string) (d : database) : Prop :=
  exists e, In e (entry_table d) /\ sheet e = s /\ end_time e = None.

(** The sheet has a closed entry. *)
Definition has_closed (s : string) (d : database) : Prop :=
  exists e t, In e (entry_table d) /\ sheet e = s /\ end_time e = Some t.

(** [in_] rejects a description given together with [--resume]. *)
Definition conflicting (resume : bool) (description : list string) : bool :=
  resume && negb (Nat.eqb (List.length description) 0).


(** A property of the rows of [entry], on the state of a command. *)
Definition rows_satisfy (P : list entry -> Prop) (s : state) : Prop :=
  P (entry_table (db s)).

(** [post c s Q R]: run from [s], the command [c] returns a value and a
    state that satisfy [Q], or raises in a state that satisfies [R]. *)
Definition post {A : Type} (c : cmd A) (s : state)
  (Q : A -> state -> Prop) (R : state -> Prop) : Prop :=
  match c s with
  | Done a s' => Q a s'
  | Raised _ s' => R s'
  end.

(** A row of the plain table for the entry [e]; [day_cell] is the date on
    the first row of a day and empty on the others. *)
Definition entry_row `{Host} (day_cell : string) (e : entry) : list string :=
  [day_cell; trange e; displ_total (duration e); description_or_empty e].

(** The rows the report shows for one day, as the specification words it:
    the intervals of the day, the first one carrying the date, and then
    the day's total. *)
Definition day_block `{Host} (total : Z) (entries : list entry)
  : list (list string) :=
  match entries with
  | [] => []
  | first :: others =>
      entry_row (displ_date (start_time first)) first
      :: map (entry_row EmptyString) others ++ [day_total_row total]
  end.

(** The whole report for the selected rows, as the specification words it:
    the header, then day by day, oldest first, the intervals of the day
    and its total, and the grand total at the end. *)
Definition plain_table `{Host} (rows : list entry) : list (list string) :=
  table_header
  :: List.concat (map (fun d => day_block (sum_durations (filter (on_day d) rows))
                             (filter (on_day d) (order_by_start rows)))
                 (distinct_days rows))
  ++ [total_row (sum_durations rows)].

(** The days the loop reads from [days_iter]: the day of each entry whose
    day differs from that of the entry before it. *)
Fixpoint fresh_days (last : option Z) (days : list Z) : list Z :=
  match days with
  | [] => []
  | d :: rest =>
      if same_day last d then fresh_days last rest
      else d :: fresh_days (Some d) rest
  end.

(** ** A host and some stores for the examples *)

(** A host on UTC whose clock reads [n]; durations and times are shown as
    plain numbers of seconds. *)
Definition utc_host (n : Z) : Host := {|
  now := n;
  local_day := fun t => t / 86400;
  displ_time := Py.str_of_int;
  displ_date := fun t => Py.str_of_int (t / 86400);
  displ_total := Py.str_of_int;
  csv_time := Py.str_of_int;
  str_timedelta := Py.str_of_int
|}.

(** The store after initialisation: no entry, current sheet [default]. *)
Definition fresh : state := mkState (mkDb [] "default") [].

(** The fixture [start] of the tests: one active entry on [default]. *)
Definition started : state :=
  mkState (mkDb [mkEntry 1 "default" 1397497538 None (Some "Working") None]
                "default") [].

(** The fixture [end] of the tests: that entry closed after 300 seconds. *)
Definition ended : state :=
  mkState (mkDb [mkEntry 1 "default" 1397497538 (Some 1397497838)
                   (Some "Working") None] "default") [].

(** An active entry on the sheet [work], which is current. *)
Definition working : state :=
  mkState (mkDb [mkEntry 1 "work" 100 None None None] "work") [].

(** An active entry on [default] while the sheet [other] is current. *)
Definition away : state :=
  mkState (mkDb [mkEntry 1 "default" 100 None None None] "other") [].

(** The clock of the examples, a little after the fixtures' entry began. *)
Definition test_host : Host := utc_host 1397498000.

(** Three characters outside ASCII, as their UTF-8 bytes: the no-break
    space U+00A0 and the ideographic space U+3000, which are white space
    for [str.strip()], and the zero-width space U+200B, which is not. *)
Definition no_break_space : string :=
  String (ascii_of_nat 194) (String (ascii_of_nat 160) EmptyString).

Definition ideographic_space : string :=
  String (ascii_of_nat 227)
    (String (ascii_of_nat 128) (String (ascii_of_nat 128) EmptyString)).

Definition zero_width_space : string :=
  String (ascii_of_nat 226)
    (String (ascii_of_nat 128) (String (ascii_of_nat 139) EmptyString)).

(** ** More of [commands.py]: [running], [now] and [list] *)

(** [s.rstrip(c)] for a single character [c]: a character is kept when it
    is not [c] or when something is kept after it. *)
Fixpoint rstrip_char (c : ascii) (s : string) : string :=
  match s with
  | EmptyString => EmptyString
  | String a s' =>
      match rstrip_char c s' with
      | EmptyString => if Ascii.eqb a c then EmptyString else String a EmptyString
      | kept => String a kept
      end
  end.

(** [order by entry.sheet asc]: a stable insertion sort on the bytes of the
    sheet name (SQLite's default collation compares bytes). *)
Fixpoint insert_by_sheet (e : entry) (sorted : list entry) : list entry :=
  match sorted with
  | [] => [e]
  | x :: rest =>
      if String.leb (sheet e) (sheet x) then e :: sorted
      else x :: insert_by_sheet e rest
  end.

Definition order_by_sheet (es : list entry) : list entry :=
  fold_right insert_by_sheet [] es.

(** [select distinct sheet from entry order by sheet asc]. *)
Fixpoint insert_sheet (n : string) (sorted : list string) : list string :=
  match sorted with
  | [] => [n]
  | x :: rest =>
      match String.compare n x with
      | Lt => n :: sorted
      | Eq => sorted
      | Gt => x :: insert_sheet n rest
      end
  end.

Definition distinct_sheets (es : list entry) : list string :=
  fold_right (fun e acc => insert_sheet (sheet e) acc) [] es.

(** One row of the query of [list]: the sheet, whether it is current, the
    elapsed time of its active entry, the time since midnight and the
    total. *)
Record sheet_summary : Type := mkSummary {
  name : string;
  is_current : bool;
  active : Z;
  today : Z;
  total : Z
}.

Module commands.

Section Listing.

Context `{Host}.

(** [strftime('%s', date('now'))]: the second at which the current day
    began, in UTC. *)
Definition today_start : Z := 86400 * (now / 86400).

(** The query of [list]: [from entry e1, meta ... group by e1.sheet order
    by e1.sheet asc], one row for each sheet that has entries.  [active]
    is the scalar subquery over the entries of the sheet with a null
    [end_time] ([ifnull(..., 0)]); [today] sums the entries of the sheet
    with [start_time > today_start]; [total] sums them all. *)
Definition list_query (d : database) : Datatypes.list sheet_summary :=
  map (fun n =>
         mkSummary n
           (String.eqb n (current_sheet d))
           (match find (active_on n) (entry_table d) with
            | Some e => now - start_time e
            | None => 0
            end)
           (sum_durations
              (filter (fun e => on_sheet n e && (today_start <? start_time e))
                      (entry_table d)))
           (sum_durations (filter (on_sheet n) (entry_table d))))
      (distinct_sheets (entry_table d)).

(** The row [list] shows for a sheet. *)
Definition list_row (r : sheet_summary) : Datatypes.list string :=
  [(if is_current r then "*" else " ") +++ name r;
   if negb (active r =? 0) then str_timedelta (active r) else "--";
   str_timedelta (today r);
   str_timedelta (total r)].

(** [running(db)]: [cmdutil.pprint_table] is called without [footer_row],
    taken to default to false. *)
Definition running : cmd unit :=
  rows <- query (fun d =>
    map (fun e => [sheet e;
                   match description e with
                   | Some text => text
                   | None => "--"
                   end])
        (order_by_sheet (filter is_active (entry_table d)))) ;;
  emit (PrintTable (["Timesheet"; "Description"] :: rows) false).

(** The message of [now] on a sheet without entries; [prog] is
    [os.path.basename(sys.argv[0])]. *)
Definition EmptySheet (prog : string) : error :=
  SystemExit (prog +++ ": error: sheet is empty. For program usage, see "
              +++ Py.dquote +++ prog +++ " --help" +++ Py.dquote +++ ".").

(** [now(db, timesheet=None, simple=False, notes=False)]. *)
Definition now (prog : string) (timesheet : option string)
  (simple notes : bool) : cmd unit :=
  if simple then
    cur <- dbutil.get_current_sheet ;; print cur
  else
    sheet <- grab_sheet timesheet ;;
    entry_count <- dbutil.get_entry_count sheet ;;
    if entry_count =? 0 then raise (EmptySheet prog)
    else
      running <- dbutil.get_active_info sheet ;;
      let shown :=
        match running with
        | None => ("not active", EmptyString)
        | Some (elapsed, text) =>
            let duration := str_timedelta elapsed in
            match text with
            | Some d =>
                if Py.truthy text
                then (duration +++ " (" +++ rstrip_char "." d +++ ")",
                      rstrip_char "." d)
                else (duration, EmptyString)
            | None => (duration, EmptyString)
            end
        end in
      if notes then print (snd shown)
      else print (sheet +++ ": " +++ fst shown).

(** [list(db, simple=False)]. *)
Definition list (simple : bool) : cmd unit :=
  if simple then
    rows <- query (fun d => distinct_sheets (entry_table d)) ;;
    print (Py.join Py.newline rows)
  else
    sheets <- query list_query ;;
    if Nat.eqb (List.length sheets) 0 then print "(no sheets)"
    else
      emit (PrintTable ([" Timesheet"; "Running"; "Today"; "Total time"]
                        :: map list_row sheets) false).

End Listing.

End commands.

(** ** Vocabulary of the further properties *)

(** The number of entries of a sheet. *)
Definition entry_count (t : string) (d : database) : Z :=
  Z.of_nat (List.length (filter (on_sheet t) (entry_table d))).

(** What [in_] does once the sheet is chosen and [--out] is done, from the
    state [s] reached then: the check for an active entry, the check
    against the most recent clock-out and the insert. *)
Definition insert_checked `{Host} (sh : string) (t : Z) (resume : bool)
  (description : list string) (ext : option string) (s : state)
  : outcome unit :=
  match find (active_on sh) (entry_table (db s)) with
  | Some _ => Raised SheetAlreadyActive s
  | None =>
      match dbutil.most_recent_closed (filter (on_sheet sh) (entry_table (db s))) with
      | Some (previous_timestamp, previous_description) =>
          if t <? previous_timestamp then Raised TimeOrderingViolation s
          else Done tt
                 (mkState
                    (mkDb (clocked_in (db s) sh t
                             (if resume then previous_description
                              else Py.or_None (Py.join " " description))
                             ext)
                          (current_sheet (db s)))
                    (stdout s))
      | None =>
          Done tt
            (mkState
               (mkDb (clocked_in (db s) sh t (Py.or_None (Py.join " " description)) ext)
                     (current_sheet (db s)))
               (stdout s))
      end
  end.

(** [e1] lies before [e2] in the history of a sheet: when both belong to
    the same sheet, [e1] is closed and ends no later than [e2] starts. *)
Definition precedes (e1 e2 : entry) : Prop :=
  sheet e1 = sheet e2 ->
  exists t, end_time e1 = Some t /\ t <= start_time e2.

(** No closed entry ends before it starts. *)
Definition well_timed (l : list entry) : Prop :=
  forall e t, In e l -> end_time e = Some t -> start_time e <= t.

(** The history is in order: ids are unique, no interval is negative, and
    within each sheet the intervals follow one another in table order
    without overlap, only the last one possibly open. *)
Definition chronological_rows (l : list entry) : Prop :=
  unique_rows l /\ StronglySorted precedes l /\ well_timed l.

Definition chronological (d : database) : Prop :=
  chronological_rows (entry_table d).

(** The order of sheet names in the listings: the order of their bytes. *)
Definition sheet_lt (a b : string) : Prop := String.ltb a b = true.

Definition sheet_le (a b : string) : Prop := String.leb a b = true.

(** The line [running] shows for an active entry. *)
Definition running_row (e : entry) : list string :=
  [sheet e; match description e with Some text => text | None => "--" end].

(** ** The directories of a path: [timebook/config.py] *)

Module config.

(** [os.path.sep] on POSIX. *)
Definition sep : ascii := "/"%char.

(** [s.find(c, start)] for a one-character [c]: the lowest index not below
    [start] at which [c] occurs, [None] for [-1]. *)
Fixpoint find_from (c : ascii) (s : string) (start : nat) : option nat :=
  match s with
  | EmptyString => None
  | String a s' =>
      match start with
      | O => if Ascii.eqb a c then Some O else option_map S (find_from c s' O)
      | S k => option_map S (find_from c s' k)
      end
  end.

(** The [while True] loop of [subdirs]: [last] is the index found, [None]
    for [-1]; the values yielded, in the order of the yields.  The loop
    runs while fuel is left. *)
Fixpoint subdirs_loop (fuel : nat) (path : string) (last : option nat)
  : list string :=
  match fuel with
  | O => []
  | S fuel' =>
      match last with
      | None => []
      | Some i =>
          String.substring 0 (S i) path
          :: subdirs_loop fuel' path (find_from sep path (S i))
      end
  end.

Section Subdirs.

(** [os.path.abspath]: it reads the working directory of the process. *)
Variable abspath : string -> string.

(** [subdirs(path)]: the values the generator yields when it is run to its
    end, which takes no more rounds than the path has characters. *)
Definition subdirs (path : string) : list string :=
  let path := abspath path in
  subdirs_loop (S (String.length path)) path (find_from sep path 0).

End Subdirs.

End config.

(** The separator stands at index [i] of [s]. *)
Definition sep_at (s : string) (i : nat) : bool :=
  match String.get i s with
  | Some a => Ascii.eqb a config.sep
  | None => false
  end.

(** The indices of the separators of [s], ascending. *)
Definition sep_positions (s : string) : list nat :=
  filter (sep_at s) (seq 0 (String.length s)).

(** * Properties *)

(** ** The tests of [tests/test_commands.py], on the model *)

Example test_in :
  @call test_host (In_ ["Working"] None false (Some 1397497538) false None) fresh
  = Done tt started.
Proof. reflexivity. Qed.

Example test_out :
  @call test_host (Out (Some 1397497838) false) started = Done tt ended.
Proof. reflexivity. Qed.

Example test_alter :
  entry_table
    (db (state_of (@call test_host (Alter ["Testing"; "alter"]) started)))
  = [mkEntry 1 "default" 1397497538 None (Some "Testing alter") None].
Proof. reflexivity. Qed.

Example test_kill :
  entry_table (db (state_of (@call test_host (Kill None (Some "yes")) started)))
  = [].
Proof. reflexivity. Qed.

Example test_switch :
  current_sheet (db (state_of (@call test_host (Switch "test" false) ended)))
  = "test".
Proof. reflexivity. Qed.

Example test_display :
  stdout (state_of (@call test_host (Display None "csv" None None) ended))
  = [CsvRow [CStr "Start"; CStr "End"; CStr "Length"; CStr "Description"];
     CsvRow [CStr "1397497538"; CStr "1397497838"; CInt 300; CStr "Working"];
     CsvRow [CStr "Total"; CStr EmptyString; CStr "=SUM(C2:C2)/3600";
             CStr EmptyString]].
Proof. reflexivity. Qed.

(** The round trip of the specification: in at [T0], out at [T0 + 300], and
    the plain display ends with a grand total of 300 seconds. *)
Example round_trip :
  stdout (state_of (@call test_host (Display None "plain" None None) ended))
  = [PrintTable
       [["Day"; "Start      End"; "Duration"; "Notes"];
        ["16174"; "1397497538 - 1397497838"; "300"; "Working"];
        [EmptyString; EmptyString; "300"; EmptyString];
        ["Total"; EmptyString; "300"; EmptyString]]
       true].
Proof. reflexivity. Qed.

(** ** The store under the primitive statements *)

Lemma state_eta (s : state) : mkState (db s) (stdout s) = s.
Proof. destruct s; reflexivity. Qed.

Lemma database_eta (d : database) : mkDb (entry_table d) (current_sheet d) = d.
Proof. destruct d; reflexivity. Qed.

(** A quiet [switch] always returns, with the pointer on its argument and
    nothing else touched. *)
Lemma switch_quiet `{Host} (t : string) (s : state) :
  switch t false s = Done tt (mkState (mkDb (entry_table (db s)) t) (stdout s)).
Proof.
  unfold switch, bind, dbutil.get_current_sheet, query, ret.
  destruct (String.eqb (current_sheet (db s)) t) eqn:E; simpl.
  - apply String.eqb_eq in E. rewrite <- E, database_eta, state_eta.
    reflexivity.
  - reflexivity.
Qed.

(** ** Kill *)

Lemma kill_prompt_target `{Host} (timesheet : option string) (s : state) :
  exists b,
    (match timesheet with
     | Some t => if Py.truthy timesheet then ret (t, false)
                 else bind dbutil.get_current_sheet (fun cur => ret (cur, true))
     | None => bind dbutil.get_current_sheet (fun cur => ret (cur, true))
     end) s = Done (kill_target timesheet (db s), b) s
    /\ b = negb (Py.truthy timesheet).
Proof.
  unfold kill_target.
  destruct timesheet as [t|]; [destruct (Py.truthy (Some t)) eqn:E|];
    eexists; split; reflexivity.
Qed.

(** The answer is stripped of the white space of Unicode, not of ASCII
    only: [yes] followed by a no-break space and [Y] between an
    ideographic space and a newline confirm, and the sheet is deleted;
    [yes] followed by a zero-width space, which is no white space, does
    not, and neither does white space inside the answer. *)
Example answers_with_unicode_space :
  confirms (Some ("yes" +++ no_break_space)) = true
  /\ confirms (Some (ideographic_space +++ "Y" +++ Py.newline)) = true
  /\ confirms (Some ("yes" +++ zero_width_space)) = false
  /\ confirms (Some ("y" +++ no_break_space +++ "es")) = false
  /\ @call test_host (Kill None (Some ("yes" +++ no_break_space))) started
     = Done tt (mkState (mkDb [] "default")
                  [Print "delete timesheet default?" " "]).
Proof. repeat split. Qed.

(** C8: a kill whose confirmation is declined (an answer other than [y] or
    [yes], or an interrupted prompt) returns normally, leaves every entry
    row and the current-sheet pointer as they were, and ends its output
    with the line [canceled]; the dispatcher commits that same state. *)
Theorem kill_declined_no_mutation `{Host}
  (timesheet answer : option string) (s : state) :
  confirms answer = false ->
  exists s',
    call (Kill timesheet answer) s = Done tt s'
    /\ run_command (Kill timesheet answer) s = Done tt s'
    /\ db s' = db s
    /\ exists printed, stdout s' = printed ++ [Print "canceled" Py.newline].
Proof.
  intros Hno.
  assert (Hcall : exists printed,
             call (Kill timesheet answer) s
             = Done tt (mkState (db s) (printed ++ [Print "canceled" Py.newline]))).
  { unfold call, kill.
    destruct (kill_prompt_target timesheet s) as [b [Ht _]].
    unfold bind at 1. rewrite Ht.
    destruct answer as [a|]; unfold confirms in Hno.
    - unfold bind, print_end, print, emit, ret. rewrite Hno. cbn [negb db stdout].
      eexists; reflexivity.
    - unfold bind, print_end, print, emit, ret. cbn [negb db stdout].
      eexists; reflexivity. }
  destruct Hcall as [printed Hcall].
  unfold run_command. rewrite Hcall.
  eexists; repeat split. eexists; reflexivity.
Qed.

Lemma kill_declined_no_mutation_witness :
  confirms (Some " No ") = false
  /\ exists s',
       @call (utc_host 1397498000) (Kill None (Some " No ")) started = Done tt s'
       /\ @run_command (utc_host 1397498000) (Kill None (Some " No ")) started = Done tt s'
       /\ db s' = db started
       /\ exists printed, stdout s' = printed ++ [Print "canceled" Py.newline].
Proof.
  split; [reflexivity|].
  apply (@kill_declined_no_mutation (utc_host 1397498000)). reflexivity.
Defined.

(** C2 as stated fails: the sheet [work] is current, it is killed by name
    and the kill is confirmed; its rows are deleted and the pointer still
    reads [work]. *)
Lemma kill_named_current_counterexample :
  confirms (Some "yes") = true
  /\ kill_target (Some "work") (db working) = current_sheet (db working)
  /\ @call (utc_host 1000) (Kill (Some "work") (Some "yes")) working
     = Done tt (mkState (mkDb [] "work")
                  [Print "delete timesheet work?" " "])
  /\ current_sheet (mkDb [] "work") <> "default".
Proof.
  repeat split; try reflexivity. discriminate.
Qed.

(** C2, amended: a confirmed kill returns and deletes the rows of its
    target sheet; when no sheet is named (the target defaults to the
    current sheet) the pointer is switched to [default]; when a sheet is
    named the pointer is left as it was, also when the name is that of the
    current sheet. *)
Theorem kill_confirmed_pointer `{Host}
  (timesheet answer : option string) (s : state) :
  confirms answer = true ->
  exists s',
    call (Kill timesheet answer) s = Done tt s'
    /\ entry_table (db s')
       = filter (fun e => negb (on_sheet (kill_target timesheet (db s)) e))
                (entry_table (db s))
    /\ current_sheet (db s')
       = if Py.truthy timesheet then current_sheet (db s) else "default".
Proof.
  intros Hyes.
  unfold call, kill.
  destruct (kill_prompt_target timesheet s) as [b [Ht Hb]].
  unfold bind at 1. rewrite Ht.
  destruct answer as [a|]; unfold confirms in Hyes; [|discriminate].
  unfold bind at 1. unfold print_end, emit.
  unfold bind at 1. unfold ret at 1. rewrite Hyes. cbn [negb].
  unfold bind at 1. unfold sql.delete_sheet, execute. cbn [db stdout].
  subst b.
  destruct (Py.truthy timesheet) eqn:E; cbn [negb].
  - unfold ret. eexists; split; [reflexivity|]. split; reflexivity.
  - rewrite switch_quiet. cbn [db stdout entry_table].
    eexists; split; [reflexivity|]. split; reflexivity.
Qed.

Lemma kill_confirmed_pointer_witness :
  confirms (Some " Yes") = true
  /\ exists s',
       @call (utc_host 1397498000) (Kill None (Some " Yes")) started = Done tt s'
       /\ entry_table (db s')
          = filter (fun e => negb (on_sheet (kill_target None (db started)) e))
                   (entry_table (db started))
       /\ current_sheet (db s')
          = if Py.truthy None then current_sheet (db started) else "default".
Proof.
  split; [reflexivity|].
  apply (@kill_confirmed_pointer (utc_host 1397498000)). reflexivity.
Defined.

(** ** Updates by primary key *)

Lemma find_split {A : Type} (p : A -> bool) (l : list A) (x : A) :
  find p l = Some x ->
  exists before after,
    l = before ++ x :: after /\ p x = true
    /\ forall y, In y before -> p y = false.
Proof.
  induction l as [|a l IH]; simpl; [discriminate|].
  destruct (p a) eqn:E; intros Hf.
  - injection Hf as <-. exists [], l. repeat split; auto. intros y [].
  - destruct (IH Hf) as (b & r & -> & Hp & Hb).
    exists (a :: b), r. repeat split; auto.
    intros y [<-|Hy]; auto.
Qed.

Lemma find_none_filter {A : Type} (p : A -> bool) (l : list A) :
  find p l = None <-> filter p l = [].
Proof.
  induction l as [|a l IH]; simpl; [tauto|].
  destruct (p a); [split; discriminate|exact IH].
Qed.

Lemma update_where_id_other (f : entry -> entry) (i : Z) (l : list entry) :
  (forall x, In x l -> id x <> i) -> sql.update_where_id f i l = l.
Proof.
  unfold sql.update_where_id.
  induction l as [|a l IH]; simpl; intros Hne; [reflexivity|].
  rewrite IH by auto.
  destruct (Z.eqb_spec (id a) i) as [E|E]; [|reflexivity].
  exfalso. apply (Hne a); auto.
Qed.

(** With unique ids, [update ... where entry.id = ?] rewrites one row. *)
Lemma update_where_id_unique (f : entry -> entry) (e : entry)
  (before after : list entry) :
  NoDup (map id (before ++ e :: after)) ->
  sql.update_where_id f (id e) (before ++ e :: after) = before ++ f e :: after.
Proof.
  intros Hnd. rewrite map_app in Hnd. simpl in Hnd.
  pose proof (NoDup_remove_2 _ _ _ Hnd) as Hnot.
  assert (Hother : forall x, In x (before ++ after) -> id x <> id e).
  { intros x Hx E. apply Hnot. rewrite <- map_app, <- E. now apply in_map. }
  unfold sql.update_where_id. rewrite map_app. simpl.
  rewrite Z.eqb_refl.
  fold (sql.update_where_id f (id e) before).
  fold (sql.update_where_id f (id e) after).
  rewrite !update_where_id_other; auto.
  - intros x Hx. apply Hother, in_or_app; auto.
  - intros x Hx. apply Hother, in_or_app; auto.
Qed.

(** ** Alter *)

(** C9: with no active entry on the current sheet, alter fails with
    [SheetNotActive] in the state it started in; otherwise it returns, and
    the table is the old one with the description of the active entry
    replaced by the joined words: the id, sheet, start and end time of
    that entry, every other row and the pointer are as before. *)
Theorem alter_overwrites_description_only `{Host}
  (description : list string) (s : state) :
  unique_ids (db s) ->
  match find (active_on (current_sheet (db s))) (entry_table (db s)) with
  | None =>
      call (Alter description) s = Raised SheetNotActive s
      /\ run_command (Alter description) s = Raised SheetNotActive s
  | Some e =>
      exists before after,
        entry_table (db s) = before ++ e :: after
        /\ call (Alter description) s
           = Done tt (mkState
               (mkDb (before
                      ++ mkEntry (id e) (sheet e) (start_time e) (end_time e)
                           (Some (Py.join " " description)) (extra e)
                      :: after)
                     (current_sheet (db s)))
               (stdout s))
  end.
Proof.
  intros Hids.
  unfold run_command, call, alter, bind, dbutil.get_current_active_info, query.
  destruct (find _ _) as [e|] eqn:Hf.
  - destruct (find_split _ _ _ Hf) as (before & after & Htab & _ & _).
    exists before, after. split; [exact Htab|].
    unfold sql.update_description, execute.
    unfold unique_ids in Hids. rewrite Htab in Hids |- *.
    rewrite update_where_id_unique by assumption.
    reflexivity.
  - unfold raise. rewrite state_eta. split; reflexivity.
Qed.

Lemma alter_overwrites_description_only_witness :
  unique_ids (db started)
  /\ exists before after,
       entry_table (db started)
       = before ++ mkEntry 1 "default" 1397497538 None (Some "Working") None :: after
       /\ @call (utc_host 1397498000) (Alter ["Testing"; "alter"]) started
          = Done tt (mkState
              (mkDb (before
                     ++ mkEntry 1 "default" 1397497538 None
                          (Some (Py.join " " ["Testing"; "alter"])) None
                     :: after)
                    (current_sheet (db started)))
              (stdout started)).
Proof.
  assert (Hids : unique_ids (db started)).
  { unfold unique_ids. simpl. constructor; [intros []|constructor]. }
  split; [exact Hids|].
  exact (@alter_overwrites_description_only (utc_host 1397498000)
           ["Testing"; "alter"] started Hids).
Defined.

(** ** Clock-out *)

(** C5: the claim fails on [clock_out] at the explicit timestamp [0],
    which [in_] passes on for [--out] with [--at] at the epoch.  On the
    fixture [start], whose active entry started at [1397497538], with the
    clock at [1397498000], the claim asks for [NegativeDuration] and an
    untouched entry, since [0 - 1397497538 < 0].  The test [if not
    timestamp] takes [0] for a missing timestamp: the entry is closed at
    the clock, [1397498000], and nothing is raised.  The sibling path,
    [out] with [--at] at the epoch, does raise [NegativeDuration] and
    leaves the store as it was; and the clock-in that asked for the
    clock-out then fails on the very [end_time] that clock-out wrote. *)
Theorem clock_out_zero_timestamp_takes_clock :
  chosen_timestamp (H := test_host) None (Some 0) = 1397498000
  /\ @clock_out test_host None false (Some 0) started
     = Done tt
         (mkState
            (mkDb [mkEntry 1 "default" 1397497538 (Some 1397498000)
                     (Some "Working") None] "default")
            [])
  /\ @call test_host (Out (Some 0) false) started
     = Raised NegativeDuration started
  /\ @call test_host (In_ [] None true (Some 0) false None) started
     = Raised TimeOrderingViolation
         (mkState
            (mkDb [mkEntry 1 "default" 1397497538 (Some 1397498000)
                     (Some "Working") None] "default")
            []).
Proof. repeat split. Qed.

(** ** Clock-in *)

(** The first step of [in_]: the target sheet is returned and is current
    afterwards; the rows are not touched. *)
Lemma in_switch_step `{Host} (switch_to : option string) (s : state) :
  match switch_to with
  | Some t => if Py.truthy switch_to
              then bind (switch t false) (fun _ => ret t)
              else dbutil.get_current_sheet
  | None => dbutil.get_current_sheet
  end s
  = Done (in_target switch_to (db s))
      (mkState (mkDb (entry_table (db s)) (in_target switch_to (db s))) (stdout s)).
Proof.
  unfold in_target.
  destruct switch_to as [t|]; [destruct (Py.truthy (Some t))|].
  - unfold bind. rewrite switch_quiet. reflexivity.
  - unfold dbutil.get_current_sheet, query.
    now rewrite database_eta, state_eta.
  - unfold dbutil.get_current_sheet, query.
    now rewrite database_eta, state_eta.
Qed.

Lemma on_sheet_iff (s : string) (e : entry) : on_sheet s e = true <-> sheet e = s.
Proof. unfold on_sheet. apply String.eqb_eq. Qed.

Lemma active_on_iff (s : string) (e : entry) :
  active_on s e = true <-> sheet e = s /\ end_time e = None.
Proof.
  unfold active_on, is_active. rewrite andb_true_iff, on_sheet_iff.
  destruct (end_time e); intuition congruence.
Qed.

Lemma has_active_find (s : string) (d : database) :
  has_active s d <-> find (active_on s) (entry_table d) <> None.
Proof.
  split.
  - intros (e & Hin & Hs & He) Hnone.
    pose proof (find_none _ _ Hnone e Hin) as Hf.
    assert (active_on s e = true) by (apply active_on_iff; auto).
    congruence.
  - intros Hne. destruct (find _ _) as [e|] eqn:Hf; [|congruence].
    apply find_some in Hf. destruct Hf as [Hin Ha].
    apply active_on_iff in Ha. exists e. tauto.
Qed.

(** What [fold_left later_clockout] computes, for any starting value. *)
Lemma later_clockout_fold (es : list entry) (best : option (Z * option string)) :
  match fold_left dbutil.later_clockout es best with
  | None => best = None /\ forall e, In e es -> end_time e = None
  | Some (t, d) =>
      (best = Some (t, d)
       \/ exists e, In e es /\ end_time e = Some t /\ description e = d)
      /\ (forall e t', In e es -> end_time e = Some t' -> t' <= t)
      /\ (forall t0 d0, best = Some (t0, d0) -> t0 <= t)
  end.
Proof.
  revert best. induction es as [|a es IH]; intros best; simpl.
  - destruct best as [[t d]|].
    + split; [now left|]. split; [intros e t' []|].
      intros t0 d0 E. injection E as -> ->. lia.
    + split; [reflexivity|intros e []].
  - specialize (IH (dbutil.later_clockout best a)).
    destruct (fold_left dbutil.later_clockout es (dbutil.later_clockout best a))
      as [[t d]|].
    + destruct IH as (Hsrc & Hmax & Hbest).
      unfold dbutil.later_clockout in Hsrc, Hbest.
      destruct (end_time a) as [ta|] eqn:Ea.
      * destruct best as [[tb db_]|].
        -- destruct (Z.leb_spec tb ta) as [Hle|Hgt].
           ++ specialize (Hbest ta (description a) eq_refl).
              split; [right|split].
              ** destruct Hsrc as [E|(e & Hin & He & Hd)].
                 --- injection E as <- <-. exists a. auto.
                 --- exists e. auto.
              ** intros e t' [<-|Hin] He; [|eauto]. congruence.
              ** intros t0 d0 E. injection E as <- <-. lia.
           ++ specialize (Hbest tb db_ eq_refl).
              split; [|split].
              ** destruct Hsrc as [E|(e & Hin & He & Hd)]; [now left|].
                 right. exists e. auto.
              ** intros e t' [<-|Hin] He; [|eauto].
                 rewrite Ea in He. injection He as <-. lia.
              ** intros t0 d0 E. injection E as <- <-. lia.
        -- specialize (Hbest ta (description a) eq_refl).
           split; [right|split].
           ++ destruct Hsrc as [E|(e & Hin & He & Hd)].
              ** injection E as <- <-. exists a. auto.
              ** exists e. auto.
           ++ intros e t' [<-|Hin] He; [|eauto]. congruence.
           ++ intros t0 d0 E. discriminate.
      * split; [|split].
        -- destruct Hsrc as [E|(e & Hin & He & Hd)]; [now left|].
           right. exists e. auto.
        -- intros e t' [<-|Hin] He; [congruence|eauto].
        -- exact Hbest.
    + destruct IH as (Hb & Hall).
      unfold dbutil.later_clockout in Hb.
      destruct (end_time a) as [ta|] eqn:Ea.
      * destruct best as [[tb db_]|]; [|discriminate].
        destruct (tb <=? ta); discriminate.
      * split; [exact Hb|]. intros e [<-|Hin]; auto.
Qed.

(** [get_most_recent_clockout] returns the end time and description of a
    most recently closed entry of the sheet, and [None] exactly when the
    sheet has no closed entry. *)
Lemma most_recent_closed_spec (s : string) (d : database) :
  match dbutil.most_recent_closed (filter (on_sheet s) (entry_table d)) with
  | None => ~ has_closed s d
  | Some (t, descr) =>
      exists e, most_recently_closed s d e t /\ description e = descr
  end.
Proof.
  unfold dbutil.most_recent_closed.
  pose proof (later_clockout_fold (filter (on_sheet s) (entry_table d)) None) as L.
  destruct (fold_left _ _ _) as [[t descr]|].
  - destruct L as (Hsrc & Hmax & _).
    destruct Hsrc as [E|(e & Hin & He & Hd)]; [discriminate|].
    apply filter_In in Hin. destruct Hin as [Hin Hs].
    apply on_sheet_iff in Hs.
    exists e. split; [|exact Hd].
    repeat split; auto.
    intros e' t' Hin' Hs' He'. apply (Hmax e'); auto.
    apply filter_In. split; auto. now apply on_sheet_iff.
  - destruct L as [_ Hall].
    intros (e & t & Hin & Hs & He).
    rewrite Hall in He; [discriminate|].
    apply filter_In. split; auto. now apply on_sheet_iff.
Qed.

(** [in_] without [--out], as a function of the store it starts in. *)
Lemma in_without_out `{Host} (description : list string)
  (switch_to : option string) (at_ : option Z) (resume : bool)
  (extra : option string) (s : state) :
  in_ description switch_to false at_ resume extra s
  = if conflicting resume description
    then Raised resume_conflict
           (mkState (mkDb (entry_table (db s)) (in_target switch_to (db s))) (stdout s))
    else
      match find (active_on (in_target switch_to (db s))) (entry_table (db s)) with
      | Some _ =>
          Raised SheetAlreadyActive
            (mkState (mkDb (entry_table (db s)) (in_target switch_to (db s))) (stdout s))
      | None =>
          match dbutil.most_recent_closed
                  (filter (on_sheet (in_target switch_to (db s))) (entry_table (db s)))
          with
          | Some (previous_timestamp, previous_description) =>
              if cmdutil.parse_date_time_or_now at_ <? previous_timestamp
              then Raised TimeOrderingViolation
                     (mkState (mkDb (entry_table (db s)) (in_target switch_to (db s)))
                              (stdout s))
              else Done tt
                     (mkState
                        (mkDb (clocked_in (db s) (in_target switch_to (db s))
                                 (cmdutil.parse_date_time_or_now at_)
                                 (if resume then previous_description
                                  else Py.or_None (Py.join " " description))
                                 extra)
                              (in_target switch_to (db s)))
                        (stdout s))
          | None =>
              Done tt
                (mkState
                   (mkDb (clocked_in (db s) (in_target switch_to (db s))
                            (cmdutil.parse_date_time_or_now at_)
                            (Py.or_None (Py.join " " description)) extra)
                         (in_target switch_to (db s)))
                   (stdout s))
          end
      end.
Proof.
  unfold in_. unfold bind at 1. rewrite in_switch_step.
  unfold conflicting.
  destruct (resume && negb (Nat.eqb (List.length description) 0)).
  - reflexivity.
  - unfold bind, ret, dbutil.get_active_info, dbutil.get_most_recent_clockout,
      query, raise.
    cbn [db stdout entry_table current_sheet].
    destruct (find _ _); [reflexivity|].
    destruct (dbutil.most_recent_closed _) as [[pt pd]|]; [|reflexivity].
    destruct (_ <? pt); reflexivity.
Qed.

(** C3 as stated fails.  On the store [started] the target sheet [default]
    has an active entry; a clock-in with [--out] closes it and succeeds,
    leaving two rows, and a clock-in with [--resume] and a description
    fails with the conflict message, not with [SheetAlreadyActive]. *)
Lemma in_on_active_sheet_counterexample :
  has_active (in_target None (db started)) (db started)
  /\ @run_command (utc_host 1397498000)
       (In_ [] None true (Some 1397497900) false None) started
     = Done tt
         (mkState
            (mkDb [mkEntry 1 "default" 1397497538 (Some 1397497900) (Some "Working") None;
                   mkEntry 2 "default" 1397497900 None None None]
                  "default")
            [])
  /\ @run_command (utc_host 1397498000)
       (In_ ["Testing"] None false None true None) started
     = Raised resume_conflict started
  /\ resume_conflict <> SheetAlreadyActive.
Proof.
  split; [|split; [reflexivity|split; [reflexivity|discriminate]]].
  eexists. split; [left; reflexivity|]. split; reflexivity.
Qed.

(** With [--switch] the pointer is moved before the failure: the command
    function leaves it on the target sheet, and only the rollback of the
    dispatcher restores it. *)
Lemma in_switch_moves_pointer_before_failing :
  @call test_host (In_ [] (Some "default") false None false None) away
  = Raised SheetAlreadyActive
      (mkState (mkDb (entry_table (db away)) "default") [])
  /\ @run_command test_host (In_ [] (Some "default") false None false None) away
     = Raised SheetAlreadyActive away.
Proof. split; reflexivity. Qed.

(** C3, amended: a clock-in that does not ask for [--out] and does not give
    a description together with [--resume], on a target sheet that has an
    active entry, fails with [SheetAlreadyActive]; the entry rows are as
    they were when it fails, and after the dispatcher's rollback the whole
    store, rows and current-sheet pointer, is the one it started from. *)
Theorem in_already_active_fails `{Host} (description : list string)
  (switch_to : option string) (at_ : option Z) (resume : bool)
  (extra : option string) (s : state) :
  conflicting resume description = false ->
  has_active (in_target switch_to (db s)) (db s) ->
  run_command (In_ description switch_to false at_ resume extra) s
  = Raised SheetAlreadyActive s
  /\ exists s',
       call (In_ description switch_to false at_ resume extra) s
       = Raised SheetAlreadyActive s'
       /\ entry_table (db s') = entry_table (db s)
       /\ stdout s' = stdout s.
Proof.
  intros Hok Hact. apply has_active_find in Hact.
  unfold run_command, call. rewrite in_without_out, Hok.
  destruct (find _ _) as [e|]; [|congruence].
  cbn [db stdout]. rewrite state_eta.
  split; [reflexivity|]. eexists. repeat split.
Qed.

Lemma in_already_active_fails_witness :
  conflicting false ["Working"] = false
  /\ has_active (in_target (Some "default") (db started)) (db started)
  /\ @run_command (utc_host 1397498000)
       (In_ ["Working"] (Some "default") false None false None) started
     = Raised SheetAlreadyActive started.
Proof.
  assert (Hact : has_active (in_target (Some "default") (db started)) (db started)).
  { eexists. split; [left; reflexivity|]. split; reflexivity. }
  split; [reflexivity|]. split; [exact Hact|].
  exact (proj1 (@in_already_active_fails (utc_host 1397498000) ["Working"]
                  (Some "default") None false None started eq_refl Hact)).
Defined.

(** C4 as stated fails.  On the store [fresh] the sheet [default] has no
    active and no closed entry, so the insert should succeed; a clock-in
    with [--out] fails with [SheetNotActive], and one with [--resume] and
    a description fails with the conflict message. *)
Lemma in_ordering_counterexample :
  ~ has_active (in_target None (db fresh)) (db fresh)
  /\ ~ has_closed (in_target None (db fresh)) (db fresh)
  /\ @call (utc_host 1397498000) (In_ [] None true (Some 1397497538) false None) fresh
     = Raised SheetNotActive fresh
  /\ @call (utc_host 1397498000) (In_ ["Working"] None false (Some 1397497538) true None)
       fresh
     = Raised resume_conflict fresh.
Proof.
  split; [|split; [|split; reflexivity]].
  - intros (e & [] & _).
  - intros (e & t & [] & _).
Qed.

(** C4, amended: a clock-in that does not ask for [--out] and does not give
    a description together with [--resume], on a target sheet with no
    active entry, fails with [TimeOrderingViolation] if and only if the
    sheet has a most recently closed entry and the chosen timestamp is
    strictly less than its [end_time]; with no closed entry on the sheet
    the check is waived and the row is inserted, and so it is when the
    timestamp is not before that [end_time]. *)
Theorem in_time_ordering `{Host} (description : list string)
  (switch_to : option string) (at_ : option Z) (resume : bool)
  (extra : option string) (s : state) :
  conflicting resume description = false ->
  ~ has_active (in_target switch_to (db s)) (db s) ->
  ((exists s',
      call (In_ description switch_to false at_ resume extra) s
      = Raised TimeOrderingViolation s')
   <-> exists e t,
         most_recently_closed (in_target switch_to (db s)) (db s) e t
         /\ cmdutil.parse_date_time_or_now at_ < t)
  /\ (~ has_closed (in_target switch_to (db s)) (db s) ->
      call (In_ description switch_to false at_ resume extra) s
      = Done tt
          (mkState
             (mkDb (clocked_in (db s) (in_target switch_to (db s))
                      (cmdutil.parse_date_time_or_now at_)
                      (Py.or_None (Py.join " " description)) extra)
                   (in_target switch_to (db s)))
             (stdout s)))
  /\ (forall e t,
        most_recently_closed (in_target switch_to (db s)) (db s) e t ->
        t <= cmdutil.parse_date_time_or_now at_ ->
        exists descr,
          call (In_ description switch_to false at_ resume extra) s
          = Done tt
              (mkState
                 (mkDb (clocked_in (db s) (in_target switch_to (db s))
                          (cmdutil.parse_date_time_or_now at_) descr extra)
                       (in_target switch_to (db s)))
                 (stdout s))).
Proof.
  intros Hok Hidle.
  assert (Hfind : find (active_on (in_target switch_to (db s))) (entry_table (db s))
                  = None).
  { destruct (find _ _) eqn:E; [|reflexivity].
    exfalso. apply Hidle, has_active_find. congruence. }
  pose proof (most_recent_closed_spec (in_target switch_to (db s)) (db s)) as Hrec.
  unfold call. rewrite in_without_out, Hok, Hfind.
  destruct (dbutil.most_recent_closed _) as [[pt pd]|].
  - destruct Hrec as (e0 & Hmost & Hd).
    destruct (Z.ltb_spec (cmdutil.parse_date_time_or_now at_) pt) as [Hlt|Hge].
    + split; [|split].
      * split; [intros _; exists e0, pt; auto|intros _; eexists; reflexivity].
      * intros Hnone. exfalso. apply Hnone.
        destruct Hmost as (Hin & Hs & He & _). exists e0, pt. auto.
      * intros e t (_ & _ & _ & Hmax) Hle. exfalso.
        destruct Hmost as (Hin0 & Hs0 & He0 & _).
        specialize (Hmax e0 pt Hin0 Hs0 He0). lia.
    + split; [|split].
      * split; [intros [s' Hr]; discriminate|].
        intros (e & t & (Hin & Hs & He & _) & Hlt). exfalso.
        destruct Hmost as (_ & _ & _ & Hmax).
        specialize (Hmax e t Hin Hs He). lia.
      * intros Hnone. exfalso. apply Hnone.
        destruct Hmost as (Hin & Hs & He & _). exists e0, pt. auto.
      * intros e t _ _. eexists. reflexivity.
  - split; [|split].
    + split; [intros [s' Hr]; discriminate|].
      intros (e & t & (Hin & Hs & He & _) & _). exfalso.
      apply Hrec. exists e, t. auto.
    + intros _. reflexivity.
    + intros e t _ _. eexists. reflexivity.
Qed.

Lemma in_time_ordering_witness :
  conflicting false ["Working"] = false
  /\ ~ has_active (in_target None (db ended)) (db ended)
  /\ ((exists s',
         @call (utc_host 1397498000)
           (In_ ["Working"] None false (Some 1397497538) false None) ended
         = Raised TimeOrderingViolation s')
      <-> exists e t,
            most_recently_closed (in_target None (db ended)) (db ended) e t
            /\ @cmdutil.parse_date_time_or_now (utc_host 1397498000) (Some 1397497538) < t).
Proof.
  assert (Hidle : ~ has_active (in_target None (db ended)) (db ended)).
  { intros (e & Hin & _ & He). destruct Hin as [<-|[]]. discriminate. }
  split; [reflexivity|]. split; [exact Hidle|].
  exact (proj1 (@in_time_ordering (utc_host 1397498000) ["Working"] None
                  (Some 1397497538) false None ended eq_refl Hidle)).
Defined.

(** C10 as stated fails.  The sheet [new] has no entry at all in the store
    [ended]; a clock-in with [--resume] that also gives a description
    fails with the conflict message, and one that also asks for [--out]
    fails with [SheetNotActive]. *)
Lemma in_resume_counterexample :
  ~ has_active (in_target (Some "new") (db ended)) (db ended)
  /\ ~ has_closed (in_target (Some "new") (db ended)) (db ended)
  /\ @run_command (utc_host 1397498000)
       (In_ ["Working"] (Some "new") false None true None) ended
     = Raised resume_conflict ended
  /\ @run_command (utc_host 1397498000)
       (In_ [] (Some "new") true None true None) ended
     = Raised SheetNotActive ended.
Proof.
  split; [|split; [|split; reflexivity]].
  - intros (e & Hin & Hs & _). destruct Hin as [<-|[]]. discriminate.
  - intros (e & t & Hin & Hs & _). destruct Hin as [<-|[]]. discriminate.
Qed.

(** C10, amended: a clock-in with [--resume], with no description (giving
    both is rejected) and without [--out], on a target sheet that has
    neither an active nor a closed entry, returns; it inserts one active
    row on that sheet whose description is null, and the dispatcher
    commits it. *)
Theorem in_resume_without_history `{Host}
  (switch_to : option string) (at_ : option Z) (extra : option string)
  (s : state) :
  ~ has_active (in_target switch_to (db s)) (db s) ->
  ~ has_closed (in_target switch_to (db s)) (db s) ->
  call (In_ [] switch_to false at_ true extra) s
  = Done tt
      (mkState
         (mkDb (entry_table (db s)
                ++ [mkEntry (sql.next_id (entry_table (db s)))
                      (in_target switch_to (db s))
                      (cmdutil.parse_date_time_or_now at_) None None extra])
               (in_target switch_to (db s)))
         (stdout s))
  /\ run_command (In_ [] switch_to false at_ true extra) s
     = call (In_ [] switch_to false at_ true extra) s.
Proof.
  intros Hidle Hnew.
  assert (Hfind : find (active_on (in_target switch_to (db s))) (entry_table (db s))
                  = None).
  { destruct (find _ _) eqn:E; [|reflexivity].
    exfalso. apply Hidle, has_active_find. congruence. }
  pose proof (most_recent_closed_spec (in_target switch_to (db s)) (db s)) as Hrec.
  assert (Hcall : call (In_ [] switch_to false at_ true extra) s
    = Done tt
        (mkState
           (mkDb (entry_table (db s)
                  ++ [mkEntry (sql.next_id (entry_table (db s)))
                        (in_target switch_to (db s))
                        (cmdutil.parse_date_time_or_now at_) None None extra])
                 (in_target switch_to (db s)))
           (stdout s))).
  { unfold call. rewrite in_without_out, Hfind.
    destruct (dbutil.most_recent_closed _) as [[pt pd]|].
    - exfalso. destruct Hrec as (e & (Hin & Hs & He & _) & _).
      apply Hnew. exists e, pt. auto.
    - reflexivity. }
  split; [exact Hcall|].
  unfold run_command. rewrite Hcall. reflexivity.
Qed.

Lemma in_resume_without_history_witness :
  ~ has_active (in_target (Some "new") (db ended)) (db ended)
  /\ ~ has_closed (in_target (Some "new") (db ended)) (db ended)
  /\ @call (utc_host 1397498000) (In_ [] (Some "new") false None true None) ended
     = Done tt
         (mkState
            (mkDb (entry_table (db ended)
                   ++ [mkEntry (sql.next_id (entry_table (db ended)))
                         (in_target (Some "new") (db ended))
                         (@cmdutil.parse_date_time_or_now (utc_host 1397498000) None)
                         None None None])
                  (in_target (Some "new") (db ended)))
            (stdout ended)).
Proof.
  assert (Hidle : ~ has_active (in_target (Some "new") (db ended)) (db ended)).
  { intros (e & Hin & Hs & _). destruct Hin as [<-|[]]. discriminate. }
  assert (Hnew : ~ has_closed (in_target (Some "new") (db ended)) (db ended)).
  { intros (e & t & Hin & Hs & _). destruct Hin as [<-|[]]. discriminate. }
  split; [exact Hidle|]. split; [exact Hnew|].
  exact (proj1 (@in_resume_without_history (utc_host 1397498000) (Some "new")
                  None None ended Hidle Hnew)).
Defined.

(** ** Postconditions of commands *)

Lemma post_ret {A : Type} (a : A) s (Q : A -> state -> Prop) R :
  Q a s -> post (ret a) s Q R.
Proof. exact (fun q => q). Qed.

Lemma post_raise {A : Type} (e : error) s (Q : A -> state -> Prop) (R : state -> Prop) :
  R s -> post (raise e) s Q R.
Proof. exact (fun r => r). Qed.

Lemma post_query {A : Type} (f : database -> A) s (Q : A -> state -> Prop) R :
  Q (f (db s)) s -> post (query f) s Q R.
Proof. exact (fun q => q). Qed.

Lemma post_execute (f : database -> database) s (Q : unit -> state -> Prop) R :
  Q tt (mkState (f (db s)) (stdout s)) -> post (execute f) s Q R.
Proof. exact (fun q => q). Qed.

Lemma post_emit (o : output) s (Q : unit -> state -> Prop) R :
  Q tt (mkState (db s) (stdout s ++ [o])) -> post (emit o) s Q R.
Proof. exact (fun q => q). Qed.

Lemma post_bind {A B : Type} (c : cmd A) (k : A -> cmd B) s
  (Q : B -> state -> Prop) (R : state -> Prop) :
  post c s (fun a s' => post (k a) s' Q R) R -> post (bind c k) s Q R.
Proof. unfold post, bind. destruct (c s); auto. Qed.

Lemma post_weaken {A : Type} (c : cmd A) s
  (Q Q' : A -> state -> Prop) (R R' : state -> Prop) :
  post c s Q R ->
  (forall a s', Q a s' -> Q' a s') -> (forall s', R s' -> R' s') ->
  post c s Q' R'.
Proof. unfold post. destruct (c s); auto. Qed.

Lemma post_state_of {A : Type} (c : cmd A) s (P : state -> Prop) :
  post c s (fun _ => P) P <-> P (state_of (c s)).
Proof. unfold post, state_of. destruct (c s); tauto. Qed.

Ltac post_step :=
  lazymatch goal with
  | |- post (bind _ _) _ _ _ => apply post_bind
  | |- post (ret _) _ _ _ => apply post_ret
  | |- post (raise _) _ _ _ => apply post_raise
  | |- post (query _) _ _ _ => apply post_query
  | |- post (execute _) _ _ _ => apply post_execute
  | |- post (emit _) _ _ _ => apply post_emit
  | |- post (print _) _ _ _ => apply post_emit
  | |- post (print_end _ _) _ _ _ => apply post_emit
  | |- post _ _ _ _ => first [apply post_query | apply post_execute]
  end.

(** ** Properties of the rows that every command keeps *)

Lemma filter_length_map {A : Type} (p : A -> bool) (g : A -> A) (l : list A) :
  (forall x, p (g x) = true -> p x = true) ->
  (List.length (filter p (map g l)) <= List.length (filter p l))%nat.
Proof.
  intros Hg. induction l as [|a l IH]; simpl; [lia|].
  destruct (p (g a)) eqn:E.
  - rewrite (Hg a E). simpl. lia.
  - destruct (p a); simpl; lia.
Qed.

Lemma filter_length_filter {A : Type} (p q : A -> bool) (l : list A) :
  (List.length (filter p (filter q l)) <= List.length (filter p l))%nat.
Proof.
  induction l as [|a l IH]; simpl; [lia|].
  destruct (q a); simpl; destruct (p a); simpl; lia.
Qed.

Lemma set_end_time_active (t : Z) (s : string) (e : entry) :
  active_on s (sql.set_end_time t e) = true -> active_on s e = true.
Proof. unfold active_on, is_active, on_sheet. simpl. now rewrite andb_false_r. Qed.

Lemma set_description_active (descr s : string) (e : entry) :
  active_on s (sql.set_description descr e) = true -> active_on s e = true.
Proof. exact (fun h => h). Qed.

Section Invariant.

Context `{Host}.

(** A property of the table that the four statements keep: the two updates
    by id, the delete of a sheet, and the insert of an active row with a
    fresh id on a sheet that has no active row. *)
Variable P : list entry -> Prop.

Hypothesis P_end_time :
  forall t i l, P l -> P (sql.update_where_id (sql.set_end_time t) i l).
Hypothesis P_description :
  forall descr i l, P l -> P (sql.update_where_id (sql.set_description descr) i l).
Hypothesis P_delete :
  forall sh l, P l -> P (filter (fun e => negb (on_sheet sh e)) l).
Hypothesis P_insert :
  forall l sh t descr ext,
    P l -> find (active_on sh) l = None ->
    P (l ++ [mkEntry (sql.next_id l) sh t None descr ext]).

Lemma switch_keeps (t : string) (verbose : bool) (s : state) :
  rows_satisfy P s ->
  post (switch t verbose) s (fun _ => rows_satisfy P) (rows_satisfy P).
Proof.
  intros Hs. unfold switch.
  post_step. post_step. post_step.
  destruct (negb _); post_step;
    (destruct verbose;
     [post_step; post_step; destruct (_ =? 0); post_step|post_step]);
    exact Hs.
Qed.

Lemma clock_out_keeps (at_ timestamp : option Z) (verbose : bool) (s : state) :
  rows_satisfy P s ->
  post (clock_out at_ verbose timestamp) s (fun _ => rows_satisfy P) (rows_satisfy P).
Proof.
  intros Hs. unfold clock_out.
  post_step. post_step.
  destruct (find _ _) as [e|]; [|now post_step].
  post_step.
  assert (Hs1 : forall s1, db s1 = db s ->
    post (if chosen_timestamp at_ timestamp - start_time e <? 0
          then raise NegativeDuration
          else sql.update_end_time (chosen_timestamp at_ timestamp) (id e))
      s1 (fun _ => rows_satisfy P) (rows_satisfy P)).
  { intros s1 E. destruct (_ <? 0).
    - post_step. unfold rows_satisfy. now rewrite E.
    - unfold sql.update_end_time. post_step.
      unfold rows_satisfy. cbn [db entry_table]. rewrite E.
      now apply P_end_time. }
  destruct verbose; post_step; apply Hs1; reflexivity.
Qed.

Lemma alter_keeps (description : list string) (s : state) :
  rows_satisfy P s ->
  post (alter description) s (fun _ => rows_satisfy P) (rows_satisfy P).
Proof.
  intros Hs. unfold alter.
  post_step. post_step.
  destruct (find _ _) as [e|]; [|now post_step].
  unfold sql.update_description. post_step.
  now apply P_description.
Qed.

Lemma kill_keeps (timesheet answer : option string) (s : state) :
  rows_satisfy P s ->
  post (kill timesheet answer) s (fun _ => rows_satisfy P) (rows_satisfy P).
Proof.
  intros Hs. unfold kill.
  destruct (kill_prompt_target timesheet s) as [b [Ht _]].
  apply post_bind. unfold post at 1. rewrite Ht.
  post_step. post_step. post_step.
  assert (Hrest : forall confirm s1, db s1 = db s ->
    post (if negb confirm then print "canceled"
          else bind (sql.delete_sheet (kill_target timesheet (db s)))
                 (fun _ => if b then switch "default" false else ret tt))
      s1 (fun _ => rows_satisfy P) (rows_satisfy P)).
  { intros confirm s1 E. destruct confirm; cbn [negb].
    - post_step. unfold sql.delete_sheet. post_step.
      assert (Hdel : rows_satisfy P (mkState
                (mkDb (filter (fun e => negb (on_sheet (kill_target timesheet (db s)) e))
                         (entry_table (db s1))) (current_sheet (db s1))) (stdout s1))).
      { unfold rows_satisfy. cbn [db entry_table]. rewrite E. now apply P_delete. }
      destruct b; [now apply switch_keeps|now post_step].
    - post_step. unfold rows_satisfy. cbn [db]. now rewrite E. }
  destruct answer as [a|].
  - post_step. apply Hrest. reflexivity.
  - post_step. post_step. post_step. apply Hrest. reflexivity.
Qed.

Lemma in_keeps (description : list string) (switch_to : option string)
  (o : bool) (at_ : option Z) (resume : bool) (extra : option string) (s : state) :
  rows_satisfy P s ->
  post (in_ description switch_to o at_ resume extra) s
    (fun _ => rows_satisfy P) (rows_satisfy P).
Proof.
  intros Hs. unfold in_.
  apply post_bind. unfold post at 1. rewrite in_switch_step.
  assert (Hs1 : rows_satisfy P
                  (mkState (mkDb (entry_table (db s)) (in_target switch_to (db s)))
                     (stdout s))) by exact Hs.
  revert Hs1. generalize (mkState (mkDb (entry_table (db s)) (in_target switch_to (db s)))
                            (stdout s)) as s1.
  intros s1 Hs1.
  destruct (resume && _); [now post_step|].
  post_step.
  apply post_weaken with (Q := fun _ => rows_satisfy P) (R := rows_satisfy P);
    [| |auto].
  - destruct o; [now apply clock_out_keeps|now post_step].
  - intros _ s2 Hs2.
    post_step. unfold dbutil.get_active_info. post_step.
    destruct (find _ _) eqn:Hf; [now post_step|].
    post_step. unfold dbutil.get_most_recent_clockout. post_step.
    destruct (dbutil.most_recent_closed _) as [[pt pd]|].
    + destruct (_ <? pt); [now post_step|].
      unfold sql.insert_entry. post_step.
      now apply P_insert.
    + unfold sql.insert_entry. post_step.
      now apply P_insert.
Qed.

End Invariant.

(** ** Reports read the store and only print *)

Lemma writerows_eq (rows : list (list cell)) (s : state) :
  writerows rows s = Done tt (mkState (db s) (stdout s ++ map CsvRow rows)).
Proof.
  revert s. induction rows as [|r rows IH]; intros s; simpl.
  - unfold ret. now rewrite app_nil_r, state_eta.
  - unfold bind, emit. rewrite IH. cbn [db stdout].
    now rewrite <- app_assoc.
Qed.

Lemma format_csv_eq `{Host} (sh : string) (w : where_clause) (s : state) :
  format_csv sh w s
  = match csv_rows (csv_selected sh w (db s)) with
    | None => Raised TypeError (mkState (db s) (stdout s ++ [CsvRow csv_header]))
    | Some data =>
        Done tt
          (mkState (db s)
             (stdout s
              ++ CsvRow csv_header
                 :: map CsvRow data
                 ++ [CsvRow (csv_total_row (List.length (csv_selected sh w (db s))))]))
    end.
Proof.
  unfold format_csv, bind, emit, query, raise. cbn [db stdout].
  destruct (csv_rows _) as [data|]; [|reflexivity].
  rewrite writerows_eq. cbn [db stdout].
  now rewrite <- !app_assoc.
Qed.

Lemma format_timebook_eq `{Host} (sh : string) (w : where_clause) (s : state) :
  format_timebook sh w s
  = if Nat.eqb (List.length (filter (selected sh w) (entry_table (db s)))) 0
    then Done tt (mkState (db s) (stdout s ++ [Print "(empty)" Py.newline]))
    else
      match loop (mkLoop None None (days_query sh w (db s)) [table_header])
                 (entries_query sh w (db s)) with
      | inl err => Raised err s
      | inr v =>
          match day_total v with
          | None => Raised (UnboundLocalError "day_total") s
          | Some t =>
              Done tt
                (mkState (db s)
                   (stdout s
                    ++ [PrintTable
                          (table v
                           ++ [day_total_row t; total_row (total_query sh w (db s))])
                          true]))
          end
      end.
Proof.
  unfold format_timebook, bind, query, print, emit, raise.
  destruct (Nat.eqb _ 0); cbn [negb]; [reflexivity|].
  destruct (loop _ _) as [err|v]; [reflexivity|].
  destruct (day_total v); reflexivity.
Qed.

(** Completing a sheet name reads the store and returns or raises without
    touching the state. *)
Lemma grab_sheet_pure (timesheet : option string) (s : state) :
  (exists sh, grab_sheet timesheet s = Done sh s)
  \/ (exists e, grab_sheet timesheet s = Raised e s).
Proof.
  unfold grab_sheet.
  assert (Hcur : dbutil.get_current_sheet s = Done (current_sheet (db s)) s)
    by reflexivity.
  destruct timesheet as [t|]; [|left; eexists; exact Hcur].
  destruct (Py.truthy (Some t)); [|left; eexists; exact Hcur].
  unfold bind, dbutil.get_sheet_names, query, cmdutil.complete.
  destruct (Py.contains _ t); [left; eexists; reflexivity|].
  destruct (filter _ _) as [|n [|n' ms]].
  - right; eexists; reflexivity.
  - left; eexists; reflexivity.
  - right; eexists; reflexivity.
Qed.

Lemma display_keeps_store `{Host} (timesheet : option string) (format : string)
  (start end_ : option Z) (s : state) :
  db (state_of (display timesheet format start end_ s)) = db s.
Proof.
  unfold display, bind.
  destruct (grab_sheet_pure timesheet s) as [[sh E]|[e E]]; rewrite E;
    [|reflexivity].
  destruct (String.eqb format "plain").
  - rewrite format_timebook_eq.
    destruct (Nat.eqb _ 0); [reflexivity|].
    destruct (loop _ _) as [err|v]; [reflexivity|].
    destruct (day_total v); reflexivity.
  - destruct (String.eqb format "csv"); [|reflexivity].
    rewrite format_csv_eq. destruct (csv_rows _); reflexivity.
Qed.

(** Every command keeps a property of the rows that the four statements
    keep. *)
Lemma call_keeps `{Host} (P : list entry -> Prop) :
  (forall t i l, P l -> P (sql.update_where_id (sql.set_end_time t) i l)) ->
  (forall descr i l, P l -> P (sql.update_where_id (sql.set_description descr) i l)) ->
  (forall sh l, P l -> P (filter (fun e => negb (on_sheet sh e)) l)) ->
  (forall l sh t descr ext,
     P l -> find (active_on sh) l = None ->
     P (l ++ [mkEntry (sql.next_id l) sh t None descr ext])) ->
  forall (c : invocation) (s : state),
    rows_satisfy P s -> rows_satisfy P (state_of (call c s)).
Proof.
  intros Hend Hdescr Hdel Hins c s Hs.
  destruct c; cbn [call].
  - apply (post_state_of _ s (rows_satisfy P)). now apply in_keeps.
  - apply (post_state_of _ s (rows_satisfy P)). now apply clock_out_keeps.
  - apply (post_state_of _ s (rows_satisfy P)). now apply alter_keeps.
  - apply (post_state_of _ s (rows_satisfy P)). now apply switch_keeps.
  - apply (post_state_of _ s (rows_satisfy P)). now apply kill_keeps.
  - unfold rows_satisfy. now rewrite display_keeps_store.
Qed.

(** *** At most one active entry per sheet *)

Lemma one_active_end_time (t i : Z) (l : list entry) :
  one_active_rows l ->
  one_active_rows (sql.update_where_id (sql.set_end_time t) i l).
Proof.
  intros Hl s. specialize (Hl s). unfold sql.update_where_id.
  etransitivity; [apply filter_length_map|exact Hl].
  intros x. destruct (id x =? i); [apply set_end_time_active|auto].
Qed.

Lemma one_active_description (descr : string) (i : Z) (l : list entry) :
  one_active_rows l ->
  one_active_rows (sql.update_where_id (sql.set_description descr) i l).
Proof.
  intros Hl s. specialize (Hl s). unfold sql.update_where_id.
  etransitivity; [apply filter_length_map|exact Hl].
  intros x. destruct (id x =? i); [apply set_description_active|auto].
Qed.

Lemma one_active_delete (sh : string) (l : list entry) :
  one_active_rows l ->
  one_active_rows (filter (fun e => negb (on_sheet sh e)) l).
Proof.
  intros Hl s. specialize (Hl s).
  etransitivity; [apply filter_length_filter|exact Hl].
Qed.

Lemma one_active_insert (l : list entry) (sh : string) (t : Z)
  (descr ext : option string) :
  one_active_rows l ->
  find (active_on sh) l = None ->
  one_active_rows (l ++ [mkEntry (sql.next_id l) sh t None descr ext]).
Proof.
  intros Hl Hnone s. specialize (Hl s).
  rewrite filter_app, length_app. simpl.
  unfold active_on at 2, on_sheet. cbn [sheet is_active end_time].
  destruct (String.eqb_spec sh s) as [->|Hne]; simpl.
  - apply find_none_filter in Hnone. rewrite Hnone. simpl. lia.
  - lia.
Qed.

(** C1: every command, started in a store where each sheet has at most one
    entry with a null [end_time], leaves such a store: both the state the
    command function reaches, whether it returns or raises, and the state
    the dispatcher leaves after its commit or rollback.  This covers
    clock-in (with or without [--switch], [--out], [--resume]), clock-out,
    alter, switch, kill and the read-only display. *)
Theorem one_active_per_sheet_invariant `{Host} (c : invocation) (s : state) :
  one_active_per_sheet (db s) ->
  one_active_per_sheet (db (state_of (call c s)))
  /\ one_active_per_sheet (db (state_of (run_command c s))).
Proof.
  intros Hs.
  assert (Hcall : one_active_per_sheet (db (state_of (call c s)))).
  { apply (call_keeps one_active_rows); auto using
      one_active_end_time, one_active_description, one_active_delete,
      one_active_insert. }
  split; [exact Hcall|].
  unfold run_command. destruct (call c s); [exact Hcall|exact Hs].
Qed.

Lemma one_active_per_sheet_invariant_witness :
  one_active_per_sheet (db started)
  /\ one_active_per_sheet
       (db (state_of (@call (utc_host 1397498000)
                        (In_ ["Break"] None true (Some 1397497900) false None)
                        started)))
  /\ one_active_per_sheet
       (db (state_of (@run_command (utc_host 1397498000)
                        (In_ ["Break"] None true (Some 1397497900) false None)
                        started))).
Proof.
  assert (Hs : one_active_per_sheet (db started)).
  { intros sh. unfold started. cbn [db entry_table filter].
    destruct (active_on sh _); cbn [List.length]; lia. }
  split; [exact Hs|].
  exact (@one_active_per_sheet_invariant (utc_host 1397498000)
           (In_ ["Break"] None true (Some 1397497900) false None) started Hs).
Defined.

(** *** Ids stay unique *)

Lemma update_where_id_ids (f : entry -> entry) (i : Z) (l : list entry) :
  (forall e, id (f e) = id e) ->
  map id (sql.update_where_id f i l) = map id l.
Proof.
  intros Hf. unfold sql.update_where_id. rewrite map_map.
  apply map_ext. intros e. destruct (id e =? i); auto.
Qed.

Lemma next_id_above (l : list entry) (e : entry) :
  In e l -> id e < sql.next_id l.
Proof.
  unfold sql.next_id.
  induction l as [|a l IH]; intros Hin; [destruct Hin|].
  cbn [fold_right]. destruct Hin as [<-|Hin]; [lia|].
  specialize (IH Hin). lia.
Qed.

Lemma unique_delete (q : entry -> bool) (l : list entry) :
  unique_rows l -> unique_rows (filter q l).
Proof.
  unfold unique_rows.
  induction l as [|a l IH]; cbn [filter map]; intros Hnd; [constructor|].
  inversion Hnd as [|x xs Hnot Hrest]; subst.
  destruct (q a); cbn [map]; [|auto].
  constructor; [|auto].
  intros Hin. apply Hnot. apply in_map_iff in Hin.
  destruct Hin as (e & He & Hf). apply filter_In in Hf.
  apply in_map_iff. exists e. tauto.
Qed.

Lemma unique_insert (l : list entry) (sh : string) (t : Z)
  (descr ext : option string) :
  unique_rows l ->
  unique_rows (l ++ [mkEntry (sql.next_id l) sh t None descr ext]).
Proof.
  unfold unique_rows. intros Hnd. rewrite map_app. cbn [map id].
  apply NoDup_app; [exact Hnd|repeat constructor; intros []|].
  intros x Hx [<-|[]]. apply in_map_iff in Hx.
  destruct Hx as (e & He & Hin). apply next_id_above in Hin. lia.
Qed.

(** X17: every command keeps the ids of the table unique, as does the
    dispatcher: the hypothesis of the properties of clock-out and alter is
    an invariant of the store. *)
Lemma unique_ids_invariant `{Host} (c : invocation) (s : state) :
  unique_ids (db s) ->
  unique_ids (db (state_of (call c s)))
  /\ unique_ids (db (state_of (run_command c s))).
Proof.
  intros Hs.
  assert (Hcall : unique_ids (db (state_of (call c s)))).
  { apply (call_keeps unique_rows); auto using unique_delete, unique_insert.
    - intros t i l Hl. unfold unique_rows.
      now rewrite update_where_id_ids.
    - intros descr i l Hl. unfold unique_rows.
      now rewrite update_where_id_ids. }
  split; [exact Hcall|].
  unfold run_command. destruct (call c s); [exact Hcall|exact Hs].
Qed.

(** ** CSV export *)




(** ** The two queries of the table agree on the days *)

Lemma same_day_true (l : option Z) (d : Z) : same_day l d = true <-> l = Some d.
Proof.
  unfold same_day. destruct l as [d'|]; [|split; discriminate].
  rewrite Z.eqb_eq. split; congruence.
Qed.

Lemma sum_durations_app `{Host} (before after : list entry) (e : entry) :
  sum_durations (before ++ e :: after)
  = sum_durations before + duration e + sum_durations after.
Proof.
  unfold sum_durations.
  induction before as [|a before IH]; cbn [app fold_right]; [lia|].
  rewrite IH. lia.
Qed.

Lemma strictly_sorted_unique (l1 l2 : list Z) :
  StronglySorted Z.lt l1 -> StronglySorted Z.lt l2 ->
  (forall x, In x l1 <-> In x l2) -> l1 = l2.
Proof.
  intros S1. revert l2.
  induction S1 as [|a l1 S1 IH Ha]; intros l2 S2 Hsame.
  - destruct l2 as [|b l2]; [reflexivity|].
    exfalso. apply (proj2 (Hsame b)). now left.
  - destruct S2 as [|b l2 S2 Hb].
    + exfalso. apply (proj1 (Hsame a)). now left.
    + rewrite Forall_forall in Ha, Hb.
      assert (a = b) as <-.
      { destruct (proj1 (Hsame a) (or_introl eq_refl)) as [E|Hin]; [auto|].
        destruct (proj2 (Hsame b) (or_introl eq_refl)) as [E|Hin']; [auto|].
        specialize (Ha _ Hin'). specialize (Hb _ Hin). lia. }
      f_equal. apply IH; [exact S2|].
      intros x. split; intros Hx.
      * destruct (proj1 (Hsame x) (or_intror Hx)) as [E|Hin]; [|exact Hin].
        specialize (Ha _ Hx). lia.
      * destruct (proj2 (Hsame x) (or_intror Hx)) as [E|Hin]; [|exact Hin].
        specialize (Hb _ Hx). lia.
Qed.

Lemma insert_day_spec (d : Z) (l : list Z) :
  StronglySorted Z.lt l ->
  StronglySorted Z.lt (insert_day d l)
  /\ forall x, In x (insert_day d l) <-> x = d \/ In x l.
Proof.
  induction 1 as [|a l S IH Ha]; cbn [insert_day].
  - split; [repeat constructor|]. intros x. cbn. intuition.
  - destruct IH as [IHs IHin].
    destruct (Z.ltb_spec d a) as [Hlt|Hge].
    + split; [|intros x; cbn; intuition].
      constructor; [now constructor|].
      constructor; [exact Hlt|].
      rewrite Forall_forall in Ha |- *. intros y Hy. specialize (Ha y Hy). lia.
    + destruct (Z.eqb_spec d a) as [->|Hne].
      * split; [now constructor|]. intros x. cbn. intuition.
      * split.
        -- constructor; [exact IHs|].
           rewrite Forall_forall in Ha |- *. intros y Hy.
           apply IHin in Hy. destruct Hy as [->|Hy]; [lia|auto].
        -- intros x. cbn. rewrite IHin. intuition.
Qed.

Lemma distinct_days_spec `{Host} (rows : list entry) :
  StronglySorted Z.lt (distinct_days rows)
  /\ forall x, In x (distinct_days rows)
               <-> In x (map (fun e => local_day (start_time e)) rows).
Proof.
  induction rows as [|e rows [IHs IHin]]; cbn [distinct_days fold_right map].
  - split; [constructor|tauto].
  - fold (distinct_days rows).
    destruct (insert_day_spec (local_day (start_time e)) _ IHs) as [Hs Hin].
    split; [exact Hs|].
    intros x. rewrite Hin, IHin. cbn. intuition.
Qed.

Lemma insert_by_start_spec (e : entry) (l : list entry) :
  StronglySorted (fun a b => start_time a <= start_time b) l ->
  StronglySorted (fun a b => start_time a <= start_time b) (insert_by_start e l)
  /\ forall x, In x (insert_by_start e l) <-> x = e \/ In x l.
Proof.
  induction 1 as [|a l S IH Ha]; cbn [insert_by_start].
  - split; [repeat constructor|]. intros x. cbn. intuition.
  - destruct IH as [IHs IHin].
    destruct (Z.leb_spec (start_time e) (start_time a)) as [Hle|Hgt].
    + split; [|intros x; cbn; intuition].
      constructor; [now constructor|].
      constructor; [exact Hle|].
      rewrite Forall_forall in Ha |- *. intros y Hy. specialize (Ha y Hy). lia.
    + split.
      * constructor; [exact IHs|].
        rewrite Forall_forall in Ha |- *. intros y Hy.
        apply IHin in Hy. destruct Hy as [->|Hy]; [lia|auto].
      * intros x. cbn. rewrite IHin. intuition.
Qed.

Lemma order_by_start_spec (rows : list entry) :
  StronglySorted (fun a b => start_time a <= start_time b) (order_by_start rows)
  /\ forall x, In x (order_by_start rows) <-> In x rows.
Proof.
  induction rows as [|e rows [IHs IHin]]; cbn [order_by_start fold_right].
  - split; [constructor|tauto].
  - fold (order_by_start rows).
    destruct (insert_by_start_spec e _ IHs) as [Hs Hin].
    split; [exact Hs|].
    intros x. rewrite Hin, IHin. cbn. intuition.
Qed.

(** On a list of days that never decreases, the days at which the day
    changes are the distinct days in ascending order. *)
Lemma fresh_days_spec (days : list Z) :
  StronglySorted Z.le days ->
  forall last,
    Forall (fun d => match last with Some l => l <= d | None => True end) days ->
    StronglySorted Z.lt (fresh_days last days)
    /\ forall x, In x (fresh_days last days) <-> In x days /\ last <> Some x.
Proof.
  induction 1 as [|d days S IH Hd]; intros last Hlast; cbn [fresh_days].
  - split; [constructor|]. cbn. tauto.
  - inversion Hlast as [|d' l' Hld Hlrest]; subst.
    destruct (same_day last d) eqn:Esame.
    + apply same_day_true in Esame. subst last.
      destruct (IH (Some d) Hlrest) as [IHs IHin].
      split; [exact IHs|].
      intros x. rewrite IHin. cbn. intuition congruence.
    + assert (Hne : last <> Some d).
      { intros E. apply same_day_true in E. congruence. }
      destruct (IH (Some d) Hd) as [IHs IHin].
      split.
      * constructor; [exact IHs|].
        rewrite Forall_forall in Hd |- *. intros y Hy.
        apply IHin in Hy. destruct Hy as [Hy Hyd].
        specialize (Hd y Hy).
        assert (y <> d) by congruence. lia.
      * intros x. cbn. rewrite IHin.
        rewrite Forall_forall in Hlrest.
        split.
        -- intros [<-|[Hx Hxd]]; [split; auto|].
           split; [auto|].
           destruct last as [l|]; [|discriminate].
           specialize (Hlrest x Hx). cbn in Hlrest.
           intros E. injection E as ->.
           rewrite Forall_forall in Hd. specialize (Hd x Hx).
           assert (x = d) by lia. congruence.
        -- intros [[<-|Hx] Hxl]; [now left|].
           destruct (Z.eq_dec d x) as [->|Hdx]; [now left|].
           right. split; [exact Hx|congruence].
Qed.

Section Agreement.

Context `{Host}.

(** The local day never goes back as time goes on. *)
Hypothesis local_day_monotone : forall a b, a <= b -> local_day a <= local_day b.

Lemma days_of_ordered (entries : list entry) :
  StronglySorted (fun a b => start_time a <= start_time b) entries ->
  StronglySorted Z.le (map (fun e => local_day (start_time e)) entries).
Proof.
  induction 1 as [|a l S IH Ha]; cbn [map]; constructor; [exact IH|].
  rewrite Forall_forall in Ha |- *. intros d Hd.
  apply in_map_iff in Hd. destruct Hd as (e & <- & He).
  apply local_day_monotone, Ha, He.
Qed.

(** The days of the first query are the days at which the rows of the
    second query change day. *)
Lemma distinct_days_fresh (rows : list entry) :
  distinct_days rows
  = fresh_days None (map (fun e => local_day (start_time e)) (order_by_start rows)).
Proof.
  destruct (distinct_days_spec rows) as [Hs Hin].
  destruct (order_by_start_spec rows) as [Hos Hoin].
  destruct (fresh_days_spec _ (days_of_ordered _ Hos) None) as [Hfs Hfin].
  { apply Forall_forall. auto. }
  apply strictly_sorted_unique; [exact Hs|exact Hfs|].
  intros x. rewrite Hin, Hfin, !in_map_iff.
  split.
  - intros (e & <- & He). split; [|discriminate].
    exists e. split; [reflexivity|]. now apply Hoin.
  - intros [(e & <- & He) _]. exists e. split; [reflexivity|]. now apply Hoin.
Qed.

End Agreement.

(** ** The loop builds the report day by day *)

Section DayBlocks.

Context `{Host}.

Variable day_sum : Z -> Z.

Lemma filter_other_day (d : Z) (e : entry) (l : list entry) :
  local_day (start_time e) <> d ->
  filter (on_day d) (e :: l) = filter (on_day d) l.
Proof.
  intros Hne. cbn [filter]. unfold on_day at 1.
  destruct (Z.eqb_spec (local_day (start_time e)) d); [contradiction|reflexivity].
Qed.

Lemma filter_same_day (d : Z) (e : entry) (l : list entry) :
  local_day (start_time e) = d ->
  filter (on_day d) (e :: l) = e :: filter (on_day d) l.
Proof.
  intros <-. cbn [filter]. unfold on_day at 1. now rewrite Z.eqb_refl.
Qed.

Lemma day_blocks_other_days (e : entry) (l : list entry) (days : list Z) :
  ~ In (local_day (start_time e)) days ->
  map (fun d => day_block (day_sum d) (filter (on_day d) (e :: l))) days
  = map (fun d => day_block (day_sum d) (filter (on_day d) l)) days.
Proof.
  intros Hnot. apply map_ext_in. intros d Hd.
  rewrite filter_other_day; [reflexivity|]. congruence.
Qed.

Lemma filter_earlier_day (d : Z) (l : list entry) :
  Forall (fun x => d < x) (map (fun e => local_day (start_time e)) l) ->
  filter (on_day d) l = [].
Proof.
  induction l as [|a l IH]; cbn [map]; intros Hl; [reflexivity|].
  inversion Hl as [|x xs Hx Hrest]; subst.
  rewrite filter_other_day by lia. auto.
Qed.

(** From a state whose current day is [d0], over entries whose days never
    decrease and start at [d0] or later, the loop returns; it has added
    the remaining rows of [d0], the total of [d0], and the block of each
    later day but for the total of the last one, left in [day_total]. *)
Lemma loop_blocks (entries : list entry) :
  StronglySorted Z.le (map (fun e => local_day (start_time e)) entries) ->
  forall (v : loop_vars) (d0 t0 : Z),
    last_day v = Some d0 -> day_total v = Some t0 ->
    Forall (fun x => d0 <= x) (map (fun e => local_day (start_time e)) entries) ->
    days_iter v
    = map (fun d => (d, day_sum d))
          (fresh_days (Some d0) (map (fun e => local_day (start_time e)) entries)) ->
    exists v' t',
      loop v entries = inr v'
      /\ day_total v' = Some t'
      /\ table v' ++ [day_total_row t']
         = table v
           ++ map (entry_row EmptyString) (filter (on_day d0) entries)
           ++ [day_total_row t0]
           ++ List.concat (map (fun d => day_block (day_sum d) (filter (on_day d) entries))
                          (fresh_days (Some d0)
                             (map (fun e => local_day (start_time e)) entries))).
Proof.
  induction entries as [|e entries IH]; intros Hsorted v d0 t0 Hlast Htotal Hfrom Hdays.
  - exists v, t0. split; [reflexivity|]. split; [exact Htotal|reflexivity].
  - cbn [map] in Hsorted, Hfrom, Hdays.
    apply StronglySorted_inv in Hsorted. destruct Hsorted as [Hsorted Hnext].
    inversion Hfrom as [|x xs Hd0 Hfrom']; subst.
    destruct (fresh_days_spec _ Hsorted (Some d0) Hfrom') as [_ Hfresh0].
    destruct (fresh_days_spec _ Hsorted (Some (local_day (start_time e))) Hnext)
      as [_ Hfresh1].
    cbn [loop map fresh_days] in *. unfold loop_body.
    rewrite Hlast, Htotal.
    destruct (same_day (Some d0) (local_day (start_time e))) eqn:Esame.
    + apply same_day_true in Esame. injection Esame as Ed0.
      match goal with
      | |- exists v' t', loop ?v1 entries = _ /\ _ =>
          destruct (IH Hsorted v1 d0 t0) as (v' & t' & Hloop & Ht' & Htab);
            [reflexivity|reflexivity|exact Hfrom'|exact Hdays|]
      end.
      exists v', t'. split; [exact Hloop|]. split; [exact Ht'|].
      rewrite Htab. cbn [table].
      rewrite (filter_same_day d0 e) by auto.
      rewrite day_blocks_other_days.
      2:{ intros Hd. apply Hfresh0 in Hd. destruct Hd as [_ Hd]. congruence. }
      cbn [map]. rewrite <- app_assoc. reflexivity.
    + assert (Hne : d0 <> local_day (start_time e)).
      { intros E. rewrite E in Esame. cbn in Esame.
        now rewrite Z.eqb_refl in Esame. }
      rewrite Hdays. cbn [map]. rewrite Z.eqb_refl.
      match goal with
      | |- exists v' t', loop ?v1 entries = _ /\ _ =>
          destruct (IH Hsorted v1 (local_day (start_time e))
                      (day_sum (local_day (start_time e))))
            as (v' & t' & Hloop & Ht' & Htab);
            [reflexivity|reflexivity|exact Hnext|reflexivity|]
      end.
      exists v', t'. split; [exact Hloop|]. split; [exact Ht'|].
      rewrite Htab. cbn [table List.concat map].
      rewrite filter_other_day by congruence.
      rewrite (filter_earlier_day d0).
      2:{ rewrite Forall_forall in Hnext |- *. intros x Hx.
          specialize (Hnext x Hx). lia. }
      rewrite (filter_same_day (local_day (start_time e)) e) by reflexivity.
      rewrite day_blocks_other_days.
      2:{ intros Hd. apply Hfresh1 in Hd. destruct Hd as [_ Hd]. congruence. }
      cbn [day_block map app]. rewrite <- !app_assoc. reflexivity.
Qed.

(** From its initial state the loop builds the blocks of all the days but
    for the last total. *)
Lemma loop_from_start (e : entry) (entries : list entry) :
  StronglySorted Z.le (map (fun e => local_day (start_time e)) (e :: entries)) ->
  exists v' t',
    loop (mkLoop None None
            (map (fun d => (d, day_sum d))
                 (fresh_days None (map (fun e => local_day (start_time e))
                                       (e :: entries))))
            [table_header])
         (e :: entries)
    = inr v'
    /\ day_total v' = Some t'
    /\ table v' ++ [day_total_row t']
       = table_header
         :: List.concat (map (fun d => day_block (day_sum d) (filter (on_day d) (e :: entries)))
                        (fresh_days None (map (fun e => local_day (start_time e))
                                              (e :: entries)))).
Proof.
  intros Hsorted. cbn [map] in Hsorted.
  apply StronglySorted_inv in Hsorted. destruct Hsorted as [Hsorted Hnext].
  destruct (fresh_days_spec _ Hsorted (Some (local_day (start_time e))) Hnext)
    as [_ Hfresh].
  cbn [loop map fresh_days same_day]. unfold loop_body.
  cbn [last_day same_day days_iter table]. rewrite Z.eqb_refl.
  match goal with
  | |- exists v' t', loop ?v1 entries = _ /\ _ =>
      destruct (loop_blocks entries Hsorted v1 (local_day (start_time e))
                  (day_sum (local_day (start_time e))))
        as (v' & t' & Hloop & Ht' & Htab);
        [reflexivity|reflexivity|exact Hnext|reflexivity|]
  end.
  exists v', t'. split; [exact Hloop|]. split; [exact Ht'|].
  rewrite Htab. cbn [table List.concat map].
  rewrite (filter_same_day (local_day (start_time e)) e) by reflexivity.
  rewrite day_blocks_other_days.
  2:{ intros Hd. apply Hfresh in Hd. destruct Hd as [_ Hd]. congruence. }
  cbn [day_block map app]. rewrite <- !app_assoc. reflexivity.
Qed.

End DayBlocks.

Section Refinement.

Context `{Host}.

Hypothesis local_day_monotone : forall a b, a <= b -> local_day a <= local_day b.

(** [format_timebook] prints [(empty)] when nothing is selected, and
    otherwise the report of the specification for the selected rows. *)
Lemma format_timebook_plain_table (sh : string) (w : where_clause) (s : state) :
  format_timebook sh w s
  = Done tt
      (mkState (db s)
         (stdout s
          ++ [match filter (selected sh w) (entry_table (db s)) with
              | [] => Print "(empty)" Py.newline
              | rows => PrintTable (plain_table rows) true
              end])).
Proof.
  rewrite format_timebook_eq.
  unfold entries_query, days_query, total_query, plain_table.
  set (rows := filter (selected sh w) (entry_table (db s))).
  destruct rows as [|r rows'] eqn:Erows; [reflexivity|].
  cbn [List.length Nat.eqb]. rewrite <- Erows.
  destruct (order_by_start_spec rows) as [Hsorted Hin].
  rewrite distinct_days_fresh by assumption.
  destruct (order_by_start rows) as [|e entries] eqn:Eord.
  { exfalso. apply (proj2 (Hin r)). rewrite Erows. now left. }
  destruct (loop_from_start (fun d => sum_durations (filter (on_day d) rows))
              e entries)
    as (v' & t' & Hloop & Ht' & Htab).
  { apply days_of_ordered; assumption. }
  rewrite Hloop, Ht'. do 4 f_equal.
  change [day_total_row t'; total_row (sum_durations rows)]
    with ([day_total_row t'] ++ [total_row (sum_durations rows)]).
  rewrite app_assoc, Htab. reflexivity.
Qed.

End Refinement.

(** C6 as stated fails.  The store [started] has one open interval on the
    current sheet; a plain display with an end-date bound selects nothing,
    since the comparison [end_time <= bound] is never true of a null
    [end_time]: it prints [(empty)], neither listing the open interval nor
    counting it in any total. *)
Lemma display_plain_end_bound_counterexample :
  In (mkEntry 1 "default" 1397497538 None (Some "Working") None)
     (entry_table (db started))
  /\ @call (utc_host 1397498000) (Display None "plain" None (Some 1397499999)) started
     = Done tt (mkState (db started) [Print "(empty)" Py.newline])
  /\ @call (utc_host 1397498000)
       (Display None "plain" (Some 1397400000) (Some 1397499999)) started
     = Done tt (mkState (db started) [Print "(empty)" Py.newline]).
Proof.
  split; [now left|]. split; reflexivity.
Qed.

(** C6, amended: a display in plain mode with no end-date bound, with or
    without a start-date bound, on a host whose local day never goes back,
    returns a table of the form [above ++ day_rows ++ [day total] ++ below
    ++ [Total]] for every open interval [e] of the displayed sheet that
    meets the start bound: [e] has its row among [day_rows], the rows of
    its day, showing its start, a dash and the duration [now - start_time];
    the total that follows them and the final grand total are sums over
    the intervals of the day and over all selected intervals, in which [e]
    stands with [now - start_time]. *)
Theorem display_plain_counts_open_interval `{Host}
  (timesheet : option string) (start : option Z) (s : state) (sh : string)
  (e : entry) :
  (forall a b, a <= b -> local_day a <= local_day b) ->
  grab_sheet timesheet s = Done sh s ->
  In e (entry_table (db s)) -> sheet e = sh -> end_time e = None ->
  (forall b, start = Some b -> b <= start_time e) ->
  exists before after day_before day_after above day_rows below,
    filter (selected sh (mkWhere start None)) (entry_table (db s))
    = before ++ e :: after
    /\ filter (on_day (local_day (start_time e))) (before ++ e :: after)
       = day_before ++ e :: day_after
    /\ call (Display timesheet "plain" start None) s
       = Done tt
           (mkState (db s)
              (stdout s
               ++ [PrintTable
                     (above ++ day_rows
                      ++ [[EmptyString; EmptyString;
                           displ_total (sum_durations day_before
                                        + (now - start_time e)
                                        + sum_durations day_after);
                           EmptyString]]
                      ++ below
                      ++ [["Total"; EmptyString;
                           displ_total (sum_durations before
                                        + (now - start_time e)
                                        + sum_durations after);
                           EmptyString]])
                     true]))
    /\ (exists day_cell,
          In [day_cell; displ_time (start_time e) +++ " -";
              displ_total (now - start_time e); description_or_empty e]
             day_rows)
    /\ Forall (fun row =>
                 exists day_cell x,
                   In x (entry_table (db s))
                   /\ local_day (start_time x) = local_day (start_time e)
                   /\ row = entry_row day_cell x)
              day_rows.
Proof.
  intros Hmono Hsheet Hin Hsh Hopen Hstart.
  assert (Hdur : duration e = now - start_time e).
  { unfold duration. now rewrite Hopen. }
  assert (Hsel : In e (filter (selected sh (mkWhere start None)) (entry_table (db s)))).
  { apply filter_In. split; [exact Hin|].
    unfold selected, where_holds. cbn [start_bound end_bound].
    rewrite andb_true_r. apply andb_true_iff. split; [now apply on_sheet_iff|].
    destruct start as [b|]; [|reflexivity].
    apply Z.leb_le. now apply Hstart. }
  pose proof (format_timebook_plain_table Hmono sh (mkWhere start None) s) as Hcall.
  remember (filter (selected sh (mkWhere start None)) (entry_table (db s)))
    as rows eqn:Erows.
  assert (Htable : format_timebook sh (mkWhere start None) s
                   = Done tt (mkState (db s)
                                (stdout s ++ [PrintTable (plain_table rows) true]))).
  { rewrite Hcall. destruct rows; [destruct Hsel|reflexivity]. }
  clear Hcall.
  destruct (in_split _ _ Hsel) as (before & after & Hrows).
  assert (Hsel_day : In e (filter (on_day (local_day (start_time e))) rows)).
  { apply filter_In. split; [exact Hsel|]. unfold on_day. apply Z.eqb_refl. }
  destruct (in_split _ _ Hsel_day) as (day_before & day_after & Hday_rows).
  assert (Hsum : sum_durations rows
                 = sum_durations before + (now - start_time e) + sum_durations after).
  { now rewrite Hrows, sum_durations_app, Hdur. }
  assert (Hday_sum : sum_durations (filter (on_day (local_day (start_time e))) rows)
                     = sum_durations day_before + (now - start_time e)
                       + sum_durations day_after).
  { now rewrite Hday_rows, sum_durations_app, Hdur. }
  assert (Hday : In (local_day (start_time e)) (distinct_days rows)).
  { apply distinct_days_spec.
    exact (in_map (fun x => local_day (start_time x)) _ _ Hsel). }
  destruct (in_split _ _ Hday) as (earlier & later & Hdays).
  assert (Hord : In e (filter (on_day (local_day (start_time e))) (order_by_start rows))).
  { apply filter_In. split; [now apply order_by_start_spec|].
    unfold on_day. apply Z.eqb_refl. }
  destruct (filter (on_day (local_day (start_time e))) (order_by_start rows))
    as [|first others] eqn:Eblock; [destruct Hord|].
  exists before, after, day_before, day_after.
  eexists (table_header :: List.concat (map _ earlier)).
  exists (entry_row (displ_date (start_time first)) first
          :: map (entry_row EmptyString) others).
  eexists (List.concat (map _ later)).
  assert (Hblock : forall x, In x (first :: others) ->
            In x (entry_table (db s))
            /\ local_day (start_time x) = local_day (start_time e)).
  { intros x Hx. rewrite <- Eblock in Hx. apply filter_In in Hx.
    destruct Hx as [Hx Hd].
    apply (proj1 (proj2 (order_by_start_spec rows) x)) in Hx.
    rewrite Erows in Hx. apply filter_In in Hx.
    split; [tauto|]. now apply Z.eqb_eq. }
  split; [exact Hrows|]. split; [rewrite <- Hrows; exact Hday_rows|].
  split; [|split].
  - unfold call, display, bind. rewrite Hsheet.
    cbn [String.eqb Ascii.eqb Bool.eqb]. rewrite Htable.
    unfold plain_table. rewrite Hdays, map_app, concat_app.
    cbn [map List.concat]. rewrite Eblock. cbn [day_block].
    rewrite Hsum, Hday_sum.
    unfold day_total_row, total_row.
    rewrite <- !app_assoc. cbn [app]. rewrite <- !app_assoc. reflexivity.
  - destruct Hord as [<-|Hothers].
    + eexists. left. unfold entry_row, trange. rewrite Hopen, Hdur. reflexivity.
    + exists EmptyString. right. apply in_map_iff. exists e. split; [|exact Hothers].
      unfold entry_row, trange. rewrite Hopen, Hdur. reflexivity.
  - constructor.
    + exists (displ_date (start_time first)), first.
      destruct (Hblock first (or_introl eq_refl)). auto.
    + apply Forall_forall. intros row Hrow. apply in_map_iff in Hrow.
      destruct Hrow as (x & <- & Hx).
      exists EmptyString, x. destruct (Hblock x (or_intror Hx)). auto.
Qed.

Lemma display_plain_counts_open_interval_witness :
  (forall a b, a <= b -> @local_day test_host a <= @local_day test_host b)
  /\ @grab_sheet None started = Done "default" started
  /\ In (mkEntry 1 "default" 1397497538 None (Some "Working") None)
        (entry_table (db started))
  /\ (forall b, Some 1397400000 = Some b -> b <= 1397497538)
  /\ exists above day_rows below,
       @call test_host (Display None "plain" (Some 1397400000) None) started
       = Done tt
           (mkState (db started)
              (stdout started
               ++ [PrintTable
                     (above ++ day_rows
                      ++ [[EmptyString; EmptyString;
                           @displ_total test_host (0 + (1397498000 - 1397497538) + 0);
                           EmptyString]]
                      ++ below
                      ++ [["Total"; EmptyString;
                           @displ_total test_host (0 + (1397498000 - 1397497538) + 0);
                           EmptyString]])
                     true])).
Proof.
  assert (Hmono : forall a b, a <= b ->
            @local_day test_host a <= @local_day test_host b).
  { intros a b Hab. cbn. apply Z.div_le_mono; lia. }
  assert (Hstart : forall b, Some 1397400000 = Some b -> b <= 1397497538).
  { intros b E. injection E as <-. lia. }
  split; [exact Hmono|]. split; [reflexivity|]. split; [now left|].
  split; [exact Hstart|].
  destruct (@display_plain_counts_open_interval test_host None
              (Some 1397400000) started "default"
              (mkEntry 1 "default" 1397497538 None (Some "Working") None)
              Hmono eq_refl (or_introl eq_refl) eq_refl eq_refl Hstart)
    as (before & after & day_before & day_after & above & day_rows & below
        & Hrows & Hday & Hcall & _).
  exists above, day_rows, below.
  destruct before as [|x before]; [|destruct before; discriminate].
  injection Hrows as <-.
  destruct day_before as [|y day_before]; [|destruct day_before; discriminate].
  injection Hday as <-.
  exact Hcall.
Defined.

(** * Further properties of the commands *)

(** ** Clock-out and switch *)

(** [clock_out] as a function of the state it starts in. *)
Lemma clock_out_eq `{Host} (at_ timestamp : option Z) (verbose : bool) (s : state) :
  clock_out at_ verbose timestamp s
  = match find (active_on (current_sheet (db s))) (entry_table (db s)) with
    | None => Raised SheetNotActive s
    | Some e =>
        if chosen_timestamp at_ timestamp - start_time e <? 0
        then Raised NegativeDuration
               (mkState (db s)
                  (stdout s
                   ++ if verbose
                      then [Print (str_timedelta
                                     (chosen_timestamp at_ timestamp - start_time e))
                              Py.newline]
                      else []))
        else Done tt
               (mkState
                  (mkDb (sql.update_where_id
                           (sql.set_end_time (chosen_timestamp at_ timestamp))
                           (id e) (entry_table (db s)))
                        (current_sheet (db s)))
                  (stdout s
                   ++ if verbose
                      then [Print (str_timedelta
                                     (chosen_timestamp at_ timestamp - start_time e))
                              Py.newline]
                      else []))
    end.
Proof.
  unfold clock_out, bind, dbutil.get_current_start_time, query.
  destruct (find _ _) as [e|]; [|reflexivity].
  destruct verbose; unfold print, emit, ret, raise, sql.update_end_time, execute;
    cbn [db stdout]; rewrite ?app_nil_r;
    destruct (_ <? 0); rewrite ?state_eta; reflexivity.
Qed.

(** X1: a clock-out while the current sheet has no entry with a null
    [end_time] fails with [SheetNotActive]; the store is untouched and
    nothing is printed, whatever the timestamp and also when verbose.
    Active entries of other sheets play no part. *)
Theorem out_without_active_entry `{Host}
  (at_ timestamp : option Z) (verbose : bool) (s : state) :
  ~ has_active (current_sheet (db s)) (db s) ->
  clock_out at_ verbose timestamp s = Raised SheetNotActive s
  /\ call (Out at_ verbose) s = Raised SheetNotActive s
  /\ run_command (Out at_ verbose) s = Raised SheetNotActive s.
Proof.
  intros Hidle.
  assert (Hfind : find (active_on (current_sheet (db s))) (entry_table (db s)) = None).
  { destruct (find _ _) eqn:E; [|reflexivity].
    exfalso. apply Hidle, has_active_find. congruence. }
  assert (Hout : forall t, clock_out at_ verbose t s = Raised SheetNotActive s).
  { intros t. now rewrite clock_out_eq, Hfind. }
  split; [apply Hout|]. split; [apply Hout|].
  unfold run_command, call, out. rewrite Hout. now rewrite state_eta.
Qed.

Lemma out_without_active_entry_witness :
  ~ has_active (current_sheet (db away)) (db away)
  /\ @run_command test_host (Out None true) away = Raised SheetNotActive away.
Proof.
  assert (Hidle : ~ has_active (current_sheet (db away)) (db away)).
  { intros (e & Hin & Hs & _). destruct Hin as [<-|[]]. discriminate. }
  split; [exact Hidle|].
  exact (proj2 (proj2 (@out_without_active_entry test_host None None true away Hidle))).
Defined.

(** X2: [switch] never fails and never touches the rows: it returns with
    the pointer on its argument, having printed one line when verbose and
    nothing otherwise; so of two switches in a row only the last one
    shows in the store. *)
Theorem switch_last_wins `{Host} (t1 t2 : string) (v1 v2 : bool) (s : state) :
  (exists printed,
     switch t1 v1 s
     = Done tt (mkState (mkDb (entry_table (db s)) t1) (stdout s ++ printed))
     /\ List.length printed = if v1 then 1%nat else 0%nat)
  /\ db (state_of (run_command (Switch t2 v2)
                     (state_of (run_command (Switch t1 v1) s))))
     = db (state_of (run_command (Switch t2 v2) s)).
Proof.
  assert (Hsw : forall t v s0, exists printed,
            switch t v s0
            = Done tt (mkState (mkDb (entry_table (db s0)) t) (stdout s0 ++ printed))
            /\ List.length printed = if v then 1%nat else 0%nat).
  { intros t v s0. unfold switch, bind, dbutil.get_current_sheet, query.
    assert (Hptr : exists s1,
               (if negb (String.eqb (current_sheet (db s0)) t)
                then sql.update_current_sheet t else ret tt) s0 = Done tt s1
               /\ db s1 = mkDb (entry_table (db s0)) t /\ stdout s1 = stdout s0).
    { destruct (String.eqb_spec (current_sheet (db s0)) t) as [E|E]; cbn [negb].
      - exists s0. rewrite <- E, database_eta. auto.
      - eexists. split; [reflexivity|]. split; reflexivity. }
    destruct Hptr as (s1 & -> & Hdb & Hout).
    destruct v.
    - unfold dbutil.get_entry_count, query, print, emit.
      destruct (_ =? 0); eexists; rewrite Hdb, Hout; split; reflexivity.
    - exists []. unfold ret. rewrite app_nil_r, <- Hdb, <- Hout, state_eta. auto. }
  split; [apply Hsw|].
  unfold run_command, call.
  destruct (Hsw t1 v1 s) as (p1 & -> & _). cbn [state_of].
  destruct (Hsw t2 v2 s) as (p2 & -> & _).
  destruct (Hsw t2 v2 (mkState (mkDb (entry_table (db s)) t1) (stdout s ++ p1)))
    as (p3 & -> & _).
  reflexivity.
Qed.

(** ** Clock-in followed by other commands *)

Lemma find_new_active (sh : string) (l : list entry) (i t : Z)
  (descr ext : option string) :
  find (active_on sh) l = None ->
  find (active_on sh) (l ++ [mkEntry i sh t None descr ext])
  = Some (mkEntry i sh t None descr ext).
Proof.
  induction l as [|a l IH]; cbn [app find].
  - intros _. unfold active_on, on_sheet, is_active. cbn.
    now rewrite String.eqb_refl.
  - destruct (active_on sh a); [discriminate|exact IH].
Qed.

(** An update by the id of the row just inserted rewrites that row only. *)
Lemma update_new_row (f : entry -> entry) (l : list entry) (n : entry) :
  id n = sql.next_id l ->
  sql.update_where_id f (sql.next_id l) (l ++ [n]) = l ++ [f n].
Proof.
  intros Hid. unfold sql.update_where_id. rewrite map_app. cbn [map].
  rewrite Hid, Z.eqb_refl. f_equal.
  apply (update_where_id_other f (sql.next_id l) l).
  intros x Hx. apply next_id_above in Hx. lia.
Qed.

(** [in_] as its three stages: the choice of the sheet, the optional
    clock-out, and the checked insert. *)
Lemma in_eq `{Host} (description : list string) (switch_to : option string)
  (o : bool) (at_ : option Z) (resume : bool) (extra : option string) (s : state) :
  in_ description switch_to o at_ resume extra s
  = if conflicting resume description
    then Raised resume_conflict
           (mkState (mkDb (entry_table (db s)) (in_target switch_to (db s))) (stdout s))
    else
      match (if o
             then clock_out None false (Some (cmdutil.parse_date_time_or_now at_))
             else ret tt)
              (mkState (mkDb (entry_table (db s)) (in_target switch_to (db s)))
                 (stdout s))
      with
      | Done _ s2 =>
          insert_checked (in_target switch_to (db s))
            (cmdutil.parse_date_time_or_now at_) resume description extra s2
      | Raised e s2 => Raised e s2
      end.
Proof.
  unfold in_. unfold bind at 1. rewrite in_switch_step.
  unfold conflicting.
  destruct (resume && negb (Nat.eqb (List.length description) 0)); [reflexivity|].
  unfold bind at 1.
  assert (Htail : forall s2,
    bind (dbutil.get_active_info (in_target switch_to (db s)))
      (fun running =>
         match running with
         | Some _ => raise SheetAlreadyActive
         | None =>
             bind (dbutil.get_most_recent_clockout (in_target switch_to (db s)))
               (fun most_recent_clockout =>
                  match most_recent_clockout with
                  | Some (previous_timestamp, previous_description) =>
                      if cmdutil.parse_date_time_or_now at_ <? previous_timestamp
                      then raise TimeOrderingViolation
                      else
                        sql.insert_entry (in_target switch_to (db s))
                          (cmdutil.parse_date_time_or_now at_)
                          (if resume then previous_description
                           else Py.or_None (Py.join " " description)) extra
                  | None =>
                      sql.insert_entry (in_target switch_to (db s))
                        (cmdutil.parse_date_time_or_now at_)
                        (Py.or_None (Py.join " " description)) extra
                  end)
         end) s2
    = insert_checked (in_target switch_to (db s))
        (cmdutil.parse_date_time_or_now at_) resume description extra s2).
  { intros s2.
    unfold insert_checked, bind, ret, dbutil.get_active_info,
      dbutil.get_most_recent_clockout, query, raise, sql.insert_entry, execute,
      clocked_in.
    destruct (find _ _); [reflexivity|].
    destruct (dbutil.most_recent_closed _) as [[pt pd]|]; [|reflexivity].
    destruct (_ <? pt); reflexivity. }
  destruct o.
  - destruct (clock_out _ _ _ _) as [[] s2|e s2]; [apply Htail|reflexivity].
  - unfold ret. apply Htail.
Qed.

Lemma find_none_of_idle (sh : string) (d : database) :
  ~ has_active sh d -> find (active_on sh) (entry_table d) = None.
Proof.
  intros Hidle. destruct (find _ _) eqn:E; [|reflexivity].
  exfalso. apply Hidle, has_active_find. congruence.
Qed.

(** When no closed entry of the sheet ends after [t], the check of [in_]
    against the most recent clock-out passes. *)
Lemma most_recent_closed_not_after (sh : string) (d : database) (t : Z) :
  (forall e t', In e (entry_table d) -> sheet e = sh ->
                end_time e = Some t' -> t' <= t) ->
  match dbutil.most_recent_closed (filter (on_sheet sh) (entry_table d)) with
  | Some (pt, _) => (t <? pt) = false
  | None => True
  end.
Proof.
  intros Hle. pose proof (most_recent_closed_spec sh d) as Hrec.
  destruct (dbutil.most_recent_closed _) as [[pt pd]|]; [|exact I].
  destruct Hrec as (e & (Hin & Hs & He & _) & _).
  apply Z.ltb_ge. eauto.
Qed.

(** X3: the round trip of clock-in and clock-out, the clock of the host
    read afresh by each command.  On a sheet with no active entry and no
    closed entry ending after [T0], a clock-in at [T0] followed by a
    clock-out at [T1 >= T0] adds exactly one row to the table, closed,
    running from [T0] to [T1], with the description given; the rows that
    were there are unchanged. *)
Theorem in_then_out_round_trip (host_in host_out : Host)
  (description : list string) (switch_to : option string)
  (at_in at_out : option Z) (extra : option string) (s : state) :
  ~ has_active (in_target switch_to (db s)) (db s) ->
  (forall e t, In e (entry_table (db s)) -> sheet e = in_target switch_to (db s) ->
               end_time e = Some t ->
               t <= @cmdutil.parse_date_time_or_now host_in at_in) ->
  @cmdutil.parse_date_time_or_now host_in at_in
  <= @cmdutil.parse_date_time_or_now host_out at_out ->
  exists s1,
    @run_command host_in (In_ description switch_to false at_in false extra) s
    = Done tt s1
    /\ @run_command host_out (Out at_out false) s1
       = Done tt
           (mkState
              (mkDb (entry_table (db s)
                     ++ [mkEntry (sql.next_id (entry_table (db s)))
                           (in_target switch_to (db s))
                           (@cmdutil.parse_date_time_or_now host_in at_in)
                           (Some (@cmdutil.parse_date_time_or_now host_out at_out))
                           (Py.or_None (Py.join " " description)) extra])
                    (in_target switch_to (db s)))
              (stdout s)).
Proof.
  intros Hidle Hclosed Hle.
  pose proof (find_none_of_idle _ _ Hidle) as Hfind.
  pose proof (most_recent_closed_not_after _ _ _ Hclosed) as Hrecent.
  eexists. split.
  - unfold run_command, call. rewrite in_without_out. cbn [conflicting andb].
    rewrite Hfind.
    destruct (dbutil.most_recent_closed _) as [[pt pd]|]; [rewrite Hrecent|];
      reflexivity.
  - unfold run_command, call, out. rewrite clock_out_eq.
    cbn [db entry_table current_sheet stdout]. unfold clocked_in.
    rewrite (find_new_active _ _ _ _ _ _ Hfind). cbn [start_time id].
    unfold chosen_timestamp.
    apply Z.ltb_ge in Hle. rewrite (proj2 (Z.ltb_ge _ 0)) by (apply Z.ltb_ge in Hle; lia).
    rewrite update_new_row by reflexivity.
    rewrite app_nil_r. reflexivity.
Qed.

Lemma in_then_out_round_trip_witness :
  ~ has_active (in_target None (db fresh)) (db fresh)
  /\ (@cmdutil.parse_date_time_or_now (utc_host 1397497538) None
      <= @cmdutil.parse_date_time_or_now (utc_host 1397497838) None)
  /\ exists s1,
       @run_command (utc_host 1397497538) (In_ ["Working"] None false None false None)
         fresh = Done tt s1
       /\ @run_command (utc_host 1397497838) (Out None false) s1 = Done tt ended.
Proof.
  assert (Hidle : ~ has_active (in_target None (db fresh)) (db fresh)).
  { intros (e & [] & _). }
  assert (Hle : @cmdutil.parse_date_time_or_now (utc_host 1397497538) None
                <= @cmdutil.parse_date_time_or_now (utc_host 1397497838) None).
  { cbn. lia. }
  split; [exact Hidle|]. split; [exact Hle|].
  exact (in_then_out_round_trip (utc_host 1397497538) (utc_host 1397497838)
           ["Working"] None None None None fresh Hidle
           (fun e t (Hin : In e []) => match Hin with end) Hle).
Defined.

Lemma or_None_nonempty (text : string) :
  text <> EmptyString -> Py.or_None text = Some text.
Proof.
  intros Hne. unfold Py.or_None.
  destruct (String.eqb_spec text EmptyString); [contradiction|reflexivity].
Qed.

(** After the checked insert of a row without description on the current
    sheet, [alter] writes the description on that row: the same state as
    the insert with the description. *)
Lemma insert_checked_then_alter `{Host} (sh : string) (t : Z)
  (words : list string) (ext : option string) (s : state) :
  current_sheet (db s) = sh ->
  Py.join " " words <> EmptyString ->
  insert_checked sh t false words ext s
  = match insert_checked sh t false [] ext s with
    | Done _ s' => alter words s'
    | Raised e s' => Raised e s'
    end.
Proof.
  intros Hcur Hwords. unfold insert_checked.
  destruct (find (active_on sh) (entry_table (db s))) eqn:Hfind; [reflexivity|].
  assert (Halter : forall descr,
    alter words
      (mkState (mkDb (clocked_in (db s) sh t descr ext) (current_sheet (db s)))
         (stdout s))
    = Done tt
        (mkState
           (mkDb (clocked_in (db s) sh t (Some (Py.join " " words)) ext)
                 (current_sheet (db s)))
           (stdout s))).
  { intros descr.
    unfold alter, bind, dbutil.get_current_active_info, query,
      sql.update_description, execute, clocked_in.
    cbn [db entry_table current_sheet stdout]. rewrite Hcur.
    rewrite (find_new_active _ _ _ _ _ _ Hfind).
    cbn [db entry_table current_sheet stdout id].
    now rewrite update_new_row. }
  rewrite (or_None_nonempty _ Hwords).
  destruct (dbutil.most_recent_closed _) as [[pt pd]|].
  - destruct (t <? pt); [reflexivity|]. now rewrite Halter.
  - now rewrite Halter.
Qed.

(** X4: what the docstring of [in_] promises.  A clock-in with notes is
    exactly a clock-in without notes followed by [alter] with those notes,
    with any of the options [--switch], [--out] and [--at], in the state
    reached and in the failure raised, provided the notes do not join to
    the empty string. *)
Theorem in_with_notes_is_in_then_alter `{Host} (words : list string)
  (switch_to : option string) (o : bool) (at_ : option Z)
  (extra : option string) (s : state) :
  Py.join " " words <> EmptyString ->
  in_ words switch_to o at_ false extra s
  = bind (in_ [] switch_to o at_ false extra) (fun _ => alter words) s.
Proof.
  intros Hwords. unfold bind. rewrite !in_eq. cbn [conflicting andb].
  destruct o.
  - rewrite clock_out_eq. cbn [db entry_table current_sheet stdout].
    destruct (find _ _) as [a|]; [|reflexivity].
    destruct (_ <? 0); [reflexivity|].
    now apply insert_checked_then_alter.
  - unfold ret. now apply insert_checked_then_alter.
Qed.

Lemma in_with_notes_is_in_then_alter_witness :
  Py.join " " ["Testing"; "alter"] <> EmptyString
  /\ @in_ test_host ["Testing"; "alter"] None true (Some 1397497900) false None started
     = bind (@in_ test_host [] None true (Some 1397497900) false None)
         (fun _ => @alter test_host ["Testing"; "alter"]) started.
Proof.
  assert (Hwords : Py.join " " ["Testing"; "alter"] <> EmptyString) by discriminate.
  split; [exact Hwords|].
  exact (@in_with_notes_is_in_then_alter test_host ["Testing"; "alter"] None true
           (Some 1397497900) None started Hwords).
Defined.

(** A word list that joins to the empty string is where the two differ:
    the clock-in stores a null description, [alter] an empty one. *)
Lemma in_with_empty_notes_differs :
  @in_ test_host [EmptyString] None false (Some 1397497538) false None fresh
  <> bind (@in_ test_host [] None false (Some 1397497538) false None)
       (fun _ => @alter test_host [EmptyString]) fresh.
Proof. discriminate. Qed.

(** X5: [--resume] on a sheet with no active entry whose most recently
    closed entries ended at [t], not after the chosen timestamp: the row
    inserted carries the description of a most recently closed entry of
    the sheet. *)
Theorem in_resume_reuses_description `{Host} (switch_to : option string)
  (at_ : option Z) (extra : option string) (s : state) (e : entry) (t : Z) :
  ~ has_active (in_target switch_to (db s)) (db s) ->
  most_recently_closed (in_target switch_to (db s)) (db s) e t ->
  t <= cmdutil.parse_date_time_or_now at_ ->
  exists e',
    most_recently_closed (in_target switch_to (db s)) (db s) e' t
    /\ call (In_ [] switch_to false at_ true extra) s
       = Done tt
           (mkState
              (mkDb (entry_table (db s)
                     ++ [mkEntry (sql.next_id (entry_table (db s)))
                           (in_target switch_to (db s))
                           (cmdutil.parse_date_time_or_now at_) None
                           (description e') extra])
                    (in_target switch_to (db s)))
              (stdout s)).
Proof.
  intros Hidle (Hin & Hs & He & Hmax) Hle.
  pose proof (find_none_of_idle _ _ Hidle) as Hfind.
  pose proof (most_recent_closed_spec (in_target switch_to (db s)) (db s)) as Hrec.
  unfold call. rewrite in_without_out. cbn [conflicting andb]. rewrite Hfind.
  destruct (dbutil.most_recent_closed _) as [[pt pd]|].
  - destruct Hrec as (e' & (Hin' & Hs' & He' & Hmax') & Hd).
    assert (pt = t) as ->.
    { specialize (Hmax e' pt Hin' Hs' He'). specialize (Hmax' e t Hin Hs He). lia. }
    exists e'. split; [repeat split; assumption|].
    rewrite (proj2 (Z.ltb_ge _ _) Hle). unfold clocked_in. now rewrite Hd.
  - exfalso. apply Hrec. exists e, t. auto.
Qed.

Lemma in_resume_reuses_description_witness :
  ~ has_active (in_target None (db ended)) (db ended)
  /\ most_recently_closed (in_target None (db ended)) (db ended)
       (mkEntry 1 "default" 1397497538 (Some 1397497838) (Some "Working") None)
       1397497838
  /\ exists e',
       most_recently_closed (in_target None (db ended)) (db ended) e' 1397497838
       /\ @call test_host (In_ [] None false None true None) ended
          = Done tt
              (mkState
                 (mkDb (entry_table (db ended)
                        ++ [mkEntry (sql.next_id (entry_table (db ended)))
                              (in_target None (db ended))
                              (@cmdutil.parse_date_time_or_now test_host None) None
                              (description e') None])
                       (in_target None (db ended)))
                 (stdout ended)).
Proof.
  assert (Hidle : ~ has_active (in_target None (db ended)) (db ended)).
  { intros (e & Hin & _ & He). destruct Hin as [<-|[]]. discriminate. }
  assert (Hmost : most_recently_closed (in_target None (db ended)) (db ended)
            (mkEntry 1 "default" 1397497538 (Some 1397497838) (Some "Working") None)
            1397497838).
  { split; [now left|]. split; [reflexivity|]. split; [reflexivity|].
    intros e' t' [<-|[]] _ E. injection E as <-. lia. }
  split; [exact Hidle|]. split; [exact Hmost|].
  apply (@in_resume_reuses_description test_host None None None ended _ _ Hidle Hmost).
  cbn. lia.
Defined.

Lemma next_id_update (f : entry -> entry) (i : Z) (l : list entry) :
  (forall e, id (f e) = id e) ->
  sql.next_id (sql.update_where_id f i l) = sql.next_id l.
Proof.
  intros Hf. unfold sql.next_id, sql.update_where_id. f_equal.
  induction l as [|a l IH]; cbn [map fold_right]; [reflexivity|].
  rewrite IH. destruct (id a =? i); [now rewrite Hf|reflexivity].
Qed.

(** With at most one active entry per sheet, closing the one that [find]
    returns leaves no active entry on the sheet. *)
Lemma none_active_after_closing (sh : string) (t : Z) (a : entry)
  (before after : list entry) :
  one_active_rows (before ++ a :: after) ->
  active_on sh a = true ->
  find (active_on sh) (before ++ sql.set_end_time t a :: after) = None.
Proof.
  intros Hone Ha. specialize (Hone sh).
  rewrite filter_app in Hone. cbn [filter] in Hone. rewrite Ha in Hone.
  rewrite length_app in Hone. cbn [List.length] in Hone.
  apply find_none_filter. rewrite filter_app. cbn [filter].
  replace (active_on sh (sql.set_end_time t a)) with false
    by (unfold active_on, is_active; cbn; now rewrite andb_false_r).
  destruct (filter (active_on sh) before); [|cbn in Hone; lia].
  destruct (filter (active_on sh) after); [reflexivity|cbn in Hone; lia].
Qed.

(** X6: [--out] makes the intervals meet.  On a store with unique ids and
    at most one active entry per sheet, a clock-in with [--out] at a
    timestamp [T] other than 0, not before the start of the active entry
    [a] of the target sheet and not before the end of any closed entry of
    that sheet, returns: [a] is closed at [T] and a new active row that
    starts at the same [T] is appended; every other row is unchanged. *)
Theorem in_with_out_closes_and_reopens `{Host} (words : list string)
  (switch_to : option string) (at_ : option Z) (ext : option string)
  (s : state) (a : entry) :
  unique_ids (db s) -> one_active_per_sheet (db s) ->
  find (active_on (in_target switch_to (db s))) (entry_table (db s)) = Some a ->
  cmdutil.parse_date_time_or_now at_ <> 0 ->
  start_time a <= cmdutil.parse_date_time_or_now at_ ->
  (forall e t, In e (entry_table (db s)) -> sheet e = in_target switch_to (db s) ->
               end_time e = Some t -> t <= cmdutil.parse_date_time_or_now at_) ->
  exists before after,
    entry_table (db s) = before ++ a :: after
    /\ call (In_ words switch_to true at_ false ext) s
       = Done tt
           (mkState
              (mkDb (before
                     ++ mkEntry (id a) (sheet a) (start_time a)
                          (Some (cmdutil.parse_date_time_or_now at_))
                          (description a) (extra a)
                     :: after
                     ++ [mkEntry (sql.next_id (entry_table (db s)))
                           (in_target switch_to (db s))
                           (cmdutil.parse_date_time_or_now at_) None
                           (Py.or_None (Py.join " " words)) ext])
                    (in_target switch_to (db s)))
              (stdout s)).
Proof.
  intros Hids Hone Hfind Hnonzero Hstart Hclosed.
  destruct (find_split _ _ _ Hfind) as (before & after & Htab & Ha & _).
  exists before, after. split; [exact Htab|].
  unfold call. rewrite in_eq. cbn [conflicting andb].
  rewrite clock_out_eq. cbn [db entry_table current_sheet stdout].
  rewrite Hfind.
  assert (Hts : chosen_timestamp None (Some (cmdutil.parse_date_time_or_now at_))
                = cmdutil.parse_date_time_or_now at_).
  { unfold chosen_timestamp, Py.truthy_int.
    destruct (Z.eqb_spec (cmdutil.parse_date_time_or_now at_) 0); [contradiction|].
    reflexivity. }
  rewrite Hts. rewrite (proj2 (Z.ltb_ge _ 0)) by lia.
  unfold unique_ids, unique_rows, one_active_per_sheet in *.
  rewrite Htab in Hids, Hone |- *.
  rewrite update_where_id_unique by assumption.
  rewrite app_nil_r.
  unfold insert_checked. cbn [db entry_table current_sheet stdout].
  rewrite (none_active_after_closing _ _ _ _ _ Hone Ha).
  set (closed := sql.set_end_time (cmdutil.parse_date_time_or_now at_) a).
  pose proof (most_recent_closed_not_after (in_target switch_to (db s))
                (mkDb (before ++ closed :: after) (in_target switch_to (db s)))
                (cmdutil.parse_date_time_or_now at_)) as Hrecent.
  cbn [entry_table] in Hrecent.
  assert (Hcond : forall e t',
             In e (before ++ closed :: after) ->
             sheet e = in_target switch_to (db s) ->
             end_time e = Some t' -> t' <= cmdutil.parse_date_time_or_now at_).
  { intros e t' Hin Hs He. apply in_app_or in Hin.
    destruct Hin as [Hin|[<-|Hin]].
    - apply (Hclosed e t'); auto. rewrite Htab. apply in_or_app. now left.
    - cbn in He. injection He as <-. lia.
    - apply (Hclosed e t'); auto. rewrite Htab. apply in_or_app. right. now right. }
  specialize (Hrecent Hcond).
  assert (Hnext : sql.next_id (before ++ closed :: after)
                  = sql.next_id (before ++ a :: after)).
  { unfold closed.
    rewrite <- (update_where_id_unique
                  (sql.set_end_time (cmdutil.parse_date_time_or_now at_)) a before after)
      by assumption.
    now apply next_id_update. }
  unfold clocked_in. cbn [entry_table]. rewrite Hnext.
  destruct (dbutil.most_recent_closed _) as [[pt pd]|]; [rewrite Hrecent|];
    rewrite <- app_assoc; reflexivity.
Qed.

Lemma in_with_out_closes_and_reopens_witness :
  unique_ids (db started) /\ one_active_per_sheet (db started)
  /\ @cmdutil.parse_date_time_or_now test_host (Some 1397497900) <> 0
  /\ exists before after,
       entry_table (db started)
       = before ++ mkEntry 1 "default" 1397497538 None (Some "Working") None :: after
       /\ @call test_host (In_ ["Break"] None true (Some 1397497900) false None) started
          = Done tt
              (mkState
                 (mkDb (before
                        ++ mkEntry 1 "default" 1397497538 (Some 1397497900)
                             (Some "Working") None
                        :: after
                        ++ [mkEntry (sql.next_id (entry_table (db started)))
                              (in_target None (db started)) 1397497900 None
                              (Py.or_None (Py.join " " ["Break"])) None])
                       (in_target None (db started)))
                 (stdout started)).
Proof.
  assert (Hids : unique_ids (db started)).
  { unfold unique_ids, unique_rows. simpl. constructor; [intros []|constructor]. }
  assert (Hone : one_active_per_sheet (db started)).
  { intros sh. unfold started. cbn [db entry_table filter].
    destruct (active_on sh _); cbn [List.length]; lia. }
  assert (Hnz : @cmdutil.parse_date_time_or_now test_host (Some 1397497900) <> 0)
    by discriminate.
  split; [exact Hids|]. split; [exact Hone|]. split; [exact Hnz|].
  apply (@in_with_out_closes_and_reopens test_host ["Break"] None (Some 1397497900)
           None started _ Hids Hone eq_refl Hnz).
  - cbn. lia.
  - intros e t [<-|[]] _ E. discriminate.
Defined.

(** ** The history of each sheet stays in order *)

Lemma StronglySorted_app_iff {A : Type} (R : A -> A -> Prop) (l1 l2 : list A) :
  StronglySorted R (l1 ++ l2)
  <-> StronglySorted R l1 /\ StronglySorted R l2
      /\ forall a b, In a l1 -> In b l2 -> R a b.
Proof.
  induction l1 as [|x l1 IH]; cbn [app].
  - split; [intros S; repeat split; [constructor|exact S|intros a b []]|tauto].
  - split.
    + intros S. apply StronglySorted_inv in S. destruct S as [S Hx].
      apply IH in S. destruct S as (S1 & S2 & Hcross).
      rewrite Forall_forall in Hx.
      split; [|split; [exact S2|]].
      * constructor; [exact S1|]. apply Forall_forall. intros y Hy.
        apply Hx, in_or_app. now left.
      * intros a b [<-|Ha] Hb; [apply Hx, in_or_app; now right|auto].
    + intros (S1 & S2 & Hcross).
      apply StronglySorted_inv in S1. destruct S1 as [S1 Hx].
      rewrite Forall_forall in Hx.
      constructor.
      * apply IH. split; [exact S1|]. split; [exact S2|].
        intros a b Ha Hb. apply Hcross; [now right|exact Hb].
      * apply Forall_forall. intros y Hy. apply in_app_or in Hy.
        destruct Hy as [Hy|Hy]; [now apply Hx|apply Hcross; [now left|exact Hy]].
Qed.

Lemma StronglySorted_filter {A : Type} (R : A -> A -> Prop) (q : A -> bool)
  (l : list A) :
  StronglySorted R l -> StronglySorted R (filter q l).
Proof.
  induction 1 as [|x l S IH Hx]; cbn [filter]; [constructor|].
  destruct (q x); [|exact IH].
  constructor; [exact IH|].
  rewrite Forall_forall in Hx |- *. intros y Hy. apply filter_In in Hy. now apply Hx.
Qed.

Lemma StronglySorted_map {A : Type} (R : A -> A -> Prop) (g : A -> A) (l : list A) :
  (forall a b, R a b -> R (g a) (g b)) ->
  StronglySorted R l -> StronglySorted R (map g l).
Proof.
  intros Hg. induction 1 as [|x l S IH Hx]; cbn [map]; constructor; [exact IH|].
  rewrite Forall_forall in Hx |- *. intros y Hy. apply in_map_iff in Hy.
  destruct Hy as (z & <- & Hz). auto.
Qed.

Lemma chronological_description (descr : string) (i : Z) (l : list entry) :
  chronological_rows l ->
  chronological_rows (sql.update_where_id (sql.set_description descr) i l).
Proof.
  intros (Hids & Hsorted & Htimed). split; [|split].
  - unfold unique_rows. now rewrite update_where_id_ids.
  - unfold sql.update_where_id. apply StronglySorted_map; [|exact Hsorted].
    intros a b Hab. destruct (id a =? i), (id b =? i); exact Hab.
  - intros e t Hin He. unfold sql.update_where_id in Hin.
    apply in_map_iff in Hin. destruct Hin as (x & <- & Hx).
    destruct (id x =? i); apply (Htimed x t Hx); exact He.
Qed.

Lemma chronological_delete (sh : string) (l : list entry) :
  chronological_rows l ->
  chronological_rows (filter (fun e => negb (on_sheet sh e)) l).
Proof.
  intros (Hids & Hsorted & Htimed). split; [|split].
  - now apply unique_delete.
  - now apply StronglySorted_filter.
  - intros e t Hin. apply filter_In in Hin. now apply Htimed.
Qed.

(** Closing, not before it started, the active entry that [find] returns. *)
Lemma chronological_close (sh : string) (t : Z) (l : list entry) (e : entry) :
  chronological_rows l ->
  find (active_on sh) l = Some e ->
  start_time e <= t ->
  chronological_rows (sql.update_where_id (sql.set_end_time t) (id e) l).
Proof.
  intros (Hids & Hsorted & Htimed) Hfind Hstart.
  destruct (find_split _ _ _ Hfind) as (before & after & -> & Hactive & _).
  apply active_on_iff in Hactive. destruct Hactive as [_ Hopen].
  split; [|split].
  - unfold unique_rows. now rewrite update_where_id_ids.
  - rewrite update_where_id_unique by exact Hids.
    apply StronglySorted_app_iff in Hsorted.
    destruct Hsorted as (S1 & S2 & Hcross).
    apply StronglySorted_inv in S2. destruct S2 as [S2 He].
    rewrite Forall_forall in He.
    apply StronglySorted_app_iff. split; [exact S1|]. split.
    + constructor; [exact S2|]. apply Forall_forall. intros y Hy Hsame.
      destruct (He y Hy Hsame) as (t' & Ht' & _). congruence.
    + intros a b Ha [<-|Hb]; [|apply Hcross; [exact Ha|now right]].
      exact (Hcross a e Ha (or_introl eq_refl)).
  - rewrite update_where_id_unique by exact Hids.
    intros x t' Hin Hx. apply in_app_or in Hin. destruct Hin as [Hin|[<-|Hin]].
    + apply (Htimed x t'); [apply in_or_app; now left|exact Hx].
    + cbn in Hx |- *. injection Hx as <-. exact Hstart.
    + apply (Htimed x t'); [apply in_or_app; right; now right|exact Hx].
Qed.

(** Inserting an active row on a sheet with no active entry, not before
    the end of any closed entry of the sheet. *)
Lemma chronological_insert (l : list entry) (sh : string) (t : Z)
  (descr ext : option string) :
  chronological_rows l ->
  find (active_on sh) l = None ->
  (forall e t', In e l -> sheet e = sh -> end_time e = Some t' -> t' <= t) ->
  chronological_rows (l ++ [mkEntry (sql.next_id l) sh t None descr ext]).
Proof.
  intros (Hids & Hsorted & Htimed) Hnone Hclosed. split; [|split].
  - now apply unique_insert.
  - apply StronglySorted_app_iff. split; [exact Hsorted|].
    split; [repeat constructor|].
    intros a b Ha [<-|[]] Hsame. cbn [sheet start_time] in *.
    destruct (end_time a) as [t'|] eqn:Ea.
    + exists t'. split; [reflexivity|]. now apply (Hclosed a).
    + exfalso. pose proof (find_none _ _ Hnone a Ha) as Hf.
      assert (active_on sh a = true) by (apply active_on_iff; auto).
      congruence.
  - intros e t' Hin He. apply in_app_or in Hin. destruct Hin as [Hin|[<-|[]]].
    + now apply (Htimed e t').
    + discriminate.
Qed.

Lemma clock_out_keeps_chronological `{Host} (at_ timestamp : option Z)
  (verbose : bool) (s : state) :
  chronological (db s) ->
  chronological (db (state_of (clock_out at_ verbose timestamp s))).
Proof.
  intros Hs. rewrite clock_out_eq.
  destruct (find _ _) as [e|] eqn:Hfind; [|exact Hs].
  destruct (Z.ltb_spec (chosen_timestamp at_ timestamp - start_time e) 0);
    [exact Hs|].
  cbn [state_of db]. unfold chronological. cbn [entry_table].
  apply (chronological_close (current_sheet (db s))); [exact Hs|exact Hfind|lia].
Qed.

Lemma insert_checked_keeps_chronological `{Host} (sh : string) (t : Z)
  (resume : bool) (words : list string) (ext : option string) (s : state) :
  chronological (db s) ->
  chronological (db (state_of (insert_checked sh t resume words ext s))).
Proof.
  intros Hs. unfold insert_checked.
  destruct (find _ _) eqn:Hfind; [exact Hs|].
  pose proof (most_recent_closed_spec sh (db s)) as Hrec.
  destruct (dbutil.most_recent_closed _) as [[pt pd]|].
  - destruct (Z.ltb_spec t pt); [exact Hs|].
    cbn [state_of db]. unfold chronological, clocked_in. cbn [entry_table].
    apply chronological_insert; [exact Hs|exact Hfind|].
    destruct Hrec as (e0 & (_ & _ & _ & Hmax) & _).
    intros e t' Hin Hsh He. specialize (Hmax e t' Hin Hsh He). lia.
  - cbn [state_of db]. unfold chronological, clocked_in. cbn [entry_table].
    apply chronological_insert; [exact Hs|exact Hfind|].
    intros e t' Hin Hsh He. exfalso. apply Hrec. exists e, t'. auto.
Qed.

(** X7: every command keeps the history in order.  Started in a store
    where ids are unique, no closed entry ends before it starts, and
    within each sheet the entries follow one another in table order, each
    closed and ending no later than the next one starts, the command
    function and the dispatcher both leave such a store.  So no sequence
    of commands makes two intervals of a sheet overlap, whatever
    timestamps are passed with [--at]. *)
Theorem history_stays_chronological `{Host} (c : invocation) (s : state) :
  chronological (db s) ->
  chronological (db (state_of (call c s)))
  /\ chronological (db (state_of (run_command c s))).
Proof.
  intros Hs.
  assert (Hcall : chronological (db (state_of (call c s)))).
  { destruct c as [words switch_to o at_ resume ext| | | | |]; cbn [call].
    - rewrite in_eq. destruct (conflicting resume words); [exact Hs|].
      destruct o.
      + pose proof (clock_out_keeps_chronological None
                      (Some (cmdutil.parse_date_time_or_now at_)) false
                      (mkState (mkDb (entry_table (db s)) (in_target switch_to (db s)))
                         (stdout s)) Hs) as Hout.
        destruct (clock_out _ _ _ _) as [[] s2|e s2]; [|exact Hout].
        now apply insert_checked_keeps_chronological.
      + unfold ret. now apply insert_checked_keeps_chronological.
    - now apply clock_out_keeps_chronological.
    - apply (post_state_of _ s (rows_satisfy chronological_rows)).
      apply alter_keeps; [apply chronological_description|exact Hs].
    - apply (post_state_of _ s (rows_satisfy chronological_rows)).
      now apply switch_keeps.
    - apply (post_state_of _ s (rows_satisfy chronological_rows)).
      apply kill_keeps; [apply chronological_delete|exact Hs].
    - now rewrite display_keeps_store. }
  split; [exact Hcall|].
  unfold run_command. destruct (call c s); [exact Hcall|exact Hs].
Qed.

Lemma history_stays_chronological_witness :
  chronological (db started)
  /\ chronological
       (db (state_of (@run_command test_host
                        (In_ ["Break"] None true (Some 1397497900) false None)
                        started))).
Proof.
  assert (Hs : chronological (db started)).
  { split; [|split].
    - unfold unique_rows. simpl. constructor; [intros []|constructor].
    - repeat constructor.
    - intros e t [<-|[]] E. discriminate. }
  split; [exact Hs|].
  exact (proj2 (@history_stays_chronological test_host
                  (In_ ["Break"] None true (Some 1397497900) false None) started Hs)).
Defined.

(** A store whose history is in order has at most one active entry per
    sheet. *)
Lemma chronological_one_active (d : database) :
  chronological d -> one_active_per_sheet d.
Proof.
  intros (_ & Hsorted & _) sh. unfold chronological in *.
  induction Hsorted as [|x l S IH Hx]; cbn [filter List.length]; [lia|].
  destruct (active_on sh x) eqn:Ex; [|exact IH].
  cbn [List.length]. apply active_on_iff in Ex. destruct Ex as [Hsh Hopen].
  destruct (filter (active_on sh) l) as [|y rest] eqn:Ef; [cbn; lia|].
  exfalso.
  assert (Hy : In y (filter (active_on sh) l)) by (rewrite Ef; now left).
  apply filter_In in Hy. destruct Hy as [Hy Hay].
  apply active_on_iff in Hay. destruct Hay as [Hysh _].
  rewrite Forall_forall in Hx.
  destruct (Hx y Hy) as (t & Ht & _); congruence.
Qed.

(** ** The display in plain mode is the day-by-day report *)

(** X8: on a host whose local day never goes back, a display in plain
    mode whose sheet resolves returns, with or without date bounds: it
    prints [(empty)] when no entry of the sheet meets the bounds, and
    otherwise the table made of the header, then for each local day in
    ascending order the intervals of that day by start time, the first one
    carrying the date, followed by the total of the day, and the grand
    total last.  Neither [next(days_iter)] nor the assertion of the loop
    fails, and the store is untouched. *)
Theorem display_plain_is_daily_report `{Host} (timesheet : option string)
  (start end_ : option Z) (s : state) (sh : string) :
  (forall a b, a <= b -> local_day a <= local_day b) ->
  grab_sheet timesheet s = Done sh s ->
  call (Display timesheet "plain" start end_) s
  = Done tt
      (mkState (db s)
         (stdout s
          ++ [match filter (selected sh (mkWhere start end_)) (entry_table (db s)) with
              | [] => Print "(empty)" Py.newline
              | rows => PrintTable (plain_table rows) true
              end])).
Proof.
  intros Hmono Hsheet. unfold call, display, bind. rewrite Hsheet.
  cbn [String.eqb Ascii.eqb Bool.eqb].
  now apply format_timebook_plain_table.
Qed.

Lemma display_plain_is_daily_report_witness :
  (forall a b, a <= b -> @local_day test_host a <= @local_day test_host b)
  /\ @grab_sheet None ended = Done "default" ended
  /\ @call test_host (Display None "plain" None (Some 1397499999)) ended
     = Done tt
         (mkState (db ended)
            (stdout ended
             ++ [match filter (@selected "default" (mkWhere None (Some 1397499999)))
                         (entry_table (db ended)) with
                 | [] => Print "(empty)" Py.newline
                 | rows => PrintTable (@plain_table test_host rows) true
                 end])).
Proof.
  assert (Hmono : forall a b, a <= b ->
            @local_day test_host a <= @local_day test_host b).
  { intros a b Hab. cbn. apply Z.div_le_mono; lia. }
  split; [exact Hmono|]. split; [reflexivity|].
  exact (@display_plain_is_daily_report test_host None None (Some 1397499999) ended
           "default" Hmono eq_refl).
Defined.

(** ** The listings: [list], [running] and [now] *)

Lemma sheet_lt_iff (a b : string) : sheet_lt a b <-> String.compare a b = Lt.
Proof.
  unfold sheet_lt, String.ltb. destruct (String.compare a b); split; congruence.
Qed.

Lemma sheet_lt_trans (a b c : string) : sheet_lt a b -> sheet_lt b c -> sheet_lt a c.
Proof.
  rewrite !sheet_lt_iff. intros Hab Hbc.
  apply OrderedTypeEx.String_as_OT.cmp_lt.
  apply OrderedTypeEx.String_as_OT.cmp_lt in Hab, Hbc.
  eapply OrderedTypeEx.String_as_OT.lt_trans; eassumption.
Qed.

Lemma sheet_lt_irrefl (a : string) : ~ sheet_lt a a.
Proof.
  rewrite sheet_lt_iff. intros Hlt.
  assert (String.compare a a = Eq) by now apply OrderedTypeEx.String_as_OT.cmp_eq.
  congruence.
Qed.

Lemma insert_sheet_spec (n : string) (l : list string) :
  StronglySorted sheet_lt l ->
  StronglySorted sheet_lt (insert_sheet n l)
  /\ forall x, In x (insert_sheet n l) <-> x = n \/ In x l.
Proof.
  induction 1 as [|a l S IH Ha]; cbn [insert_sheet].
  - split; [repeat constructor|]. intros x. cbn. intuition.
  - destruct IH as [IHs IHin]. rewrite Forall_forall in Ha.
    destruct (String.compare n a) eqn:E.
    + apply OrderedTypeEx.String_as_OT.cmp_eq in E. subst a.
      split; [now constructor; [|apply Forall_forall]|]. intros x. cbn. intuition.
    + apply sheet_lt_iff in E.
      split; [|intros x; cbn; intuition].
      constructor; [constructor; [exact S|now apply Forall_forall]|].
      constructor; [exact E|].
      apply Forall_forall. intros y Hy. eapply sheet_lt_trans; eauto.
    + assert (Han : sheet_lt a n).
      { apply sheet_lt_iff. rewrite String.compare_antisym, E. reflexivity. }
      split.
      * constructor; [exact IHs|]. apply Forall_forall. intros y Hy.
        apply IHin in Hy. destruct Hy as [->|Hy]; auto.
      * intros x. cbn. rewrite IHin. intuition.
Qed.

Lemma distinct_sheets_spec (l : list entry) :
  StronglySorted sheet_lt (distinct_sheets l)
  /\ forall n, In n (distinct_sheets l) <-> exists e, In e l /\ sheet e = n.
Proof.
  induction l as [|e l [IHs IHin]]; cbn [distinct_sheets fold_right].
  - split; [constructor|]. intros n. split; [intros []|intros (e & [] & _)].
  - fold (distinct_sheets l).
    destruct (insert_sheet_spec (sheet e) _ IHs) as [Hs Hin].
    split; [exact Hs|]. intros n. rewrite Hin, IHin. split.
    + intros [->|(x & Hx & Hn)]; [exists e; split; [now left|reflexivity]|].
      exists x. split; [now right|exact Hn].
    + intros (x & [<-|Hx] & Hn); [now left|]. right. now exists x.
Qed.

Lemma strictly_sorted_sheets_NoDup (l : list string) :
  StronglySorted sheet_lt l -> NoDup l.
Proof.
  induction 1 as [|a l S IH Ha]; constructor; [|exact IH].
  rewrite Forall_forall in Ha. intros Hin. exact (sheet_lt_irrefl a (Ha a Hin)).
Qed.

Lemma insert_by_sheet_spec (e : entry) (l : list entry) :
  Sorted (fun a b => sheet_le (sheet a) (sheet b)) l ->
  Sorted (fun a b => sheet_le (sheet a) (sheet b)) (insert_by_sheet e l)
  /\ Permutation (e :: l) (insert_by_sheet e l).
Proof.
  induction 1 as [|a l S IH Ha]; cbn [insert_by_sheet].
  - split; [repeat constructor|apply Permutation_refl].
  - destruct IH as [IHs IHp].
    destruct (String.leb (sheet e) (sheet a)) eqn:E.
    + split; [|apply Permutation_refl].
      constructor; [now constructor|]. now constructor.
    + split; [|rewrite perm_swap; now constructor].
      constructor; [exact IHs|].
      assert (Hae : sheet_le (sheet a) (sheet e)).
      { destruct (String.leb_total (sheet e) (sheet a)); [congruence|assumption]. }
      destruct l as [|b l]; cbn [insert_by_sheet].
      * now constructor.
      * destruct (String.leb (sheet e) (sheet b)); constructor; [exact Hae|].
        now apply HdRel_inv in Ha.
Qed.

Lemma order_by_sheet_spec (l : list entry) :
  Sorted (fun a b => sheet_le (sheet a) (sheet b)) (order_by_sheet l)
  /\ Permutation l (order_by_sheet l).
Proof.
  induction l as [|e l [IHs IHp]]; cbn [order_by_sheet fold_right].
  - split; [constructor|apply Permutation_refl].
  - fold (order_by_sheet l).
    destruct (insert_by_sheet_spec e _ IHs) as [Hs Hp].
    split; [exact Hs|]. rewrite <- Hp. now constructor.
Qed.

(** With at most one active entry per sheet, no two active entries share
    a sheet. *)
Lemma one_active_NoDup (l : list entry) :
  one_active_rows l -> NoDup (map sheet (filter is_active l)).
Proof.
  induction l as [|a l IH]; intros Hone; cbn [filter map]; [constructor|].
  assert (Hrest : one_active_rows l).
  { intros sh. specialize (Hone sh). cbn [filter] in Hone.
    destruct (active_on sh a); cbn [List.length] in Hone; lia. }
  destruct (is_active a) eqn:Ea; [|auto].
  cbn [map]. constructor; [|auto].
  intros Hin. apply in_map_iff in Hin. destruct Hin as (b & Hsh & Hb).
  apply filter_In in Hb. destruct Hb as [Hb Hab].
  specialize (Hone (sheet a)). cbn [filter] in Hone.
  unfold active_on at 1 in Hone. unfold on_sheet at 1 in Hone.
  rewrite String.eqb_refl, Ea in Hone. cbn [andb List.length] in Hone.
  assert (Hb' : In b (filter (active_on (sheet a)) l)).
  { apply filter_In. split; [exact Hb|]. unfold active_on, on_sheet.
    rewrite Hsh, String.eqb_refl. exact Hab. }
  destruct (filter (active_on (sheet a)) l); [destruct Hb'|cbn in Hone; lia].
Qed.

(** X9: [running] returns with the store untouched and prints one table:
    under the header, one line for each entry with a null [end_time], with
    its sheet and its description ([--] when it has none), in ascending
    order of the sheet names.  When the store has at most one active entry
    per sheet, no sheet appears twice. *)
Theorem running_lists_active_entries `{Host} (s : state) :
  exists actives,
    commands.running s
    = Done tt
        (mkState (db s)
           (stdout s
            ++ [PrintTable (["Timesheet"; "Description"] :: map running_row actives)
                  false]))
    /\ (forall e, In e actives <-> In e (entry_table (db s)) /\ end_time e = None)
    /\ Sorted (fun a b => sheet_le (sheet a) (sheet b)) actives
    /\ (one_active_per_sheet (db s) -> NoDup (map sheet actives)).
Proof.
  destruct (order_by_sheet_spec (filter is_active (entry_table (db s)))) as [Hs Hp].
  exists (order_by_sheet (filter is_active (entry_table (db s)))).
  split; [reflexivity|]. split; [|split; [exact Hs|]].
  - intros e. split.
    + intros Hin. apply (Permutation_in _ (Permutation_sym Hp)) in Hin.
      apply filter_In in Hin. unfold is_active in Hin.
      destruct (end_time e); [destruct Hin; discriminate|tauto].
    + intros [Hin He]. apply (Permutation_in _ Hp). apply filter_In.
      split; [exact Hin|]. unfold is_active. now rewrite He.
  - intros Hone. apply (Permutation_NoDup (Permutation_map sheet Hp)).
    now apply one_active_NoDup.
Qed.

(** X10: [list --simple] returns with the store untouched and prints, one
    per line, exactly the names of the sheets that have at least one
    entry, each once, in strictly ascending order.  A sheet without
    entries is not listed, even when it is the current one. *)
Theorem list_simple_names `{Host} (s : state) :
  exists names,
    commands.list true s
    = Done tt
        (mkState (db s)
           (stdout s ++ [Print (Py.join Py.newline names) Py.newline]))
    /\ StronglySorted sheet_lt names
    /\ NoDup names
    /\ forall n, In n names <-> exists e, In e (entry_table (db s)) /\ sheet e = n.
Proof.
  destruct (distinct_sheets_spec (entry_table (db s))) as [Hs Hin].
  exists (distinct_sheets (entry_table (db s))).
  split; [reflexivity|]. split; [exact Hs|].
  split; [now apply strictly_sorted_sheets_NoDup|exact Hin].
Qed.

Lemma sum_durations_cons `{Host} (e : entry) (l : list entry) :
  sum_durations (e :: l) = duration e + sum_durations l.
Proof. reflexivity. Qed.

(** The durations of an entry counted once per name that is its sheet. *)
Lemma sheet_indicator_sum (x : string) (d : Z) (names : list string) :
  NoDup names ->
  fold_right (fun n acc => (if String.eqb x n then d else 0) + acc) 0 names
  = if in_dec string_dec x names then d else 0.
Proof.
  induction 1 as [|a names Hnot Hnd IH]; cbn [fold_right]; [reflexivity|].
  rewrite IH.
  destruct (String.eqb_spec x a) as [->|Hne].
  - destruct (in_dec string_dec a names); [contradiction|].
    destruct (in_dec string_dec a (a :: names)) as [_|Hout]; [lia|].
    exfalso. apply Hout. now left.
  - destruct (in_dec string_dec x names) as [Hin|Hout];
      destruct (in_dec string_dec x (a :: names)) as [Hin'|Hout']; try lia.
    + exfalso. apply Hout'. now right.
    + exfalso. destruct Hin' as [E|Hin']; [congruence|contradiction].
Qed.

(** The totals of the sheets add up to the total of all the entries. *)
Lemma sheet_totals_add_up `{Host} (names : list string) (l : list entry) :
  NoDup names ->
  (forall e, In e l -> In (sheet e) names) ->
  fold_right (fun n acc => sum_durations (filter (on_sheet n) l) + acc) 0 names
  = sum_durations l.
Proof.
  intros Hnd. induction l as [|e l IH]; intros Hall.
  - cbn [filter]. clear Hall Hnd. induction names as [|n names IHn]; [reflexivity|].
    cbn [fold_right]. rewrite IHn. reflexivity.
  - rewrite sum_durations_cons, <- IH by (intros x Hx; apply Hall; now right).
    pose proof (sheet_indicator_sum (sheet e) (duration e) names Hnd) as Hind.
    destruct (in_dec string_dec (sheet e) names) as [_|Hout];
      [|exfalso; apply Hout, Hall; now left].
    rewrite <- Hind. clear Hind Hall IH Hnd.
    induction names as [|n names IHn]; [reflexivity|].
    cbn [fold_right]. rewrite IHn. cbn [filter]. unfold on_sheet at 1.
    destruct (String.eqb (sheet e) n); rewrite ?sum_durations_cons; lia.
Qed.

Lemma sum_of_map {A B : Type} (f : B -> Z) (g : A -> B) (l : list A) :
  fold_right (fun r acc => f r + acc) 0 (map g l)
  = fold_right (fun n acc => f (g n) + acc) 0 l.
Proof.
  induction l as [|a l IH]; [reflexivity|].
  cbn [map fold_right]. now rewrite IH.
Qed.

(** X11: [list] returns with the store untouched.  On a table without
    entries it prints [(no sheets)]; otherwise it prints one table with,
    under the header, one row for each sheet that has entries, each once,
    in strictly ascending order of the names.  A row is marked current
    exactly when its sheet is the current one, so no row is marked when
    the current sheet has no entry; the total of a row is the sum over the
    entries of its sheet, an open one counted through now, and the totals
    of the rows add up to that sum over the whole table. *)
Theorem list_rows `{Host} (s : state) :
  match entry_table (db s) with
  | [] =>
      commands.list false s
      = Done tt (mkState (db s) (stdout s ++ [Print "(no sheets)" Py.newline]))
  | _ :: _ =>
      exists rows,
        commands.list false s
        = Done tt
            (mkState (db s)
               (stdout s
                ++ [PrintTable
                      ([" Timesheet"; "Running"; "Today"; "Total time"]
                       :: map commands.list_row rows)
                      false]))
        /\ StronglySorted sheet_lt (map name rows)
        /\ (forall n, In n (map name rows)
                      <-> exists e, In e (entry_table (db s)) /\ sheet e = n)
        /\ (forall r, In r rows ->
              (is_current r = true <-> name r = current_sheet (db s))
              /\ total r = sum_durations (filter (on_sheet (name r)) (entry_table (db s))))
        /\ fold_right (fun r acc => total r + acc) 0 rows
           = sum_durations (entry_table (db s))
  end.
Proof.
  destruct (distinct_sheets_spec (entry_table (db s))) as [Hs Hin].
  assert (Hnames : map name (commands.list_query (db s))
                   = distinct_sheets (entry_table (db s))).
  { unfold commands.list_query. rewrite map_map. cbn [name]. apply map_id. }
  destruct (entry_table (db s)) as [|e0 l] eqn:Etab.
  - unfold commands.list, bind, query, print, emit, commands.list_query.
    rewrite Etab. reflexivity.
  - exists (commands.list_query (db s)).
    assert (Hnonempty : distinct_sheets (entry_table (db s)) <> []).
    { rewrite Etab. intros E.
      assert (Hi : In (sheet e0) (distinct_sheets (e0 :: l))).
      { apply Hin. exists e0. split; [now left|reflexivity]. }
      now rewrite E in Hi. }
    split; [|split; [|split; [|split]]].
    + unfold commands.list, bind, query, emit.
      rewrite <- (length_map name), Hnames.
      rewrite Etab in Hnonempty.
      destruct (distinct_sheets (e0 :: l)); [contradiction|reflexivity].
    + rewrite Hnames. exact Hs.
    + intros n. rewrite Hnames. apply Hin.
    + intros r Hr. unfold commands.list_query in Hr. apply in_map_iff in Hr.
      destruct Hr as (n & <- & _). cbn [is_current name total].
      rewrite Etab. split; [apply String.eqb_eq|reflexivity].
    + rewrite <- (sheet_totals_add_up (distinct_sheets (e0 :: l))).
      * unfold commands.list_query. rewrite Etab.
        rewrite sum_of_map. reflexivity.
      * now apply strictly_sorted_sheets_NoDup.
      * intros e He. apply Hin. now exists e.
Qed.

(** A clock-in that returns has found the sheet idle and has appended the
    new row. *)
Lemma insert_checked_done `{Host} (sh : string) (t : Z) (words : list string)
  (ext : option string) (s s' : state) :
  insert_checked sh t false words ext s = Done tt s' ->
  find (active_on sh) (entry_table (db s)) = None
  /\ s' = mkState
            (mkDb (clocked_in (db s) sh t (Py.or_None (Py.join " " words)) ext)
                  (current_sheet (db s)))
            (stdout s).
Proof.
  unfold insert_checked.
  destruct (find (active_on sh) (entry_table (db s))); [discriminate|].
  destruct (dbutil.most_recent_closed _) as [[pt pd]|].
  - destruct (t <? pt); [discriminate|]. intros [= <-]. now split.
  - intros [= <-]. now split.
Qed.

(** What [now] shows of the current sheet once it has an active entry. *)
Lemma now_on_active `{Host} (prog : string) (notes : bool) (s : state) (e : entry) :
  find (active_on (current_sheet (db s))) (entry_table (db s)) = Some e ->
  commands.now prog None false notes s
  = Done tt
      (mkState (db s)
         (stdout s
          ++ [Print
                (match description e with
                 | Some d =>
                     if Py.truthy (description e)
                     then if notes then rstrip_char "." d
                          else current_sheet (db s) +++ ": "
                               +++ (str_timedelta (now - start_time e) +++ " ("
                                    +++ rstrip_char "." d +++ ")")
                     else if notes then EmptyString
                          else current_sheet (db s) +++ ": "
                               +++ str_timedelta (now - start_time e)
                 | None =>
                     if notes then EmptyString
                     else current_sheet (db s) +++ ": "
                          +++ str_timedelta (now - start_time e)
                 end)
                Py.newline])).
Proof.
  intros Hfind.
  assert (Hin : In e (filter (on_sheet (current_sheet (db s))) (entry_table (db s)))).
  { apply find_some in Hfind. destruct Hfind as [Hin Hact].
    apply filter_In. split; [exact Hin|].
    unfold active_on in Hact. now apply andb_prop in Hact. }
  unfold commands.now, grab_sheet, bind, dbutil.get_current_sheet,
    dbutil.get_entry_count, dbutil.get_active_info, query.
  cbn [db].
  destruct (filter (on_sheet (current_sheet (db s))) (entry_table (db s)))
    as [|a l]; [contradiction|].
  replace (Z.of_nat (List.length (a :: l)) =? 0) with false
    by (symmetry; apply Z.eqb_neq; cbn [List.length]; lia).
  rewrite Hfind. unfold print, emit.
  destruct (description e) as [d|]; [|destruct notes; reflexivity].
  destruct (Py.truthy (Some d)); destruct notes; reflexivity.
Qed.

(** X12: [now] after a clock-in that returned, whatever its options
    [--switch], [--out] and [--at], the clock of the host read afresh by
    each command: it returns with the store untouched and prints the sheet
    the clock-in went to, the time elapsed since the timestamp of the
    clock-in and, in parentheses, the notes of the clock-in without their
    trailing dots; with [--notes] it prints those notes alone.  Without
    notes it prints the sheet and the elapsed time, and with [--notes] an
    empty line. *)
Theorem now_after_clock_in (host_in host_now : Host) (prog : string)
  (words : list string) (switch_to : option string) (o : bool)
  (at_ : option Z) (ext : option string) (notes : bool) (s s' : state) :
  @in_ host_in words switch_to o at_ false ext s = Done tt s' ->
  @commands.now host_now prog None false notes s'
  = Done tt
      (mkState (db s')
         (stdout s'
          ++ [Print
                (if String.eqb (Py.join " " words) EmptyString
                 then if notes then EmptyString
                      else in_target switch_to (db s) +++ ": "
                           +++ @str_timedelta host_now
                                 (@now host_now
                                  - @cmdutil.parse_date_time_or_now host_in at_)
                 else if notes then rstrip_char "." (Py.join " " words)
                      else in_target switch_to (db s) +++ ": "
                           +++ (@str_timedelta host_now
                                  (@now host_now
                                   - @cmdutil.parse_date_time_or_now host_in at_)
                                +++ " (" +++ rstrip_char "." (Py.join " " words)
                                +++ ")"))
                Py.newline])).
Proof.
  rewrite in_eq. cbn [conflicting andb].
  set (sh := in_target switch_to (db s)).
  set (t := @cmdutil.parse_date_time_or_now host_in at_).
  intros Hin.
  assert (Hs2 : exists s2,
             current_sheet (db s2) = sh
             /\ @insert_checked host_in sh t false words ext s2 = Done tt s').
  { destruct o.
    - rewrite clock_out_eq in Hin. cbn [db entry_table current_sheet stdout] in Hin.
      destruct (find _ _) as [a|]; [|discriminate].
      destruct (_ <? 0); [discriminate|].
      eexists; split; [|exact Hin]. reflexivity.
    - unfold ret in Hin. eexists; split; [|exact Hin]. reflexivity. }
  destruct Hs2 as (s2 & Hcur & Hdone).
  apply insert_checked_done in Hdone. destruct Hdone as [Hidle ->].
  pose proof (find_new_active sh (entry_table (db s2))
                (sql.next_id (entry_table (db s2))) t
                (Py.or_None (Py.join " " words)) ext Hidle) as Hnew.
  rewrite (@now_on_active host_now prog notes _
             (mkEntry (sql.next_id (entry_table (db s2))) sh t None
                (Py.or_None (Py.join " " words)) ext)).
  - cbn [db stdout current_sheet description start_time]. rewrite Hcur.
    unfold Py.or_None, Py.truthy.
    destruct (String.eqb (Py.join " " words) EmptyString) eqn:E;
      [reflexivity|].
    cbn [negb]. rewrite E. reflexivity.
  - cbn [db current_sheet entry_table]. rewrite Hcur. exact Hnew.
Qed.

Lemma now_after_clock_in_witness :
  @in_ (utc_host 1397497000) ["Writing"; "docs..."] (Some "work") false None
     false None fresh
  = Done tt
      (mkState (mkDb [mkEntry 1 "work" 1397497000 None (Some "Writing docs...") None]
                  "work")
         [])
  /\ @commands.now (utc_host 1397498000) "t" None false false
       (mkState (mkDb [mkEntry 1 "work" 1397497000 None (Some "Writing docs...") None]
                   "work")
          [])
     = Done tt
         (mkState (mkDb [mkEntry 1 "work" 1397497000 None (Some "Writing docs...") None]
                     "work")
            [Print "work: 1000 (Writing docs)" Py.newline]).
Proof.
  assert (Hin : @in_ (utc_host 1397497000) ["Writing"; "docs..."] (Some "work")
                  false None false None fresh
                = Done tt
                    (mkState
                       (mkDb [mkEntry 1 "work" 1397497000 None
                                (Some "Writing docs...") None] "work") []))
    by reflexivity.
  split; [exact Hin|].
  exact (now_after_clock_in (utc_host 1397497000) (utc_host 1397498000) "t"
           ["Writing"; "docs..."] (Some "work") false None None false fresh _ Hin).
Defined.

(** ** After a kill *)

(** The state a confirmed kill returns. *)
Lemma kill_confirmed_eq `{Host} (timesheet answer : option string) (s : state) :
  confirms answer = true ->
  kill timesheet answer s
  = Done tt
      (mkState
         (mkDb (filter (fun e => negb (on_sheet (kill_target timesheet (db s)) e))
                       (entry_table (db s)))
               (if Py.truthy timesheet then current_sheet (db s) else "default"))
         (stdout s
          ++ [Print ("delete timesheet " +++ kill_target timesheet (db s) +++ "?")
                " "])).
Proof.
  intros Hyes. unfold kill.
  destruct (kill_prompt_target timesheet s) as [b [Ht Hb]].
  unfold bind at 1. rewrite Ht.
  destruct answer as [a|]; unfold confirms in Hyes; [|discriminate].
  unfold bind at 1. unfold print_end, emit.
  unfold bind at 1. unfold ret at 1. rewrite Hyes. cbn [negb].
  unfold bind at 1. unfold sql.delete_sheet, execute. cbn [db stdout].
  subst b.
  destruct (Py.truthy timesheet) eqn:E; cbn [negb].
  - reflexivity.
  - rewrite switch_quiet. reflexivity.
Qed.

(** [now] on a current sheet without entries. *)
Lemma now_on_empty_sheet `{Host} (prog : string) (notes : bool) (s : state) :
  filter (on_sheet (current_sheet (db s))) (entry_table (db s)) = [] ->
  commands.now prog None false notes s = Raised (commands.EmptySheet prog) s.
Proof.
  intros Hempty.
  unfold commands.now, grab_sheet, bind, dbutil.get_current_sheet,
    dbutil.get_entry_count, query.
  cbn [db]. rewrite Hempty. reflexivity.
Qed.

(** X13: after a confirmed kill, whatever the clock of the host reads
    then and later, [list --simple] prints the names of the sheets that
    had entries before, but for the sheet killed; and when the
    pointer is on the sheet killed, which happens when the current sheet
    is killed by its name or when [default] is the current sheet and is
    killed without a name, [now] fails: the sheet is empty. *)
Theorem kill_then_listings (host_kill host_after : Host)
  (timesheet answer : option string) (s : state) :
  confirms answer = true ->
  exists s' names,
    @run_command host_kill (Kill timesheet answer) s = Done tt s'
    /\ @commands.list host_after true s'
       = Done tt
           (mkState (db s')
              (stdout s' ++ [Print (Py.join Py.newline names) Py.newline]))
    /\ (forall n, In n names
                  <-> (exists e, In e (entry_table (db s)) /\ sheet e = n)
                      /\ n <> kill_target timesheet (db s))
    /\ (current_sheet (db s') = kill_target timesheet (db s)
        <-> (Py.truthy timesheet = true /\ timesheet = Some (current_sheet (db s)))
            \/ (Py.truthy timesheet = false /\ current_sheet (db s) = "default"))
    /\ (current_sheet (db s') = kill_target timesheet (db s) ->
        forall prog notes,
          @commands.now host_after prog None false notes s'
          = Raised (commands.EmptySheet prog) s').
Proof.
  intros Hyes.
  set (target := kill_target timesheet (db s)).
  set (rest := filter (fun e => negb (on_sheet target e)) (entry_table (db s))).
  exists (mkState
            (mkDb rest (if Py.truthy timesheet then current_sheet (db s) else "default"))
            (stdout s ++ [Print ("delete timesheet " +++ target +++ "?") " "])),
         (distinct_sheets rest).
  split; [|split; [|split; [|split]]].
  - unfold run_command, call. now rewrite kill_confirmed_eq.
  - reflexivity.
  - intros n. destruct (distinct_sheets_spec rest) as [_ Hin]. rewrite Hin.
    unfold rest. split.
    + intros (e & He & <-). apply filter_In in He. destruct He as [He Hoff].
      split; [now exists e|]. intros E. unfold on_sheet in Hoff.
      rewrite E, String.eqb_refl in Hoff. discriminate.
    + intros [(e & He & <-) Hne]. exists e. split; [|reflexivity].
      apply filter_In. split; [exact He|]. unfold on_sheet.
      destruct (String.eqb_spec (sheet e) target); [contradiction|reflexivity].
  - cbn [db current_sheet]. unfold target, kill_target.
    destruct timesheet as [t|]; [destruct (Py.truthy (Some t)) eqn:E|].
    + split.
      * intros ->. now left.
      * intros [[_ [= ->]]|[Hf _]]; [reflexivity|discriminate].
    + split.
      * intros <-. now right.
      * intros [[Ht _]|[_ ->]]; [discriminate|reflexivity].
    + cbn [Py.truthy]. split.
      * intros <-. now right.
      * intros [[Ht _]|[_ ->]]; [discriminate|reflexivity].
  - cbn [db current_sheet]. intros Hcur prog notes.
    apply now_on_empty_sheet. cbn [db current_sheet entry_table].
    rewrite Hcur. fold target. unfold rest.
    clear. induction (entry_table (db s)) as [|a l IH]; [reflexivity|].
    cbn [filter]. destruct (on_sheet target a) eqn:E; cbn [negb]; [exact IH|].
    cbn [filter]. rewrite E. exact IH.
Qed.

Lemma kill_then_listings_witness :
  confirms (Some "y") = true
  /\ exists s' names,
       @run_command (utc_host 1397497900) (Kill (Some "default") (Some "y")) ended = Done tt s'
       /\ @commands.list test_host true s'
          = Done tt
              (mkState (db s')
                 (stdout s' ++ [Print (Py.join Py.newline names) Py.newline]))
       /\ (forall n, In n names
                     <-> (exists e, In e (entry_table (db ended)) /\ sheet e = n)
                         /\ n <> kill_target (Some "default") (db ended))
       /\ (current_sheet (db s') = kill_target (Some "default") (db ended)
           <-> (Py.truthy (Some "default") = true
                /\ Some "default" = Some (current_sheet (db ended)))
               \/ (Py.truthy (Some "default") = false
                   /\ current_sheet (db ended) = "default"))
       /\ (current_sheet (db s') = kill_target (Some "default") (db ended) ->
           forall prog notes,
             @commands.now test_host prog None false notes s'
             = Raised (commands.EmptySheet prog) s').
Proof.
  assert (Hyes : confirms (Some "y") = true) by reflexivity.
  split; [exact Hyes|].
  exact (kill_then_listings (utc_host 1397497900) test_host (Some "default") (Some "y") ended Hyes).
Defined.

(** ** [now] after [alter] *)

(** The active entry of a sheet after the description of that entry is
    set: the same entry with the new description, also when other rows
    share its id. *)
Lemma find_after_description (sh descr : string) (l : list entry) (e : entry) :
  find (active_on sh) l = Some e ->
  find (active_on sh) (sql.update_where_id (sql.set_description descr) (id e) l)
  = Some (sql.set_description descr e).
Proof.
  unfold sql.update_where_id.
  induction l as [|a l IH]; cbn [find map]; [discriminate|].
  destruct (active_on sh a) eqn:Ea.
  - intros [= ->]. rewrite Z.eqb_refl.
    change (active_on sh (sql.set_description descr e)) with (active_on sh e).
    now rewrite Ea.
  - intros Hf.
    replace (active_on sh (if id a =? id e then sql.set_description descr a else a))
      with false.
    + now apply IH.
    + destruct (id a =? id e); [|now rewrite Ea].
      change (active_on sh (sql.set_description descr a)) with (active_on sh a).
      now rewrite Ea.
Qed.

(** X14: [alter] on a current sheet with an active entry, then [now], the
    clock of the host read afresh by each command: the alter returns and
    prints nothing, and [now] shows the current sheet, the time elapsed
    since the start of that entry and, in parentheses, the new notes
    without their trailing dots; with [--notes] it prints those notes
    alone.  When the words join to the empty string, no parentheses are
    shown. *)
Theorem alter_then_now (host_alter host_now : Host) (prog : string)
  (words : list string) (notes : bool) (s : state) (e : entry) :
  find (active_on (current_sheet (db s))) (entry_table (db s)) = Some e ->
  exists s',
    @run_command host_alter (Alter words) s = Done tt s'
    /\ stdout s' = stdout s
    /\ current_sheet (db s') = current_sheet (db s)
    /\ @commands.now host_now prog None false notes s'
       = Done tt
           (mkState (db s')
              (stdout s'
               ++ [Print
                     (if String.eqb (Py.join " " words) EmptyString
                      then if notes then EmptyString
                           else current_sheet (db s) +++ ": "
                                +++ @str_timedelta host_now
                                      (@now host_now - start_time e)
                      else if notes then rstrip_char "." (Py.join " " words)
                           else current_sheet (db s) +++ ": "
                                +++ (@str_timedelta host_now
                                       (@now host_now - start_time e)
                                     +++ " (" +++ rstrip_char "." (Py.join " " words)
                                     +++ ")"))
                     Py.newline])).
Proof.
  intros Hfind.
  exists (mkState
            (mkDb (sql.update_where_id (sql.set_description (Py.join " " words))
                     (id e) (entry_table (db s)))
                  (current_sheet (db s)))
            (stdout s)).
  split; [|split; [reflexivity|split; [reflexivity|]]].
  - unfold run_command, call, alter, bind, dbutil.get_current_active_info, query.
    rewrite Hfind. reflexivity.
  - rewrite (@now_on_active host_now prog notes _
               (sql.set_description (Py.join " " words) e)).
    + cbn [db stdout current_sheet description start_time sql.set_description].
      unfold Py.truthy.
      destruct (String.eqb (Py.join " " words) EmptyString);
        destruct notes; reflexivity.
    + cbn [db current_sheet entry_table]. now apply find_after_description.
Qed.

Lemma alter_then_now_witness :
  find (active_on (current_sheet (db started))) (entry_table (db started))
  = Some (mkEntry 1 "default" 1397497538 None (Some "Working") None)
  /\ exists s',
       @run_command (utc_host 1397497600) (Alter ["Testing"; "alter."]) started
       = Done tt s'
       /\ stdout s' = stdout started
       /\ current_sheet (db s') = current_sheet (db started)
       /\ @commands.now (utc_host 1397498000) "t" None false true s'
          = Done tt (mkState (db s') (stdout s' ++ [Print "Testing alter" Py.newline])).
Proof.
  assert (Hfind : find (active_on (current_sheet (db started)))
                    (entry_table (db started))
                  = Some (mkEntry 1 "default" 1397497538 None (Some "Working") None))
    by reflexivity.
  split; [exact Hfind|].
  exact (alter_then_now (utc_host 1397497600) (utc_host 1397498000) "t"
           ["Testing"; "alter."] true started _ Hfind).
Defined.

(** ** The listings read the store and only print *)

(** X15: [list], [running], [now] and [display] never write to the store,
    whatever their arguments and whether they return or raise: the entry
    rows and the pointer after them are those before, so the dispatcher
    has nothing to commit or to roll back. *)
Theorem listings_read_only `{Host} (s : state) :
  (forall simple, db (state_of (commands.list simple s)) = db s)
  /\ db (state_of (commands.running s)) = db s
  /\ (forall prog timesheet simple notes,
        db (state_of (commands.now prog timesheet simple notes s)) = db s)
  /\ (forall timesheet format start end_,
        db (state_of (display timesheet format start end_ s)) = db s
        /\ db (state_of (run_command (Display timesheet format start end_) s)) = db s).
Proof.
  split; [|split; [|split]].
  - intros [|]; unfold commands.list, bind, query, print, emit; [reflexivity|].
    destruct (Nat.eqb _ 0); reflexivity.
  - reflexivity.
  - intros prog timesheet simple notes. unfold commands.now.
    destruct simple; [reflexivity|].
    unfold bind at 1.
    destruct (grab_sheet_pure timesheet s) as [[sh E]|[e E]]; rewrite E;
      [|reflexivity].
    unfold bind, dbutil.get_entry_count, dbutil.get_active_info, query.
    destruct (_ =? 0); [reflexivity|].
    destruct notes; reflexivity.
  - intros timesheet format start end_.
    pose proof (display_keeps_store timesheet format start end_ s) as Hd.
    split; [exact Hd|].
    unfold run_command, call.
    destruct (display timesheet format start end_ s); [exact Hd|reflexivity].
Qed.

(** ** The directories of a path *)

Lemma find_from_none (c : ascii) (s : string) (k : nat) :
  config.find_from c s k = None ->
  forall i a, (k <= i)%nat -> String.get i s = Some a -> Ascii.eqb a c = false.
Proof.
  revert k. induction s as [|b s IH]; intros k Hf i a Hk Hget.
  - destruct i; discriminate.
  - cbn [config.find_from] in Hf. destruct k as [|k].
    + destruct (Ascii.eqb b c) eqn:Eb; [discriminate|].
      destruct (config.find_from c s 0) eqn:E0; [discriminate|].
      destruct i as [|i]; cbn [String.get] in Hget.
      * now injection Hget as <-.
      * apply (IH 0%nat E0 i a); [lia|exact Hget].
    + destruct (config.find_from c s k) eqn:E0; [discriminate|].
      destruct i as [|i]; [lia|]. cbn [String.get] in Hget.
      apply (IH k E0 i a); [lia|exact Hget].
Qed.

Lemma find_from_some (c : ascii) (s : string) (k i : nat) :
  config.find_from c s k = Some i ->
  (k <= i < String.length s)%nat
  /\ String.get i s = Some c
  /\ forall j a, (k <= j < i)%nat -> String.get j s = Some a -> Ascii.eqb a c = false.
Proof.
  revert k i. induction s as [|b s IH]; intros k i Hf; [discriminate|].
  cbn [config.find_from] in Hf. destruct k as [|k].
  - destruct (Ascii.eqb_spec b c) as [->|Hne].
    + injection Hf as <-. cbn [String.length String.get].
      split; [lia|]. split; [reflexivity|]. intros j a Hj. lia.
    + destruct (config.find_from c s 0) as [i0|] eqn:E0; [|discriminate].
      injection Hf as <-. destruct (IH _ _ E0) as (Hr & Hg & Hbefore).
      cbn [String.length String.get].
      split; [lia|]. split; [exact Hg|].
      intros j a Hj Hget. destruct j as [|j]; cbn [String.get] in Hget.
      * injection Hget as <-. now apply Ascii.eqb_neq.
      * apply (Hbefore j a); [lia|exact Hget].
  - destruct (config.find_from c s k) as [i0|] eqn:E0; [|discriminate].
    injection Hf as <-. destruct (IH _ _ E0) as (Hr & Hg & Hbefore).
    cbn [String.length String.get].
    split; [lia|]. split; [exact Hg|].
    intros j a Hj Hget. destruct j as [|j]; [lia|]. cbn [String.get] in Hget.
    apply (Hbefore j a); [lia|exact Hget].
Qed.

Lemma filter_seq_none (p : nat -> bool) (k n : nat) :
  (forall j, (k <= j < k + n)%nat -> p j = false) ->
  filter p (seq k n) = [].
Proof.
  revert k. induction n as [|n IH]; intros k Hp; [reflexivity|].
  cbn [seq filter]. rewrite (Hp k) by lia. apply IH. intros j Hj. apply Hp. lia.
Qed.

(** With fuel for the characters that are left, the loop yields the
    prefixes that end at the separators from [k] on. *)
Lemma subdirs_loop_spec (path : string) (fuel k : nat) :
  (String.length path < fuel + k)%nat ->
  (k <= String.length path)%nat ->
  config.subdirs_loop fuel path (config.find_from config.sep path k)
  = map (fun i => String.substring 0 (S i) path)
        (filter (sep_at path) (seq k (String.length path - k))).
Proof.
  revert k. induction fuel as [|fuel IH]; intros k Hfuel Hk; [lia|].
  cbn [config.subdirs_loop].
  destruct (config.find_from config.sep path k) as [i|] eqn:Hf.
  - destruct (find_from_some _ _ _ _ Hf) as (Hr & Hg & Hbefore).
    replace (String.length path - k)%nat
      with ((i - k) + S (String.length path - S i))%nat by lia.
    rewrite seq_app, filter_app.
    rewrite filter_seq_none.
    + replace (k + (i - k))%nat with i by lia.
      cbn [seq filter app]. unfold sep_at at 1. rewrite Hg, Ascii.eqb_refl.
      cbn [map]. f_equal. apply IH; lia.
    + intros j Hj. unfold sep_at.
      destruct (String.get j path) as [a|] eqn:Hget; [|reflexivity].
      apply (Hbefore j a); [lia|exact Hget].
  - rewrite filter_seq_none; [reflexivity|].
    intros j Hj. unfold sep_at.
    destruct (String.get j path) as [a|] eqn:Hget; [|reflexivity].
    apply (find_from_none _ _ _ Hf j a); [lia|exact Hget].
Qed.

Lemma sep_at_in_range (s : string) (i : nat) :
  sep_at s i = true -> (i < String.length s)%nat.
Proof.
  unfold sep_at. revert i. induction s as [|b s IH]; intros i Hi.
  - destruct i; discriminate.
  - destruct i as [|i]; cbn [String.length]; [lia|].
    cbn [String.get] in Hi. apply IH in Hi. lia.
Qed.

Lemma substring_0_0 (s : string) : String.substring 0 0 s = EmptyString.
Proof. destruct s; reflexivity. Qed.

(** The prefixes that end at a separator are the prefixes that end with
    one. *)
Lemma dir_prefix_iff (p d : string) :
  (exists i, sep_at p i = true /\ d = String.substring 0 (S i) p)
  <-> String.prefix d p = true /\ exists d', d = d' +++ "/".
Proof.
  revert d. induction p as [|b p IH]; intros d.
  - split.
    + intros (i & Hi & _). destruct i; discriminate.
    + intros [Hp (d' & ->)]. destruct d'; discriminate.
  - split.
    + intros (i & Hi & ->). destruct i as [|i].
      * unfold sep_at in Hi. cbn [String.get] in Hi.
        apply Ascii.eqb_eq in Hi. subst b.
        change (String.substring 0 1 (String config.sep p))
          with (String config.sep (String.substring 0 0 p)).
        rewrite substring_0_0. cbn [String.prefix].
        destruct (ascii_dec config.sep config.sep) as [_|Hne]; [|contradiction].
        split; [now destruct p|]. now exists EmptyString.
      * destruct (proj1 (IH (String.substring 0 (S i) p))) as [Hp (d' & Hd)].
        { exists i. split; [exact Hi|reflexivity]. }
        change (String.substring 0 (S (S i)) (String b p))
          with (String b (String.substring 0 (S i) p)).
        cbn [String.prefix].
        destruct (ascii_dec b b) as [_|Hne]; [|contradiction].
        split; [exact Hp|]. exists (String b d'). rewrite Hd. reflexivity.
    + intros [Hp (d' & ->)]. destruct d' as [|a d'].
      * cbn [String.append String.prefix] in Hp.
        destruct (ascii_dec "/" b) as [<-|]; [|discriminate].
        exists 0%nat. split; [reflexivity|].
        change (String.substring 0 1 (String "/" p))
          with (String "/" (String.substring 0 0 p)).
        now rewrite substring_0_0.
      * cbn [String.append String.prefix] in Hp.
        destruct (ascii_dec a b) as [<-|]; [|discriminate].
        destruct (proj2 (IH (d' +++ "/"))) as (i & Hi & Hd).
        { split; [exact Hp|]. now exists d'. }
        exists (S i). split; [exact Hi|].
        change (String.substring 0 (S (S i)) (String a p))
          with (String a (String.substring 0 (S i) p)).
        cbn [String.append]. now rewrite Hd.
Qed.

Lemma length_substring_prefix (s : string) (n : nat) :
  (n <= String.length s)%nat -> String.length (String.substring 0 n s) = n.
Proof.
  revert n. induction s as [|b s IH]; intros n Hn.
  - cbn [String.length] in Hn. destruct n; [reflexivity|lia].
  - destruct n as [|n]; [now rewrite substring_0_0|].
    cbn [String.length] in Hn.
    change (String.substring 0 (S n) (String b s))
      with (String b (String.substring 0 n s)).
    cbn [String.length]. rewrite IH by lia. reflexivity.
Qed.

Lemma seq_strictly_sorted (k n : nat) : StronglySorted lt (seq k n).
Proof.
  revert k. induction n as [|n IH]; intros k; cbn [seq]; constructor.
  - apply IH.
  - apply Forall_forall. intros j Hj. apply in_seq in Hj. lia.
Qed.

Lemma StronglySorted_map_in {A B : Type} (R : A -> A -> Prop) (R' : B -> B -> Prop)
  (g : A -> B) (l : list A) :
  (forall a b, In a l -> In b l -> R a b -> R' (g a) (g b)) ->
  StronglySorted R l -> StronglySorted R' (map g l).
Proof.
  intros Hg S. induction S as [|x l S IH Hx]; cbn [map]; constructor.
  - apply IH. intros a b Ha Hb. apply Hg; now right.
  - rewrite Forall_forall in Hx |- *. intros y Hy. apply in_map_iff in Hy.
    destruct Hy as (z & <- & Hz). apply Hg; [now left|now right|auto].
Qed.

(** X16: [subdirs] runs to its end within one round for each character of
    the absolute path, and more fuel changes nothing.  It yields, from the
    shortest to the longest, the prefixes of the absolute path that end at
    one of its separators: a string is yielded exactly when it is a prefix
    of the absolute path and ends with the separator, so the path itself is
    yielded only when it ends with one. *)
Theorem subdirs_yields_directory_prefixes (abspath : string -> string)
  (path : string) :
  (forall fuel, (String.length (abspath path) < fuel)%nat ->
     config.subdirs_loop fuel (abspath path)
       (config.find_from config.sep (abspath path) 0)
     = config.subdirs abspath path)
  /\ config.subdirs abspath path
     = map (fun i => String.substring 0 (S i) (abspath path))
           (sep_positions (abspath path))
  /\ (forall d, In d (config.subdirs abspath path)
                <-> String.prefix d (abspath path) = true
                    /\ exists d', d = d' +++ "/")
  /\ StronglySorted (fun a b => (String.length a < String.length b)%nat)
       (config.subdirs abspath path).
Proof.
  set (p := abspath path).
  assert (Hloop : forall fuel, (String.length p < fuel)%nat ->
            config.subdirs_loop fuel p (config.find_from config.sep p 0)
            = map (fun i => String.substring 0 (S i) p) (sep_positions p)).
  { intros fuel Hfuel. rewrite subdirs_loop_spec by lia.
    unfold sep_positions. now rewrite Nat.sub_0_r. }
  assert (Hsub : config.subdirs abspath path
                 = map (fun i => String.substring 0 (S i) p) (sep_positions p)).
  { unfold config.subdirs. fold p. apply Hloop. lia. }
  split; [|split; [exact Hsub|split]].
  - intros fuel Hfuel. rewrite Hsub. now apply Hloop.
  - intros d. rewrite Hsub, <- dir_prefix_iff, in_map_iff. split.
    + intros (i & <- & Hi). apply filter_In in Hi. exists i.
      split; [apply Hi|reflexivity].
    + intros (i & Hi & ->). exists i. split; [reflexivity|].
      apply filter_In. split; [|exact Hi].
      apply in_seq. apply sep_at_in_range in Hi. lia.
  - rewrite Hsub.
    apply (StronglySorted_map_in lt).
    + intros a b Ha Hb Hab.
      apply filter_In in Ha. apply filter_In in Hb.
      destruct Ha as [_ Ha], Hb as [_ Hb].
      apply sep_at_in_range in Ha. apply sep_at_in_range in Hb.
      rewrite !length_substring_prefix by lia. lia.
    + apply StronglySorted_filter, seq_strictly_sorted.
Qed.

(** The directories of a configuration file, the absolute path given. *)
Example subdirs_of_config_file :
  config.subdirs (fun p => p) "/home/me/.config/timebook/timebook.ini"
  = ["/"; "/home/"; "/home/me/"; "/home/me/.config/";
     "/home/me/.config/timebook/"].
Proof. reflexivity. Qed.

(** The ids stay unique when the fixture [start] is clocked out. *)
Lemma unique_ids_invariant_witness :
  unique_ids (db started)
  /\ unique_ids (db (state_of (@call test_host (Out None false) started)))
  /\ unique_ids (db (state_of (@run_command test_host (Out None false) started))).
Proof.
  assert (Hs : unique_ids (db started)).
  { unfold unique_ids, unique_rows, started. cbn [db entry_table map id].
    repeat constructor. intros []. }
  split; [exact Hs|].
  exact (@unique_ids_invariant test_host (Out None false) started Hs).
Defined.

(** ** Clock-out at the time that was asked for *)

(** X18: a clock-out on a sheet whose active entry [e] started at [S], at
    the time [T] that was asked for: the timestamp passed to [clock_out]
    when there is one, otherwise the time of [--at], otherwise the clock.
    Unless the timestamp passed is [0], the clock-out fails with
    [NegativeDuration] exactly when [T - S < 0], the store being untouched
    then; otherwise it returns and the table is the old one with
    [end_time = T] set on [e], whose other columns, like every other row
    and the pointer, are unchanged.  When verbose, the duration [T - S] is
    printed in both cases, before the failure too. *)
Theorem clock_out_at_requested_time `{Host}
  (at_ timestamp : option Z) (verbose : bool) (s : state) (e : entry) (T : Z) :
  unique_ids (db s) ->
  find (active_on (current_sheet (db s))) (entry_table (db s)) = Some e ->
  timestamp <> Some 0 ->
  T = match timestamp, at_ with
      | Some t, _ => t
      | None, Some a => a
      | None, None => now
      end ->
  ((exists s', clock_out at_ verbose timestamp s = Raised NegativeDuration s')
   <-> T - start_time e < 0)
  /\ (T - start_time e < 0 ->
      clock_out at_ verbose timestamp s
      = Raised NegativeDuration
          (mkState (db s)
             (stdout s
              ++ if verbose
                 then [Print (str_timedelta (T - start_time e)) Py.newline]
                 else [])))
  /\ (0 <= T - start_time e ->
      exists before after,
        entry_table (db s) = before ++ e :: after
        /\ clock_out at_ verbose timestamp s
           = Done tt
               (mkState
                  (mkDb (before
                         ++ mkEntry (id e) (sheet e) (start_time e) (Some T)
                              (description e) (extra e)
                         :: after)
                        (current_sheet (db s)))
                  (stdout s
                   ++ if verbose
                      then [Print (str_timedelta (T - start_time e)) Py.newline]
                      else []))).
Proof.
  intros Hids Hf Hnz HT.
  assert (Hc : chosen_timestamp at_ timestamp = T).
  { subst T. unfold chosen_timestamp, cmdutil.parse_date_time_or_now, Py.truthy_int.
    destruct timestamp as [t|]; [|destruct at_; reflexivity].
    destruct (Z.eqb_spec t 0) as [->|_]; [now contradiction Hnz|reflexivity]. }
  destruct (find_split _ _ _ Hf) as (before & after & Htab & _ & _).
  rewrite clock_out_eq, Hf, Hc.
  assert (Hneg : T - start_time e < 0 -> (T - start_time e <? 0) = true)
    by (intros Hlt; now apply Z.ltb_lt).
  assert (Hpos : 0 <= T - start_time e -> (T - start_time e <? 0) = false)
    by (intros Hge; now apply Z.ltb_ge).
  split; [|split].
  - split.
    + intros [s' Hr].
      destruct (Z.lt_ge_cases (T - start_time e) 0) as [Hlt|Hge]; [exact Hlt|].
      rewrite (Hpos Hge) in Hr. discriminate.
    + intros Hlt. rewrite (Hneg Hlt). eexists. reflexivity.
  - intros Hlt. now rewrite (Hneg Hlt).
  - intros Hge. rewrite (Hpos Hge). exists before, after.
    split; [exact Htab|].
    unfold unique_ids in Hids. rewrite Htab in Hids |- *.
    now rewrite update_where_id_unique by assumption.
Qed.

Lemma clock_out_at_requested_time_witness :
  unique_ids (db started)
  /\ find (active_on (current_sheet (db started))) (entry_table (db started))
     = Some (mkEntry 1 "default" 1397497538 None (Some "Working") None)
  /\ Some 1397497838 <> Some 0
  /\ (0 <= 1397497838 - 1397497538 ->
      exists before after,
        entry_table (db started)
        = before ++ mkEntry 1 "default" 1397497538 None (Some "Working") None :: after
        /\ @clock_out (utc_host 1397498000) None true (Some 1397497838) started
           = Done tt
               (mkState
                  (mkDb (before
                         ++ mkEntry 1 "default" 1397497538 (Some 1397497838)
                              (Some "Working") None
                         :: after)
                        "default")
                  [Print "300" Py.newline])).
Proof.
  assert (Hids : unique_ids (db started)).
  { unfold unique_ids. simpl. constructor; [intros []|constructor]. }
  assert (Hnz : Some 1397497838 <> Some 0) by discriminate.
  split; [exact Hids|]. split; [reflexivity|]. split; [exact Hnz|].
  exact (proj2 (proj2 (@clock_out_at_requested_time (utc_host 1397498000)
                         None (Some 1397497838) true started
                         (mkEntry 1 "default" 1397497538 None (Some "Working") None)
                         1397497838 Hids eq_refl Hnz eq_refl))).
Defined.
